(** * e-learning-front: session, authorization and live-channel layer

    A shallow embedding of the client-side core of the course-management
    front end: the API gateway ([src/lib/api.ts]), the session manager
    ([src/contexts/AuthContext.tsx]), the admin live event channel
    ([src/pages/admin/AdminDashboard.tsx]) and the course chat
    ([CourseChat], stored with [src/components/Layout.tsx]).

    Conventions of the embedding.
    - JavaScript values that cross the network are JSON values; a value
      that may be [undefined] is a [Value].  Numbers are the integers
      that JavaScript prints in decimal notation ([Z]).
    - Strings are byte strings (the UTF-8 encoding of the JavaScript text).
    - The browser is an explicit [World]: local storage, the requests
      sent so far, the behaviour of the remote side, the open channels,
      the toasts shown and the console.
    - An [async] function is a computation in the monad [M]: it threads
      the state and either completes normally or throws.  Every promise
      settles: a request is either answered or rejected, and the remote
      side decides which as a function of the requests seen before it.
      Each call runs to completion before the next one starts. *)

From stdpp Require Import base strings gmap list pretty.
From Stdlib Require Import ZArith Lia Ascii.

#[local] Set Warnings "-register-all".
#[local] Open Scope string_scope.
#[local] Open Scope Z_scope.

(** ** JavaScript values *)

Module JS.

Inductive JSON : Type :=
| JNull
| JBool (b : bool)
| JNum (n : Z)
| JStr (s : string)
| JArr (items : list JSON)
| JObj (props : list (string * JSON)).

(** A value that may be [undefined]. *)
Inductive Value : Type :=
| undefined
| val (j : JSON).

Definition null : Value := val JNull.

(** Every value thrown by the code or by the runtime calls it makes
    ([new Error], property access on [null], [fetch], [response.json])
    is an [Error] object: a constructor name and a message. *)
Record JsError : Type := mkError { err_name : string; err_message : string }.

Definition Error (msg : string) : JsError := mkError "Error" msg.
Definition TypeError (msg : string) : JsError := mkError "TypeError" msg.

Inductive Completion (A : Type) : Type :=
| Normal (a : A)
| Throw (e : JsError).
Arguments Normal {A} a.
Arguments Throw {A} e.

(** Truthiness ([if (v)], [!v], [a || b], [a && b]). *)
Definition truthy (v : Value) : bool :=
  match v with
  | undefined => false
  | val JNull => false
  | val (JBool b) => b
  | val (JNum n) => negb (n =? 0)
  | val (JStr s) => negb (String.eqb s "")
  | val (JArr _) => true
  | val (JObj _) => true
  end.

(** [localStorage.getItem] returns [string | null]. *)
Definition truthy_str (o : option string) : bool :=
  match o with
  | Some s => negb (String.eqb s "")
  | None => false
  end.

Fixpoint own_property (k : string) (props : list (string * JSON)) : Value :=
  match props with
  | [] => undefined
  | (k', j) :: rest => if String.eqb k k' then val j else own_property k rest
  end.

(** [f] applied to the items from left to right, up to the first one
    on which it throws. *)
Definition each {A B} (f : A → Completion B) : list A → Completion (list B) :=
  fix go (l : list A) : Completion (list B) :=
    match l with
    | [] => Normal []
    | x :: rest =>
        match f x with
        | Throw e => Throw e
        | Normal y =>
            match go rest with
            | Throw e => Throw e
            | Normal ys => Normal (y :: ys)
            end
        end
    end.

Definition cannot_convert : JsError :=
  TypeError "Cannot convert object to primitive value".

(** [String(v)] for a JSON value.  An array joins the strings of its
    items with commas, [null] printing as the empty string.  An object
    prints as [[object Object]] through the inherited [toString]; an
    own member named [toString] hides it, and as no JSON value is
    callable the conversion then throws a [TypeError]. *)
Fixpoint ToString (j : JSON) : Completion string :=
  match j with
  | JNull => Normal "null"
  | JBool true => Normal "true"
  | JBool false => Normal "false"
  | JNum n => Normal (pretty n)
  | JStr s => Normal s
  | JArr items =>
      match each (fun x => match x with JNull => Normal "" | _ => ToString x end) items
      with
      | Throw e => Throw e
      | Normal texts => Normal (String.concat "," texts)
      end
  | JObj props =>
      match own_property "toString" props with
      | undefined => Normal "[object Object]"
      | val _ => Throw cannot_convert
      end
  end.

(** A property key computed from a value ([obj[v]]). *)
Definition ToPropertyKey (v : Value) : Completion string :=
  match v with
  | undefined => Normal "undefined"
  | val j => ToString j
  end.

Definition cannot_read (what k : string) : JsError :=
  TypeError ("Cannot read properties of " +:+ what +:+ " (reading '" +:+ k +:+ "')").

(** [v.k] for a key [k] that no prototype defines (the keys read by the
    source are [message], [accessToken], [user], [type], [role], [id],
    [username], [total], [data], [enrollments], [studentId] and
    [status]): reading from [null] or [undefined]
    throws, an object gives its own property, any other value gives
    [undefined]. *)
Definition get (v : Value) (k : string) : Completion Value :=
  match v with
  | undefined => Throw (cannot_read "undefined" k)
  | val JNull => Throw (cannot_read "null" k)
  | val (JObj props) => Normal (own_property k props)
  | val _ => Normal undefined
  end.

(** [v?.k] *)
Definition opt_get (v : Value) (k : string) : Value :=
  match v with
  | val (JObj props) => own_property k props
  | _ => undefined
  end.

(** [v === "s"] for a string literal [s]. *)
Definition strict_eq_str (v : Value) (s : string) : bool :=
  match v with
  | val (JStr s') => String.eqb s' s
  | _ => false
  end.

(** [String(v)] as used by [new Error(v)] and [localStorage.setItem(k, v)]
    on a truthy value. *)
Definition String_of (v : Value) : Completion string :=
  match v with
  | undefined => Normal "undefined"
  | val j => ToString j
  end.

End JS.
Export JS.

(** ** The state-and-exception monad of the embedding *)

Definition M (S A : Type) : Type := S → Completion A * S.

#[global] Instance M_ret {S} : MRet (M S) := fun A a s => (Normal a, s).

#[global] Instance M_bind {S} : MBind (M S) := fun A B k m s =>
  match m s with
  | (Normal a, s') => k a s'
  | (Throw e, s') => (Throw e, s')
  end.

Definition throw {S A} (e : JsError) : M S A := fun s => (Throw e, s).

(** [try { m } catch (error) { h error }] *)
Definition try_catch {S A} (m : M S A) (h : JsError → M S A) : M S A :=
  fun s =>
    match m s with
    | (Normal a, s') => (Normal a, s')
    | (Throw e, s') => h e s'
    end.

(** [try { m } finally { f }]: [f] runs on both exits and the
    completion of [m] is kept unless [f] itself throws. *)
Definition try_finally {S A} (m : M S A) (f : M S unit) : M S A :=
  fun s =>
    match m s with
    | (r, s') =>
        match f s' with
        | (Normal _, s'') => (r, s'')
        | (Throw e, s'') => (Throw e, s'')
        end
    end.

Definition lift_completion {S A} (c : Completion A) : M S A := fun s => (c, s).

Definition gets {S A} (f : S → A) : M S A := fun s => (Normal (f s), s).
Definition modify {S} (f : S → S) : M S unit := fun s => (Normal tt, f s).

(** ** The browser *)

Record Request : Type := mkRequest {
  req_url : string;
  req_method : option string;
  req_headers : list (string * string);
  req_credentials : string;
  req_body : option JSON   (* the value given to [JSON.stringify] *)
}.

(** What the code observes of a [Response]: its status and the outcome
    of [response.json()]. *)
Record Response : Type := mkResponse {
  status : Z;
  json : Completion JSON
}.

Definition ok (r : Response) : bool := (200 <=? status r) && (status r <=? 299).

Inductive FetchOutcome : Type :=
| Rejected (e : JsError)     (* the promise of [fetch] rejects *)
| Resolved (r : Response).

Record EventSource : Type := mkEventSource {
  es_url : string;
  es_withCredentials : bool;
  es_closed : bool
}.

Inductive Description : Type :=
| Text (s : string)
| Inherited (member : string).   (* a member of [Object.prototype] *)

Record Toast : Type := mkToast {
  title : string;
  description : Description;
  variant : option string
}.

Record World : Type := mkWorld {
  localStorage : gmap string string;
  network : list Request → Request → FetchOutcome;
  requests : list Request;
  eventSources : list EventSource;
  toasts : list Toast;
  console : list string
}.

Definition set_localStorage (f : gmap string string → gmap string string) (w : World) : World :=
  mkWorld (f (localStorage w)) (network w) (requests w) (eventSources w) (toasts w) (console w).
Definition set_requests (f : list Request → list Request) (w : World) : World :=
  mkWorld (localStorage w) (network w) (f (requests w)) (eventSources w) (toasts w) (console w).
Definition set_eventSources (f : list EventSource → list EventSource) (w : World) : World :=
  mkWorld (localStorage w) (network w) (requests w) (f (eventSources w)) (toasts w) (console w).
Definition set_toasts (f : list Toast → list Toast) (w : World) : World :=
  mkWorld (localStorage w) (network w) (requests w) (eventSources w) (f (toasts w)) (console w).
Definition set_console (f : list string → list string) (w : World) : World :=
  mkWorld (localStorage w) (network w) (requests w) (eventSources w) (toasts w) (f (console w)).

(** [fetch(url, config)]: the request is recorded and the remote side
    answers it. *)
Definition fetch (req : Request) : M World Response :=
  fun w =>
    let w' := set_requests (fun rs => (rs ++ [req])%list) w in
    match network w (requests w) req with
    | Rejected e => (Throw e, w')
    | Resolved r => (Normal r, w')
    end.

(** [console.log] and [console.error]: the first argument is recorded. *)
Definition console_log (label : string) : M World unit :=
  modify (set_console (fun c => (c ++ [label])%list)).

Definition toast (t : Toast) : M World unit :=
  modify (set_toasts (fun ts => (ts ++ [t])%list)).

Definition success_toast (msg : string) : Toast := mkToast "Success" (Text msg) None.
Definition error_toast (msg : string) : Toast :=
  mkToast "Error" (Text msg) (Some "destructive").

(** A promise is observed through its settled outcome.  [spawn m] starts
    an [async] call without awaiting it; [await p] resumes with the
    outcome. *)
Definition spawn {S A} (m : M S A) : M S (Completion A) :=
  fun s => match m s with (r, s') => (Normal r, s') end.

Definition await {S A} (p : Completion A) : M S A := lift_completion p.

(** ** [encodeURIComponent]

    Letters, digits and [- _ . ! ~ * ' ( )] are kept; every other byte
    of the UTF-8 text becomes [%XX] with upper-case hexadecimal digits. *)

Definition is_unreserved (a : ascii) : bool :=
  let n := N_of_ascii a in
  ((48 <=? n) && (n <=? 57) || (65 <=? n) && (n <=? 90) || (97 <=? n) && (n <=? 122)
   || (n =? 45) || (n =? 95) || (n =? 46) || (n =? 33) || (n =? 126)
   || (n =? 42) || (n =? 39) || (n =? 40) || (n =? 41))%N.

Definition hex_digit (n : N) : ascii :=
  if (n <? 10)%N then ascii_of_N (48 + n) else ascii_of_N (55 + n).

Definition percent_encode (a : ascii) : string :=
  let n := N_of_ascii a in
  String "%" (String (hex_digit (n / 16)) (String (hex_digit (n mod 16)) EmptyString)).

Fixpoint encodeURIComponent (s : string) : string :=
  match s with
  | EmptyString => EmptyString
  | String a rest =>
      (if is_unreserved a then String a EmptyString else percent_encode a)
        +:+ encodeURIComponent rest
  end.

(** ** The API gateway ([src/lib/api.ts]) *)

Module ApiClient.

Definition API_BASE_URL : string := "http://localhost:3000".

Definition getTokenFromStorage : M World (option string) :=
  gets (fun w => localStorage w !! "access_token").

Definition setTokenInStorage (token : string) : M World unit :=
  modify (set_localStorage (insert "access_token" token)).

Definition removeTokenFromStorage : M World unit :=
  modify (set_localStorage (delete "access_token")).

Definition getAuthHeaders : M World (list (string * string)) :=
  token ← getTokenFromStorage;
  mret (("Content-Type", "application/json") ::
        match token with
        | Some t => if truthy_str token then [("Authorization", "Bearer " +:+ t)] else []
        | None => []
        end).

(** The [options] the callers pass: a method and a body. *)
Record RequestInit : Type := mkInit {
  method : option string;
  body : option JSON
}.

Definition no_options : RequestInit := mkInit None None.

Definition http_error (st : Z) : string := "HTTP error! status: " +:+ pretty st.

Definition request (endpoint : string) (options : RequestInit) : M World JSON :=
  let url := API_BASE_URL +:+ endpoint in
  headers ← getAuthHeaders;
  let config := mkRequest url (method options) headers "include" (body options) in
  response ← fetch config;
  if negb (ok response) then
    (* response.json().catch(() => ({})) *)
    let errorData := match json response with
                     | Normal j => j
                     | Throw _ => JObj []
                     end in
    message ← lift_completion (get (val errorData) "message");
    if truthy message then
      (* new Error(message) takes the string form of the message *)
      text ← lift_completion (String_of message);
      throw (Error text)
    else throw (Error (http_error (status response)))
  else
    lift_completion (json response).

Definition login (username password : string) : M World JSON :=
  response ← request "/auth/login"
    (mkInit (Some "POST")
            (Some (JObj [("username", JStr username); ("password", JStr password)])));
  accessToken ← lift_completion (get (val response) "accessToken");
  (if truthy accessToken then
     (* localStorage.setItem stores the string form of its argument *)
     token ← lift_completion (String_of accessToken);
     setTokenInStorage token;;
     console_log "Token stored in localStorage"
   else mret tt);;
  mret response.

Definition getMe : M World JSON := request "/auth/me" no_options.

Definition logout : M World unit :=
  try_finally
    (request "/auth/logout" (mkInit (Some "POST") None);; mret tt)
    removeTokenFromStorage.

Definition getCourses (page limit : Z) : M World JSON :=
  request ("/courses?page=" +:+ pretty page +:+ "&limit=" +:+ pretty limit) no_options.

Definition getUsers (page limit : Z) (role : option string) : M World JSON :=
  let roleParam := match role with
                   | Some r => if truthy_str role then "&role=" +:+ r else ""
                   | None => ""
                   end in
  request ("/users?page=" +:+ pretty page +:+ "&limit=" +:+ pretty limit +:+ roleParam)
          no_options.

(** [createEventStream] returns the handle of the new [EventSource]: its
    position in the list of channels of the browser. *)
Definition createEventStream : M World nat :=
  token ← getTokenFromStorage;
  match token with
  | Some t =>
      if truthy_str token then
        handle ← gets (fun w => length (eventSources w));
        modify (set_eventSources (fun l =>
          (l ++ [mkEventSource
                   (API_BASE_URL +:+ "/event/stream?token=" +:+ encodeURIComponent t)
                   true false])%list));;
        mret handle
      else throw (Error "No authentication token found")
  | None => throw (Error "No authentication token found")
  end.

End ApiClient.

(** ** The session manager ([src/contexts/AuthContext.tsx]) *)

Module AuthContext.

(** The state of [AuthProvider]: the two [useState] cells, and the
    browser it runs in. *)
Record AuthProvider : Type := mkAuth {
  world : World;
  user : Value;       (* useState<User | null>(null) *)
  loading : bool      (* useState(true) *)
}.

Definition mount (w : World) : AuthProvider := mkAuth w null true.

Definition liftW {A} (m : M World A) : M AuthProvider A :=
  fun a =>
    match m (world a) with
    | (r, w') => (r, mkAuth w' (user a) (loading a))
    end.

Definition setUser (v : Value) : M AuthProvider unit :=
  modify (fun a => mkAuth (world a) v (loading a)).

Definition setLoading (b : bool) : M AuthProvider unit :=
  modify (fun a => mkAuth (world a) (user a) b).

Definition getTokenFromStorage : M AuthProvider (option string) :=
  gets (fun a => localStorage (world a) !! "access_token").

Definition removeTokenFromStorage : M AuthProvider unit :=
  liftW (modify (set_localStorage (delete "access_token"))).

(** The effect run once when the provider mounts. *)
Definition checkAuthStatus : M AuthProvider unit :=
  token ← getTokenFromStorage;
  liftW (console_log "Token from localStorage:");;
  (if truthy_str token then
     try_catch
       (userData ← liftW ApiClient.getMe;
        liftW (console_log "User data fetched:");;
        setUser (val userData))
       (fun error =>
          liftW (console_log "Auth check failed:");;
          removeTokenFromStorage;;
          setUser null)
   else setUser null);;
  setLoading false.

Definition login (username password : string) : M AuthProvider unit :=
  try_catch
    (response ← liftW (ApiClient.login username password);
     response_user ← lift_completion (get (val response) "user");
     liftW (console_log "Login successful, user:");;
     _ ← lift_completion (get (val response) "accessToken");
     liftW (console_log "Access token received:");;
     (* Token is already stored in localStorage by apiClient.login() *)
     _ ← getTokenFromStorage;
     liftW (console_log "Token in localStorage after login:");;
     setUser response_user;;
     liftW (toast (success_toast "Logged in successfully")))
    (fun error =>
       liftW (console_log "Login error:");;
       (* error instanceof Error ? error.message : "Login failed" *)
       liftW (toast (error_toast (err_message error)));;
       throw error).

Definition logout : M AuthProvider unit :=
  try_catch
    (liftW (console_log "Logging out...");;
     liftW ApiClient.logout;;
     setUser null;;
     liftW (toast (success_toast "Logged out successfully")))
    (fun error =>
       liftW (console_log "Logout error:");;
       (* Still clear local state even if logout request fails *)
       removeTokenFromStorage;;
       setUser null).

End AuthContext.

(** ** The typed view of a user ([src/types/index.ts]) *)

Module Types.

Inductive Role : Type := ADMIN | INSTRUCTOR | STUDENT.

#[global] Instance Role_eq_dec : EqDecision Role.
Proof. solve_decision. Defined.

Definition Role_name (r : Role) : string :=
  match r with
  | ADMIN => "ADMIN"
  | INSTRUCTOR => "INSTRUCTOR"
  | STUDENT => "STUDENT"
  end.

Record User : Type := mkUser {
  id : Z;
  email : string;
  username : string;
  firstName : string;
  lastName : string;
  avatar : option string;
  bio : option string;
  role : Role;
  isVerified : bool;
  createdAt : string;
  updatedAt : string
}.

Definition optional (k : string) (o : option string) : list (string * JSON) :=
  match o with
  | Some s => [(k, JStr s)]
  | None => []
  end.

(** The JSON object the server sends for a user. *)
Definition User_json (u : User) : JSON :=
  JObj ([("id", JNum (id u)); ("email", JStr (email u));
         ("username", JStr (username u)); ("firstName", JStr (firstName u));
         ("lastName", JStr (lastName u))]
        ++ optional "avatar" (avatar u) ++ optional "bio" (bio u)
        ++ [("role", JStr (Role_name (role u))); ("isVerified", JBool (isVerified u));
            ("createdAt", JStr (createdAt u)); ("updatedAt", JStr (updatedAt u))])%list.

(** The statuses of an [Enrollment]. *)
Inductive EnrollmentStatus : Type := ACTIVE | COMPLETED | DROPPED | KICKED | PENDING.

Definition EnrollmentStatus_name (s : EnrollmentStatus) : string :=
  match s with
  | ACTIVE => "ACTIVE"
  | COMPLETED => "COMPLETED"
  | DROPPED => "DROPPED"
  | KICKED => "KICKED"
  | PENDING => "PENDING"
  end.

End Types.

(** ** The route authorization guard *)

Module ProtectedRoute.
Import Types.

Inductive GuardDecision : Type := Pending | Unauthenticated | Forbidden | Authorized.

#[global] Instance GuardDecision_eq_dec : EqDecision GuardDecision.
Proof. solve_decision. Defined.

Inductive Rendered : Type :=
| LoadingIndicator
| Redirect (to : string)
| RequestedView.

(** Modelled from the spec: the component [ProtectedRoute]
    ([src/components/ProtectedRoute.tsx]) is imported by [src/App.tsx]
    but is not among the sources.  The decision follows the state
    machine of the specification: [Pending] while the session is
    initializing; [Unauthenticated] when it is initialized without a
    current user; [Forbidden] when the route declares a non-empty
    allowed-roles set that excludes the role of the user; [Authorized]
    otherwise.  It is a function of its arguments alone, so it is
    evaluated afresh on every render. *)
Definition decision (isInitializing : bool) (currentUser : option User)
    (allowedRoles : list Role) : GuardDecision :=
  if isInitializing then Pending
  else match currentUser with
       | None => Unauthenticated
       | Some u =>
           match allowedRoles with
           | [] => Authorized
           | _ :: _ => if bool_decide (role u ∈ allowedRoles) then Authorized else Forbidden
           end
       end.

(** Modelled from the spec: what each decision renders. *)
Definition render (d : GuardDecision) : Rendered :=
  match d with
  | Pending => LoadingIndicator
  | Unauthenticated => Redirect "/login"
  | Forbidden => Redirect "/unauthorized"
  | Authorized => RequestedView
  end.

Definition ProtectedRoute (isInitializing : bool) (currentUser : option User)
    (allowedRoles : list Role) : Rendered :=
  render (decision isInitializing currentUser allowedRoles).

(** The guarded routes of [src/App.tsx] with the [allowedRoles] each one
    passes; a route that passes none has the empty set. *)
Definition routes : list (string * list Role) :=
  [("/", []); ("/settings", []);
   ("/student", [STUDENT]); ("/student/courses/:courseId", [STUDENT]);
   ("/instructor", [INSTRUCTOR]); ("/instructor/courses/:courseId", [INSTRUCTOR]);
   ("/admin", [ADMIN])].

End ProtectedRoute.

(** ** The admin dashboard and its live event channel
       ([src/pages/admin/AdminDashboard.tsx]) *)

Module AdminDashboard.

Record AnalyticsData : Type := mkAnalytics {
  totalUsers : Value;
  totalInstructors : Z;
  totalStudents : Z;
  totalCourses : Value
}.

(** The state cells of the component that the data loader and the event
    stream write. *)
Record State : Type := mkState {
  world : World;
  analytics : AnalyticsData;
  recentEvents : list JSON;
  users : Value;
  loading : bool
}.

Definition mount (w : World) : State :=
  mkState w (mkAnalytics (val (JNum 0)) 0 0 (val (JNum 0))) [] (val (JArr [])) true.

Definition liftW {A} (m : M World A) : M State A :=
  fun st =>
    match m (world st) with
    | (r, w') => (r, mkState w' (analytics st) (recentEvents st) (users st) (loading st))
    end.

Definition setAnalytics (a : AnalyticsData) : M State unit :=
  modify (fun st => mkState (world st) a (recentEvents st) (users st) (loading st)).
Definition setRecentEvents (f : list JSON → list JSON) : M State unit :=
  modify (fun st => mkState (world st) (analytics st) (f (recentEvents st)) (users st) (loading st)).
Definition setUsers (v : Value) : M State unit :=
  modify (fun st => mkState (world st) (analytics st) (recentEvents st) v (loading st)).
Definition setLoading (b : bool) : M State unit :=
  modify (fun st => mkState (world st) (analytics st) (recentEvents st) (users st) b).

(** [data.filter((u) => u.role === r)] *)
Fixpoint filter_role (r : string) (items : list JSON) : Completion (list JSON) :=
  match items with
  | [] => Normal []
  | u :: rest =>
      match get (val u) "role" with
      | Throw e => Throw e
      | Normal v =>
          match filter_role r rest with
          | Throw e => Throw e
          | Normal kept => Normal (if strict_eq_str v r then u :: kept else kept)
          end
      end
  end.

Definition data_filter_role (data : Value) (r : string) : Completion (list JSON) :=
  match data with
  | val (JArr items) => filter_role r items
  | undefined => Throw (cannot_read "undefined" "filter")
  | val JNull => Throw (cannot_read "null" "filter")
  | val _ => Throw (TypeError "usersResponse.data.filter is not a function")
  end.

(** [loadDashboardData] up to its [await]: both requests are started. *)
Definition loadDashboardData_begin : M State (Completion JSON * Completion JSON) :=
  setLoading true;;
  users_promise ← liftW (spawn (ApiClient.getUsers 1 100 None));
  courses_promise ← liftW (spawn (ApiClient.getCourses 1 100));
  mret (users_promise, courses_promise).

(** [loadDashboardData] from its [await] on. *)
Definition loadDashboardData_resume (pending : Completion JSON * Completion JSON)
    : M State unit :=
  try_finally
    (try_catch
       (usersResponse ← await (fst pending);
        coursesResponse ← await (snd pending);
        totalUsers ← lift_completion (get (val usersResponse) "total");
        data ← lift_completion (get (val usersResponse) "data");
        instructors ← lift_completion (data_filter_role data "INSTRUCTOR");
        students ← lift_completion (data_filter_role data "STUDENT");
        totalCourses ← lift_completion (get (val coursesResponse) "total");
        setAnalytics (mkAnalytics totalUsers (Z.of_nat (length instructors))
                                  (Z.of_nat (length students)) totalCourses);;
        setUsers data)
       (fun error => liftW (toast (error_toast "Failed to load dashboard data"))))
    (setLoading false).

(** The own properties of [eventTypeMap]. *)
Definition eventTypeMap : list (string * string) :=
  [("STUDENT_ENROLLED_IN_COURSE", "Student enrolled in course");
   ("COURSE_CREATED", "New course created");
   ("INSTRUCTOR_INVITED_STUDENT", "Student invited to course");
   ("STUDENT_DROPPED_FROM_COURSE", "Student dropped from course")].

(** The members an object literal inherits from [Object.prototype]. *)
Definition Object_prototype : list string :=
  ["constructor"; "hasOwnProperty"; "isPrototypeOf"; "propertyIsEnumerable";
   "toLocaleString"; "toString"; "valueOf"; "__proto__";
   "__defineGetter__"; "__defineSetter__"; "__lookupGetter__"; "__lookupSetter__"].

(** [eventTypeMap[k]]; [None] is [undefined], every other result is
    truthy. *)
Definition eventTypeMap_get (k : string) : option Description :=
  match List.find (fun kv => String.eqb k (fst kv)) eventTypeMap with
  | Some kv => Some (Text (snd kv))
  | None => if bool_decide (k ∈ Object_prototype) then Some (Inherited k) else None
  end.

Definition close_EventSource (es : EventSource) : EventSource :=
  mkEventSource (es_url es) (es_withCredentials es) true.

(** [eventSource.close()] *)
Definition close (handle : nat) : M State unit :=
  liftW (modify (set_eventSources (alter close_EventSource handle))).

(** What a function returned for clean-up does when it is called. *)
Inductive Cleanup : Type :=
| Close (handle : nat).      (* () => eventSource.close() *)

Definition run_cleanup (c : Cleanup) : M State unit :=
  match c with
  | Close handle => close handle
  end.

Section LiveEventChannel.

(** [JSON.parse], with its [SyntaxError] as a thrown completion. *)
Variable JSON_parse : string → Completion JSON.

Definition onopen : M State unit :=
  liftW (console_log "EventSource connection opened").

Definition onmessage (event_data : string) : M State unit :=
  try_catch
    (eventData ← lift_completion (JSON_parse event_data);
     setRecentEvents (fun prev => eventData :: take 9 prev);;
     type ← lift_completion (get (val eventData) "type");
     key ← lift_completion (ToPropertyKey type);
     match eventTypeMap_get key with
     | Some message => liftW (toast (mkToast "Real-time Update" message None))
     | None => mret tt
     end)
    (fun error => liftW (console_log "Failed to parse event data:")).

Definition onerror (handle : nat) : M State unit :=
  liftW (console_log "EventSource failed:");;
  close handle.

(** [setupEventStream] returns the clean-up function when the stream
    was created and [undefined] otherwise. *)
Definition setupEventStream : M State (option Cleanup) :=
  try_catch
    (eventSource ← liftW ApiClient.createEventStream;
     (* onopen, onmessage and onerror are attached to eventSource *)
     mret (Some (Close eventSource)))
    (fun error =>
       liftW (console_log "Failed to setup event stream:");;
       liftW (toast (error_toast "Failed to establish real-time connection"));;
       mret None).

(** The events the browser dispatches on an [EventSource]. *)
Inductive StreamEvent : Type :=
| Open
| Message (data : string)
| Failure.

Definition dispatch (handle : nat) (ev : StreamEvent) : M State unit :=
  match ev with
  | Open => onopen
  | Message data => onmessage data
  | Failure => onerror handle
  end.

Fixpoint dispatch_all (handle : nat) (evs : list StreamEvent) : M State unit :=
  match evs with
  | [] => mret tt
  | ev :: rest => dispatch handle ev;; dispatch_all handle rest
  end.

(** The mount effect,
    [useEffect(() => { loadDashboardData(); setupEventStream(); }, [])].
    Its body is a block without [return]: the effect gives React no
    clean-up.  The pending requests of the loader are returned for
    [loadDashboardData_resume]. *)
Definition effect : M State (option Cleanup * (Completion JSON * Completion JSON)) :=
  pending ← loadDashboardData_begin;
  _ ← setupEventStream;
  mret (None, pending).

(** On unmount React calls the clean-up the effect returned, if any. *)
Definition unmount (cleanup : option Cleanup) : M State unit :=
  match cleanup with
  | Some c => run_cleanup c
  | None => mret tt
  end.

End LiveEventChannel.

End AdminDashboard.

(** ** The course chat ([CourseChat]) *)

Module CourseChat.

(** The payload of [sendCourseMessage]. *)
Record ChatPayload : Type := mkPayload {
  payload_courseId : Z;
  payload_userId : Value;
  payload_username : Value;
  payload_text : string
}.

Inductive Argument : Type :=
| CourseId (courseId : Z)
| Payload (p : ChatPayload).

(** A socket made by [io(url, opts)]: how it was opened, what has been
    emitted on it, and whether [disconnect] was called. *)
Record Socket : Type := mkSocket {
  socket_url : string;
  socket_auth_token : string;
  socket_transports : list string;
  emitted : list (string * Argument);
  disconnected : bool
}.

Record Props : Type := mkProps {
  courseId : Z;
  userEnrollmentStatus : Value     (* userEnrollmentStatus?: string *)
}.

Record State : Type := mkState {
  world : World;
  sockets : list Socket;          (* the sockets opened so far *)
  user : Value;                   (* useAuth().user *)
  socket : option nat;            (* useState<Socket | null>(null) *)
  messages : list JSON;           (* useState<CourseMessage[]>([]) *)
  newMessage : string;            (* useState("") *)
  loading : bool                  (* useState(true) *)
}.

Definition mount (w : World) (current_user : Value) : State :=
  mkState w [] current_user None [] "" true.

Definition liftW {A} (m : M World A) : M State A :=
  fun st =>
    match m (world st) with
    | (r, w') =>
        (r, mkState w' (sockets st) (user st) (socket st) (messages st)
                    (newMessage st) (loading st))
    end.

Definition set_sockets (f : list Socket → list Socket) (st : State) : State :=
  mkState (world st) (f (sockets st)) (user st) (socket st) (messages st)
          (newMessage st) (loading st).
Definition setSocket (h : option nat) : M State unit :=
  modify (fun st => mkState (world st) (sockets st) (user st) h (messages st)
                            (newMessage st) (loading st)).
Definition setMessages (f : list JSON → list JSON) : M State unit :=
  modify (fun st => mkState (world st) (sockets st) (user st) (socket st)
                            (f (messages st)) (newMessage st) (loading st)).
Definition setNewMessage (s : string) : M State unit :=
  modify (fun st => mkState (world st) (sockets st) (user st) (socket st)
                            (messages st) s (loading st)).
Definition setLoading (b : bool) : M State unit :=
  modify (fun st => mkState (world st) (sockets st) (user st) (socket st)
                            (messages st) (newMessage st) b).

Definition getTokenFromStorage : M State (option string) :=
  gets (fun st => localStorage (world st) !! "access_token").

(** [io(url, { auth: { token }, transports })] *)
Definition io (url token : string) (transports : list string) : M State nat :=
  handle ← gets (fun st => length (sockets st));
  modify (set_sockets (fun l => (l ++ [mkSocket url token transports [] false])%list));;
  mret handle.

Definition add_emitted (event : string) (arg : Argument) (s : Socket) : Socket :=
  mkSocket (socket_url s) (socket_auth_token s) (socket_transports s)
           (emitted s ++ [(event, arg)])%list (disconnected s).

(** [socket.emit(event, arg)] *)
Definition emit (handle : nat) (event : string) (arg : Argument) : M State unit :=
  modify (set_sockets (alter (add_emitted event arg) handle)).

Definition set_disconnected (s : Socket) : Socket :=
  mkSocket (socket_url s) (socket_auth_token s) (socket_transports s) (emitted s) true.

(** [socket.disconnect()] *)
Definition disconnect (handle : nat) : M State unit :=
  modify (set_sockets (alter set_disconnected handle)).

(** [user?.role === "INSTRUCTOR" || userEnrollmentStatus === "ACTIVE"] *)
Definition canAccessChat (props : Props) (st : State) : bool :=
  strict_eq_str (opt_get (user st) "role") "INSTRUCTOR"
  || strict_eq_str (userEnrollmentStatus props) "ACTIVE".

Inductive Cleanup : Type :=
| Disconnect (handle : nat).     (* () => { socketInstance.disconnect(); } *)

(** The connection effect, with dependencies
    [courseId, toast, canAccessChat]. *)
Definition effect (props : Props) : M State (option Cleanup) :=
  can ← gets (canAccessChat props);
  if negb can then
    setLoading false;;
    mret None
  else
    token ← getTokenFromStorage;
    match token with
    | Some t =>
        if truthy_str token then
          socketInstance ← io "http://localhost:3000" t ["websocket"; "polling"];
          setSocket (Some socketInstance);;
          emit socketInstance "joinCourse" (CourseId (courseId props));;
          (* the five listeners below are registered on socketInstance *)
          mret (Some (Disconnect socketInstance))
        else
          liftW (console_log "No token found for chat connection");;
          mret None
    | None =>
        liftW (console_log "No token found for chat connection");;
        mret None
    end.

(** The events the component listens to. *)
Inductive ServerEvent : Type :=
| joinCourseSuccess (data : JSON)
| joinCourseError (error : JSON)
| courseMessage (message : JSON)
| sendCourseMessageError (error : JSON).

(** The listeners registered by [effect] on [socketInstance], in the
    order of registration; [joinCourseSuccess] has two. *)
Definition listener (props : Props) (socketInstance : nat) (ev : ServerEvent)
    : M State unit :=
  match ev with
  | joinCourseSuccess data =>
      liftW (console_log "Connected to chat server");;
      emit socketInstance "join-course" (CourseId (courseId props));;
      liftW (console_log "Joined course room:");;
      setLoading false
  | joinCourseError error =>
      liftW (console_log "Failed to join course room:");;
      liftW (toast (error_toast "Failed to connect to course chat"));;
      setLoading false
  | courseMessage message =>
      setMessages (fun prev => (prev ++ [message])%list)
  | sendCourseMessageError error =>
      liftW (toast (error_toast "Failed to send message"))
  end.

Fixpoint listen_all (props : Props) (socketInstance : nat) (evs : list ServerEvent)
    : M State unit :=
  match evs with
  | [] => mret tt
  | ev :: rest => listener props socketInstance ev;; listen_all props socketInstance rest
  end.

Definition run_cleanup (c : Cleanup) : M State unit :=
  match c with
  | Disconnect handle => disconnect handle
  end.

(** What the component renders. *)
Inductive View : Type :=
| ChatUnavailable (explanation : string)
| Spinner
| Chat (shown : list JSON) (input : string) (send_disabled : bool).

Section Send.

(** [String.prototype.trim] *)
Variable trim : string → string.

Definition render (props : Props) (st : State) : View :=
  if negb (canAccessChat props st) then
    ChatUnavailable
      (if strict_eq_str (opt_get (user st) "role") "STUDENT"
       then "You need an active enrollment to access the course chat."
       else "Chat access is restricted.")
  else if loading st then Spinner
  else Chat (messages st) (newMessage st)
            (negb (truthy (val (JStr (trim (newMessage st)))))).

Definition is_null (handle : option nat) : bool :=
  match handle with
  | Some _ => false
  | None => true
  end.

(** [handleSendMessage]; past the guard [user] is truthy, so reading
    [user.id] and [user.username] cannot throw. *)
Definition handleSendMessage (props : Props) : M State unit :=
  st ← gets (fun st => st);
  if negb (truthy (val (JStr (trim (newMessage st)))))
     || is_null (socket st) || negb (truthy (user st))
  then mret tt
  else
    match socket st with
    | Some sock =>
        emit sock "sendCourseMessage"
          (Payload (mkPayload (courseId props)
                              (opt_get (user st) "id")
                              (opt_get (user st) "username")
                              (trim (newMessage st))));;
        setNewMessage ""
    | None => mret tt
    end.

End Send.

(** [trim] on text whose white space is ASCII: tab, line feed, vertical
    tab, form feed, carriage return and space are stripped at both ends. *)
Definition is_space (a : ascii) : bool :=
  let n := N_of_ascii a in ((9 <=? n) && (n <=? 13) || (n =? 32))%N.

Fixpoint trim_start (s : string) : string :=
  match s with
  | String a rest => if is_space a then trim_start rest else s
  | EmptyString => EmptyString
  end.

Fixpoint trim_end (s : string) : string :=
  match s with
  | String a rest =>
      match trim_end rest with
      | EmptyString => if is_space a then EmptyString else String a EmptyString
      | rest' => String a rest'
      end
  | EmptyString => EmptyString
  end.

Definition ascii_trim (s : string) : string := trim_end (trim_start s).

End CourseChat.

(** ** The other methods of the API gateway ([src/lib/api.ts]) *)

Module ApiClientMethods.
Import ApiClient.

(** The object arguments ([userData], [courseData]) are the JSON values
    given to [JSON.stringify]; identifiers are numbers printed in
    decimal by the template literals. *)

Definition register (userData : JSON) : M World JSON :=
  request "/auth/register" (mkInit (Some "POST") (Some userData)).

Definition createCourse (courseData : JSON) : M World JSON :=
  request "/courses" (mkInit (Some "POST") (Some courseData)).

Definition updateCourse (id : Z) (courseData : JSON) : M World JSON :=
  request ("/courses/" +:+ pretty id) (mkInit (Some "PATCH") (Some courseData)).

Definition deleteCourse (id : Z) : M World JSON :=
  request ("/courses/" +:+ pretty id) (mkInit (Some "DELETE") None).

(** [page = 1, limit = 10] when the caller passes none. *)
Definition getCourseStudents (courseId : Z) (page limit : option Z) : M World JSON :=
  request ("/courses/" +:+ pretty courseId +:+ "/students?page="
             +:+ pretty (default 1 page) +:+ "&limit=" +:+ pretty (default 10 limit))
          no_options.

Definition getCourseMaterials (courseId : Z) (page limit : option Z) : M World JSON :=
  request ("/courses/" +:+ pretty courseId +:+ "/materials?page="
             +:+ pretty (default 1 page) +:+ "&limit=" +:+ pretty (default 10 limit))
          no_options.

Definition deleteMaterial (courseId materialId : Z) : M World JSON :=
  request ("/courses/" +:+ pretty courseId +:+ "/materials/" +:+ pretty materialId)
          (mkInit (Some "DELETE") None).

Definition inviteStudent (courseId studentId : Z) : M World JSON :=
  request ("instructor/courses/" +:+ pretty courseId +:+ "/students/"
             +:+ pretty studentId +:+ "/invite")
          (mkInit (Some "POST") (Some (JObj [("studentId", JNum studentId)]))).

Definition kickStudent (courseId studentId : Z) : M World JSON :=
  request ("instructor/courses/" +:+ pretty courseId +:+ "/students/"
             +:+ pretty studentId +:+ "/kick")
          (mkInit (Some "PATCH") (Some (JObj [("studentId", JNum studentId)]))).

Definition completeCourse (courseId : Z) : M World JSON :=
  request ("/courses/" +:+ pretty courseId +:+ "/complete") (mkInit (Some "PATCH") None).

Definition dropFromCourse (courseId : Z) : M World JSON :=
  request ("/student/drop/" +:+ pretty courseId) (mkInit (Some "PATCH") None).

Definition acceptEnrollment (courseId : Z) : M World JSON :=
  request ("/student/accept/" +:+ pretty courseId) (mkInit (Some "PATCH") None).

Definition rejectEnrollment (courseId : Z) : M World JSON :=
  request ("/courses/reject/" +:+ pretty courseId) (mkInit (Some "DELETE") None).

Definition createInstructor (userData : JSON) : M World JSON :=
  request "/users/instructor" (mkInit (Some "POST") (Some userData)).

Definition updateProfile (userData : JSON) : M World JSON :=
  request "users/profile" (mkInit (Some "PATCH") (Some userData)).

Definition deleteMyAccount : M World unit :=
  try_finally
    (request "users/delete" (mkInit (Some "DELETE") None);; mret tt)
    removeTokenFromStorage.

Definition deleteUser (userId : Z) : M World JSON :=
  request ("/users/" +:+ pretty userId) (mkInit (Some "DELETE") None).

Section Download.

(** [response.blob()], as a function of the response. *)
Context {Blob : Type}.
Variable blob : Response → Completion Blob.

(** [downloadCourseMaterial] calls [fetch] itself: the only header is
    the bearer token, and a failure is reported by status alone. *)
Definition downloadCourseMaterial (courseId materialId : Z) : M World Blob :=
  token ← getTokenFromStorage;
  response ← fetch (mkRequest
                      (API_BASE_URL +:+ "/courses/" +:+ pretty courseId
                         +:+ "/materials/" +:+ pretty materialId +:+ "/download")
                      None
                      match token with
                      | Some t =>
                          if truthy_str token then [("Authorization", "Bearer " +:+ t)]
                          else []
                      | None => []
                      end
                      "include" None);
  if negb (ok response) then throw (Error (http_error (status response)))
  else lift_completion (blob response).

End Download.

End ApiClientMethods.

(** ** The page header ([src/components/Layout.tsx]) and the landing
       page ([Index]) *)

Module Layout.

(** [switch (user?.role)] *)
Definition getDashboardRoute (user : Value) : string :=
  let role := opt_get user "role" in
  if strict_eq_str role "ADMIN" then "/admin"
  else if strict_eq_str role "INSTRUCTOR" then "/instructor"
  else if strict_eq_str role "STUDENT" then "/student"
  else "/".

End Layout.

Module Index.

Inductive Element : Type :=
| LoadingSpinner
| Navigate (to : string).

(** Past [if (!user)] the user is truthy, so [user.role] cannot throw. *)
Definition Index (user : Value) (loading : bool) : Element :=
  if loading then LoadingSpinner
  else if negb (truthy user) then Navigate "/login"
  else
    let role := opt_get user "role" in
    if strict_eq_str role "ADMIN" then Navigate "/admin"
    else if strict_eq_str role "INSTRUCTOR" then Navigate "/instructor"
    else if strict_eq_str role "STUDENT" then Navigate "/student"
    else Navigate "/login".

End Index.

(** ** More of the admin dashboard: the loader as a whole, user
       deletion and the labels of the event list *)

Module AdminDashboardView.
Import AdminDashboard.

Definition loadDashboardData : M State unit :=
  pending ← loadDashboardData_begin;
  loadDashboardData_resume pending.

(** [handleDeleteUser]; [confirmed] is the answer of [confirm(...)].
    The reload is started and not awaited, so its outcome cannot reach
    the [catch]. *)
Definition handleDeleteUser (confirmed : bool) (userId : Z) : M State unit :=
  if negb confirmed then mret tt
  else
    try_catch
      (liftW (ApiClientMethods.deleteUser userId);;
       liftW (toast (success_toast "User deleted successfully"));;
       reload ← spawn loadDashboardData;
       mret tt)
      (fun error => liftW (toast (error_toast "Failed to delete user"))).

(** What [getEventTypeLabel] returns: a label object, or the member of
    [Object.prototype] that [labels[type]] found. *)
Inductive Label : Type :=
| LabelOf (text variant : string)
| InheritedMember (member : string).

Definition labels : list (string * (string * string)) :=
  [("STUDENT_ENROLLED_IN_COURSE", ("Student Enrolled", "default"));
   ("COURSE_CREATED", ("Course Created", "secondary"));
   ("INSTRUCTOR_INVITED_STUDENT", ("Student Invited", "outline"));
   ("STUDENT_DROPPED_FROM_COURSE", ("Student Dropped", "destructive"));
   ("STUDENT_REJECTED_ENROLLMENT_FROM_COURSE", ("Invitation Rejected", "destructive"))].

(** [type.replace(/_/g, " ")] *)
Fixpoint replace_underscores (s : string) : string :=
  match s with
  | EmptyString => EmptyString
  | String a rest =>
      String (if Ascii.eqb a "_" then " "%char else a) (replace_underscores rest)
  end.

(** [labels[type] || { text: type.replace(/_/g, " "), variant: "outline" }];
    only a string has a [replace] method to call. *)
Definition getEventTypeLabel (type : Value) : Completion Label :=
  match ToPropertyKey type with
  | Throw e => Throw e
  | Normal key =>
      match List.find (fun kv => String.eqb key (fst kv)) labels with
      | Some (_, (text, variant)) => Normal (LabelOf text variant)
      | None =>
          if bool_decide (key ∈ Object_prototype)
          then Normal (InheritedMember key)
          else
            match type with
            | val (JStr s) => Normal (LabelOf (replace_underscores s) "outline")
            | undefined => Throw (cannot_read "undefined" "replace")
            | val JNull => Throw (cannot_read "null" "replace")
            | val _ => Throw (TypeError "type.replace is not a function")
            end
      end
  end.

(** [recentEvents.map((event, index) => ... getEventTypeLabel(event.type) ...)],
    the list shown under "Real-time Events". *)
Fixpoint renderRecentEvents (events : list JSON) : Completion (list Label) :=
  match events with
  | [] => Normal []
  | event :: rest =>
      match get (val event) "type" with
      | Throw e => Throw e
      | Normal type =>
          match getEventTypeLabel type with
          | Throw e => Throw e
          | Normal eventLabel =>
              match renderRecentEvents rest with
              | Throw e => Throw e
              | Normal shown => Normal (eventLabel :: shown)
              end
          end
      end
  end.

End AdminDashboardView.


(** ** The student dashboard ([src/pages/student/StudentDashboard.tsx]) *)

Module StudentDashboard.

Record State : Type := mkState {
  world : World;
  courses : Value;
  loading : bool
}.

(** [useState<Course[]>([])], [useState(true)] *)
Definition mount (w : World) : State := mkState w (val (JArr [])) true.

Definition liftW {A} (m : M World A) : M State A :=
  fun st =>
    match m (world st) with
    | (r, w') => (r, mkState w' (courses st) (loading st))
    end.

Definition setCourses (v : Value) : M State unit :=
  modify (fun st => mkState (world st) v (loading st)).

Definition setLoading (b : bool) : M State unit :=
  modify (fun st => mkState (world st) (courses st) b).

Definition loadCourses : M State unit :=
  try_finally
    (try_catch
       (setLoading true;;
        response ← liftW (ApiClient.getCourses 1 50);
        data ← lift_completion (get (val response) "data");
        setCourses data)
       (fun error => liftW (toast (error_toast "Failed to load courses"))))
    (setLoading false).

(** The three handlers start the reload without awaiting it, so its
    outcome cannot reach their [catch]. *)
Definition handleAcceptEnrollment (courseId : Z) : M State unit :=
  try_catch
    (liftW (ApiClientMethods.acceptEnrollment courseId);;
     liftW (toast (success_toast "Enrollment accepted successfully"));;
     reload ← spawn loadCourses;
     mret tt)
    (fun error => liftW (toast (error_toast "Failed to accept enrollment"))).

Definition handleRejectEnrollment (courseId : Z) : M State unit :=
  try_catch
    (liftW (ApiClientMethods.rejectEnrollment courseId);;
     liftW (toast (success_toast "Enrollment rejected"));;
     reload ← spawn loadCourses;
     mret tt)
    (fun error => liftW (toast (error_toast "Failed to reject enrollment"))).

Definition handleDropCourse (courseId : Z) : M State unit :=
  try_catch
    (liftW (ApiClientMethods.dropFromCourse courseId);;
     liftW (toast (success_toast "Dropped from course successfully"));;
     reload ← spawn loadCourses;
     mret tt)
    (fun error => liftW (toast (error_toast "Failed to drop from course"))).

(** [a === b] for two values read from the JSON of different answers:
    primitives are compared by value, and an object or an array is
    never the same object as one of another answer. *)
Definition strict_eq (a b : Value) : bool :=
  match a, b with
  | undefined, undefined => true
  | val JNull, val JNull => true
  | val (JBool x), val (JBool y) => Bool.eqb x y
  | val (JNum x), val (JNum y) => x =? y
  | val (JStr x), val (JStr y) => String.eqb x y
  | _, _ => false
  end.

(** [enrollments.some(e => e.studentId === user?.id && e.status === status)];
    [some] stops at the first entry that matches.  Neither
    [studentId] nor [status] is a key that a prototype defines. *)
Fixpoint enrollments_some (user : Value) (status : string) (enrollments : list JSON)
    : Completion bool :=
  match enrollments with
  | [] => Normal false
  | e :: rest =>
      match get (val e) "studentId" with
      | Throw err => Throw err
      | Normal studentId =>
          if strict_eq studentId (opt_get user "id") then
            match get (val e) "status" with
            | Throw err => Throw err
            | Normal s =>
                if strict_eq_str s status then Normal true
                else enrollments_some user status rest
            end
          else enrollments_some user status rest
      end
  end.

(** [course.enrollments?.some(...)]; [undefined], the result on a
    missing list, is falsy for [filter]. *)
Definition enrolled_with (user : Value) (status : string) (course : JSON)
    : Completion bool :=
  match get (val course) "enrollments" with
  | Throw err => Throw err
  | Normal undefined | Normal (val JNull) => Normal false
  | Normal (val (JArr enrollments)) => enrollments_some user status enrollments
  | Normal (val _) => Throw (TypeError "course.enrollments?.some is not a function")
  end.

Fixpoint filter_enrolled (user : Value) (status : string) (items : list JSON)
    : Completion (list JSON) :=
  match items with
  | [] => Normal []
  | course :: rest =>
      match enrolled_with user status course with
      | Throw err => Throw err
      | Normal keep =>
          match filter_enrolled user status rest with
          | Throw err => Throw err
          | Normal kept => Normal (if keep then course :: kept else kept)
          end
      end
  end.

(** [courses.filter(course => course.enrollments?.some(...))] *)
Definition courses_filter (courses user : Value) (status : string)
    : Completion (list JSON) :=
  match courses with
  | val (JArr items) => filter_enrolled user status items
  | undefined => Throw (cannot_read "undefined" "filter")
  | val JNull => Throw (cannot_read "null" "filter")
  | val _ => Throw (TypeError "courses.filter is not a function")
  end.

Record CourseLists : Type := mkCourseLists {
  activeCourses : list JSON;
  pendingInvites : list JSON;
  completedCourses : list JSON
}.

(** The three lists, computed at every render in this order. *)
Definition course_lists (courses user : Value) : Completion CourseLists :=
  match courses_filter courses user "ACTIVE" with
  | Throw err => Throw err
  | Normal active =>
      match courses_filter courses user "PENDING" with
      | Throw err => Throw err
      | Normal pending =>
          match courses_filter courses user "COMPLETED" with
          | Throw err => Throw err
          | Normal completed => Normal (mkCourseLists active pending completed)
          end
      end
  end.

End StudentDashboard.

(** * Specification-level definitions *)

Module Spec.

(** The request that [ApiClient.request endpoint options] sends from the
    world [w]. *)
Definition sent (endpoint : string) (options : ApiClient.RequestInit) (w : World)
    : Request :=
  mkRequest (ApiClient.API_BASE_URL +:+ endpoint) (ApiClient.method options)
    (("Content-Type", "application/json") ::
       match localStorage w !! "access_token" with
       | Some t =>
           if truthy_str (localStorage w !! "access_token")
           then [("Authorization", "Bearer " +:+ t)] else []
       | None => []
       end)
    "include" (ApiClient.body options).

(** How [ApiClient.request] completes on each outcome of [fetch]. *)
Definition request_outcome (out : FetchOutcome) : Completion JSON :=
  match out with
  | Rejected e => Throw e
  | Resolved r =>
      if ok r then json r
      else
        match get (val (match json r with Normal j => j | Throw _ => JObj [] end))
                  "message" with
        | Throw e => Throw e
        | Normal message =>
            if truthy message then
              match String_of message with
              | Normal text => Throw (Error text)
              | Throw e => Throw e
              end
            else Throw (Error (ApiClient.http_error (status r)))
        end
  end.

(** The answer of the remote side to [ApiClient.request endpoint options]
    issued from [w]. *)
Definition answer (endpoint : string) (options : ApiClient.RequestInit) (w : World)
    : FetchOutcome :=
  network w (requests w) (sent endpoint options w).

Definition login_options (username password : string) : ApiClient.RequestInit :=
  ApiClient.mkInit (Some "POST")
    (Some (JObj [("username", JStr username); ("password", JStr password)])).

(** The server-provided [message] field, when the error body contains
    one. *)
Definition server_message (out : FetchOutcome) : option string :=
  match out with
  | Resolved r =>
      match json r with
      | Normal (JObj props) =>
          match own_property "message" props with
          | val (JStr m) => Some m
          | _ => None
          end
      | _ => None
      end
  | Rejected _ => None
  end.

(** A generic fallback that names the HTTP status, in the wording of
    the specification or in that of the code. *)
Definition generic_fallback (msg : string) : Prop :=
  ∃ code : Z,
    msg = "HTTP error, status " +:+ pretty code ∨ msg = ApiClient.http_error code.

(** The reading of the specification under which every failed login
    carries the server message or the generic fallback. *)
Definition login_failure_as_stated (a : AuthContext.AuthProvider)
    (username password : string) : Prop :=
  ∀ e, fst (AuthContext.login username password a) = Throw e →
    AuthContext.user (snd (AuthContext.login username password a)) = AuthContext.user a ∧
    match server_message (answer "/auth/login" (login_options username password)
                                 (AuthContext.world a)) with
    | Some m => err_message e = m
    | None => generic_fallback (err_message e)
    end.

(** The payloads of [datas] that [JSON.parse] accepts, in the order of
    arrival. *)
Definition parsed (JSON_parse : string → Completion JSON) (datas : list string)
    : list JSON :=
  omap (fun d => match JSON_parse d with
                 | Normal j => Some j
                 | Throw _ => None
                 end) datas.

(** The channel [handle] receives the messages [datas] in order. *)
Definition feed (JSON_parse : string → Completion JSON) (handle : nat)
    (datas : list string) : M AdminDashboard.State unit :=
  AdminDashboard.dispatch_all JSON_parse handle (AdminDashboard.Message <$> datas).

(** The stream [ApiClient.createEventStream] opens for [token]. *)
Definition stream (token : string) : EventSource :=
  mkEventSource
    (ApiClient.API_BASE_URL +:+ "/event/stream?token=" +:+ encodeURIComponent token)
    true false.

(** The [joinCourse] requests emitted on a socket, and on all the
    sockets of the chat. *)
Definition join_requests (s : CourseChat.Socket) : nat :=
  length (List.filter (fun e => String.eqb (fst e) "joinCourse") (CourseChat.emitted s)).

Definition join_requests_emitted (st : CourseChat.State) : nat :=
  sum_list (join_requests <$> CourseChat.sockets st).

(** The reading of the specification under which every mount by a
    student whose enrollment is [ACTIVE] emits one join request. *)
Definition active_student_joins_as_stated (props : CourseChat.Props)
    (st : CourseChat.State) : Prop :=
  strict_eq_str (opt_get (CourseChat.user st) "role") "STUDENT" = true →
  CourseChat.userEnrollmentStatus props = val (JStr "ACTIVE") →
  join_requests_emitted (snd (CourseChat.effect props st))
  = (join_requests_emitted st + 1)%nat.

(** The socket [CourseChat.effect] opens for [token], once the join
    request is emitted. *)
Definition joined_socket (token : string) (props : CourseChat.Props) : CourseChat.Socket :=
  CourseChat.mkSocket "http://localhost:3000" token ["websocket"; "polling"]
    [("joinCourse", CourseChat.CourseId (CourseChat.courseId props))] false.

(** The [sendCourseMessage] payloads emitted on a socket. *)
Definition sent_messages (s : CourseChat.Socket) : list CourseChat.ChatPayload :=
  omap (fun e => if String.eqb (fst e) "sendCourseMessage"
                 then match snd e with
                      | CourseChat.Payload p => Some p
                      | CourseChat.CourseId _ => None
                      end
                 else None)
       (CourseChat.emitted s).

(** The connection state of the specification's chat state machine
    after the events [evs] received on the channel: [Connecting] until
    the server answers the join request, then [Joined] or
    [JoinFailed]. *)
Inductive ConnectionState : Type := Connecting | Joined | JoinFailed.

Definition connectionState (evs : list CourseChat.ServerEvent) : ConnectionState :=
  foldl (fun state ev => match ev with
                         | CourseChat.joinCourseSuccess _ => Joined
                         | CourseChat.joinCourseError _ => JoinFailed
                         | _ => state
                         end) Connecting evs.

(** The chat after the events [evs] arrived on the socket [h] and the
    user typed [text] and submitted the form. *)
Definition submitted (trim : string → string) (props : CourseChat.Props) (h : nat)
    (evs : list CourseChat.ServerEvent) (text : string) (opened : CourseChat.State)
    : CourseChat.State :=
  let received := snd (CourseChat.listen_all props h evs opened) in
  let typed := snd (CourseChat.setNewMessage text received) in
  snd (CourseChat.handleSendMessage trim props typed).

(** The reading of the specification under which a message is emitted
    only on an established channel, one whose join the server has
    acknowledged. *)
Definition send_needs_join_as_stated (trim : string → string) (props : CourseChat.Props)
    (st : CourseChat.State) (evs : list CourseChat.ServerEvent) (text : string) : Prop :=
  ∀ h s,
    fst (CourseChat.effect props st) = Normal (Some (CourseChat.Disconnect h)) →
    CourseChat.sockets (submitted trim props h evs text (snd (CourseChat.effect props st)))
      !! h = Some s →
    sent_messages s ≠ [] →
    connectionState evs = Joined.

(** Characters that may stand in a query-string value. *)
Definition url_safe (a : ascii) : bool := is_unreserved a || Ascii.eqb a "%".

Fixpoint all_chars (p : ascii → bool) (s : string) : bool :=
  match s with
  | EmptyString => true
  | String a rest => p a && all_chars p rest
  end.

End Spec.

(** Concrete browsers and servers used to exercise the model. *)
Module Scenario.
Import Types AuthContext.

Definition alice : User :=
  mkUser 7 "alice@example.org" "alice" "Alice" "Liddell" None None STUDENT true
         "2024-01-01T00:00:00.000Z" "2024-01-01T00:00:00.000Z".

Definition grace : User :=
  mkUser 2 "grace@example.org" "grace" "Grace" "Hopper" None (Some "Teaches compilers")
         INSTRUCTOR true "2024-01-01T00:00:00.000Z" "2024-01-01T00:00:00.000Z".

(** Every request is rejected in transport. *)
Definition offline : list Request → Request → FetchOutcome :=
  fun _ _ => Rejected (TypeError "Failed to fetch").

(** Every request is answered with the same status and body. *)
Definition always (st : Z) (body : Completion JSON) : list Request → Request → FetchOutcome :=
  fun _ _ => Resolved (mkResponse st body).

Definition browser (storage : gmap string string)
    (net : list Request → Request → FetchOutcome) : World :=
  mkWorld storage net [] [] [] [].

Definition with_token (t : string) : gmap string string := {["access_token" := t]}.

Definition invalid_credentials : Completion JSON :=
  Normal (JObj [("message", JStr "Invalid credentials"); ("statusCode", JNum 401)]).

(** An error body whose [message] is an object that hides [toString]. *)
Definition unprintable_message : Completion JSON :=
  Normal (JObj [("message", JObj [("toString", JNum 1)])]).

Definition login_response (token : string) (u : User) : Completion JSON :=
  Normal (JObj [("user", User_json u); ("accessToken", JStr token)]).

(** A parser for the examples: it accepts [null], [{}] and one digit. *)
Definition digit_parse (s : string) : Completion JSON :=
  if String.eqb s "null" then Normal JNull
  else if String.eqb s "{}" then Normal (JObj [])
  else match s with
       | String a EmptyString =>
           let n := N_of_ascii a in
           if ((48 <=? n) && (n <=? 57))%N then Normal (JNum (Z.of_N n - 48))
           else Throw (mkError "SyntaxError" "Unexpected token")
       | _ => Throw (mkError "SyntaxError" "Unexpected token")
       end.

(** Session states at the start of the scenarios. *)
Definition restoring_offline : AuthContext.AuthProvider :=
  AuthContext.mount (browser (with_token "stale-token") offline).

Definition signed_out_offline : AuthContext.AuthProvider :=
  mkAuth (browser ∅ offline) null false.

Definition signed_out_rejecting : AuthContext.AuthProvider :=
  mkAuth (browser ∅ (always 401 invalid_credentials)) null false.

Definition signed_out_accepting (token : string) : AuthContext.AuthProvider :=
  mkAuth (browser ∅ (always 201 (login_response token alice))) null false.

Definition signed_in_offline : AuthContext.AuthProvider :=
  mkAuth (browser (with_token "jwt") offline) (val (User_json alice)) false.

(** The chat of course 42, as mounted for Alice. *)
Definition active_enrollment : CourseChat.Props :=
  CourseChat.mkProps 42 (val (JStr "ACTIVE")).

Definition pending_enrollment : CourseChat.Props :=
  CourseChat.mkProps 42 (val (JStr "PENDING")).

Definition chat_without_token : CourseChat.State :=
  CourseChat.mount (browser ∅ offline) (val (User_json alice)).

Definition chat_with_token : CourseChat.State :=
  CourseChat.mount (browser (with_token "jwt") offline) (val (User_json alice)).

Definition chat_typing (text : string) : CourseChat.State :=
  CourseChat.mkState (browser (with_token "jwt") offline)
    [Spec.joined_socket "jwt" active_enrollment]
    (val (User_json alice)) (Some 0%nat) [] text false.

End Scenario.

(** Definitions used to state the properties of the other operations. *)
Module SpecMore.

(** [w'] differs from [w] at most in the list of requests. *)
Definition only_requests_differ (w w' : World) : Prop :=
  localStorage w' = localStorage w ∧ eventSources w' = eventSources w ∧
  toasts w' = toasts w ∧ console w' = console w.

(** [m] sends exactly one request and writes nothing else. *)
Definition one_request_only {A} (m : M World A) : Prop :=
  ∀ w, only_requests_differ w (snd (m w)) ∧
       ∃ config, requests (snd (m w)) = (requests w ++ [config])%list.

Fixpoint starts_with (prefix s : string) : bool :=
  match prefix, s with
  | EmptyString, _ => true
  | String a prefix', String b s' => Ascii.eqb a b && starts_with prefix' s'
  | String _ _, EmptyString => false
  end.

(** The URL of the last request sent. *)
Definition last_url (w : World) : option string := req_url <$> last (requests w).

Definition hex_value (a : ascii) : option N :=
  let n := N_of_ascii a in
  if ((48 <=? n) && (n <=? 57))%N then Some (n - 48)%N
  else if ((65 <=? n) && (n <=? 70))%N then Some (n - 55)%N
  else None.

(** The inverse of [encodeURIComponent] on its image: [%XX] is read
    back as the byte [XX]. *)
Fixpoint percent_decode (s : string) : option string :=
  match s with
  | EmptyString => Some EmptyString
  | String a rest =>
      if Ascii.eqb a "%" then
        match rest with
        | String h (String l rest') =>
            match hex_value h, hex_value l, percent_decode rest' with
            | Some x, Some y, Some decoded =>
                Some (String (ascii_of_N (16 * x + y)) decoded)
            | _, _, _ => None
            end
        | _ => None
        end
      else
        match percent_decode rest with
        | Some decoded => Some (String a decoded)
        | None => None
        end
  end.

(** The chat messages among the events received, in order. *)
Definition received_messages (evs : list CourseChat.ServerEvent) : list JSON :=
  omap (fun ev => match ev with
                  | CourseChat.courseMessage message => Some message
                  | _ => None
                  end) evs.

(** Whether the server has answered the join request. *)
Definition join_answered (evs : list CourseChat.ServerEvent) : bool :=
  existsb (fun ev => match ev with
                     | CourseChat.joinCourseSuccess _ | CourseChat.joinCourseError _ => true
                     | _ => false
                     end) evs.

(** Whether a transport error is among the events of the stream. *)
Definition has_failure (evs : list AdminDashboard.StreamEvent) : bool :=
  existsb (fun ev => match ev with
                     | AdminDashboard.Failure => true
                     | _ => false
                     end) evs.

(** The users of [items] that have the role [r]. *)
Definition with_role (r : string) (items : list JSON) : list JSON :=
  List.filter (fun u => strict_eq_str (opt_get (val u) "role") r) items.

(** An event whose rendering throws: reading [type] throws, or no
    label can be made from it. *)
Definition unlabelled (event : JSON) : Prop :=
  match get (val event) "type" with
  | Throw _ => True
  | Normal type =>
      match AdminDashboardView.getEventTypeLabel type with
      | Throw _ => True
      | Normal _ => False
      end
  end.

(** The course lists an enrollment of the user with the given status. *)
Definition enrolled_as (user : Value) (status : string) (course : JSON) : Prop :=
  ∃ enrollments e,
    opt_get (val course) "enrollments" = val (JArr enrollments) ∧
    e ∈ enrollments ∧
    StudentDashboard.strict_eq (opt_get (val e) "studentId") (opt_get user "id") = true ∧
    opt_get (val e) "status" = val (JStr status).

(** The course lists no two enrollments of the user. *)
Definition enrolled_once (user : Value) (course : JSON) : Prop :=
  ∀ enrollments e1 e2,
    opt_get (val course) "enrollments" = val (JArr enrollments) →
    e1 ∈ enrollments → e2 ∈ enrollments →
    StudentDashboard.strict_eq (opt_get (val e1) "studentId") (opt_get user "id") = true →
    StudentDashboard.strict_eq (opt_get (val e2) "studentId") (opt_get user "id") = true →
    e1 = e2.

Definition is_null (j : JSON) : bool :=
  match j with JNull => true | _ => false end.

(** A course whose enrollments can be read: it is not [null], and its
    [enrollments] are missing, [null] or an array without [null]
    entries. *)
Definition readable (course : JSON) : bool :=
  negb (is_null course) &&
  match opt_get (val course) "enrollments" with
  | undefined | val JNull => true
  | val (JArr enrollments) => forallb (fun e => negb (is_null e)) enrollments
  | val _ => false
  end.

(** A course of the examples. *)
Definition course_with (id : Z) (enrollments : list (Z * string)) : JSON :=
  JObj [("id", JNum id);
        ("enrollments",
         JArr (List.map (fun e => JObj [("studentId", JNum (fst e)); ("status", JStr (snd e))])
                 enrollments))].

(** What a handler of the student dashboard does around its API call
    [api]: it never rejects; when the call fails it shows the toast
    [failed] and reloads nothing; when the call succeeds it shows the
    toast [done] and then reloads the courses, whose own failure adds
    the toast of [loadCourses]. *)
Definition enrollment_action (handler : M StudentDashboard.State unit)
    (api : M World JSON) (done failed : string) : Prop :=
  ∀ st : StudentDashboard.State,
    let st' := snd (handler st) in
    let sent_by_api := requests (snd (api (StudentDashboard.world st))) in
    fst (handler st) = Normal tt ∧
    localStorage (StudentDashboard.world st') = localStorage (StudentDashboard.world st) ∧
    (∀ e, fst (api (StudentDashboard.world st)) = Throw e →
       requests (StudentDashboard.world st') = sent_by_api ∧
       toasts (StudentDashboard.world st')
       = (toasts (StudentDashboard.world st) ++ [error_toast failed])%list ∧
       StudentDashboard.courses st' = StudentDashboard.courses st ∧
       StudentDashboard.loading st' = StudentDashboard.loading st) ∧
    (∀ j, fst (api (StudentDashboard.world st)) = Normal j →
       (∃ reload,
          requests (StudentDashboard.world st') = (sent_by_api ++ [reload])%list ∧
          req_url reload = "http://localhost:3000/courses?page=1&limit=50") ∧
       (toasts (StudentDashboard.world st')
        = (toasts (StudentDashboard.world st) ++ [success_toast done])%list
        ∨
        toasts (StudentDashboard.world st')
        = (toasts (StudentDashboard.world st)
           ++ [success_toast done; error_toast "Failed to load courses"])%list
        ∧ StudentDashboard.courses st' = StudentDashboard.courses st) ∧
       StudentDashboard.loading st' = false).

(** The admin dashboard of the examples: the server answers every
    request with a page of two users. *)
Definition users_page : JSON :=
  JObj [("data", JArr [Types.User_json Scenario.grace; Types.User_json Scenario.alice]);
        ("total", JNum 2)].

Definition dashboard_with_users : AdminDashboard.State :=
  AdminDashboard.mount (Scenario.browser ∅ (Scenario.always 200 (Normal users_page))).

(** The student dashboard of the examples: the server answers every
    request with the empty object. *)
Definition answered_with_empty_object : StudentDashboard.State :=
  StudentDashboard.mount (Scenario.browser ∅ (Scenario.always 200 (Normal (JObj [])))).

End SpecMore.

(** Unfolding of the monad and of the state accessors of each component. *)

Ltac unfold_monad :=
  unfold try_catch, try_finally, spawn, await, lift_completion, gets, modify, throw,
    mbind, M_bind, mret, M_ret in *.

Ltac unfold_auth :=
  unfold AuthContext.getTokenFromStorage, AuthContext.removeTokenFromStorage,
    AuthContext.setUser, AuthContext.setLoading, AuthContext.liftW,
    console_log, toast in *.

Ltac unfold_admin :=
  unfold AdminDashboard.close, AdminDashboard.setAnalytics,
    AdminDashboard.setRecentEvents, AdminDashboard.setUsers,
    AdminDashboard.setLoading, AdminDashboard.liftW, console_log, toast in *.

Ltac unfold_chat :=
  unfold CourseChat.io, CourseChat.emit, CourseChat.disconnect, CourseChat.setSocket,
    CourseChat.setMessages, CourseChat.setNewMessage, CourseChat.setLoading,
    CourseChat.getTokenFromStorage, CourseChat.liftW, console_log, toast in *.

(** * Properties *)

Module ApiClientFacts.
Import ApiClient Spec.

Lemma JSON_ind_items (P : JSON → Prop) :
  P JNull → (∀ b, P (JBool b)) → (∀ n, P (JNum n)) → (∀ s, P (JStr s)) →
  (∀ items, Forall P items → P (JArr items)) →
  (∀ props, P (JObj props)) →
  ∀ j, P j.
Proof.
  intros Hnull Hbool Hnum Hstr Harr Hobj.
  refine (fix IH (j : JSON) : P j :=
            match j with
            | JNull => Hnull
            | JBool b => Hbool b
            | JNum n => Hnum n
            | JStr s => Hstr s
            | JArr items =>
                Harr items
                  ((fix all (l : list JSON) : Forall P l :=
                      match l with
                      | [] => @List.Forall_nil JSON P
                      | x :: rest => @List.Forall_cons JSON P x rest (IH x) (all rest)
                      end) items)
            | JObj props => Hobj props
            end).
Qed.

Lemma each_throws {A B} (f : A → Completion B) l e :
  each f l = Throw e → ∃ x, x ∈ l ∧ f x = Throw e.
Proof.
  induction l as [|x rest IH]; [discriminate|]. cbn [each].
  destruct (f x) as [y|e'] eqn:Hx.
  - fold (each f rest). destruct (each f rest); [discriminate|].
    intros [= <-]. destruct (IH eq_refl) as (x' & Hin & Hx').
    exists x'. split; [by apply list_elem_of_further|exact Hx'].
  - intros [= <-]. exists x. split; [apply list_elem_of_here|exact Hx].
Qed.

(** The only error of a string conversion is the [TypeError] of an
    object that hides [toString]. *)
Lemma ToString_throws j e : ToString j = Throw e → e = cannot_convert.
Proof.
  revert e. induction j as [| | | |items IH|props] using JSON_ind_items; intros e;
    cbn [ToString]; try discriminate.
  - destruct b; discriminate.
  - destruct (each _ items) as [texts|e'] eqn:Heach; [discriminate|].
    intros [= <-]. apply each_throws in Heach as (x & Hin & Hx).
    rewrite Forall_forall in IH. destruct x; try discriminate; by apply (IH _ Hin).
  - destruct (own_property "toString" props); [discriminate|]. by intros [= <-].
Qed.

Lemma String_of_throws v e : String_of v = Throw e → e = cannot_convert.
Proof. destruct v; [discriminate|apply ToString_throws]. Qed.

Lemma request_eq endpoint options w :
  request endpoint options w
  = (request_outcome (answer endpoint options w),
     set_requests (fun rs => (rs ++ [sent endpoint options w])%list) w).
Proof.
  unfold request, getAuthHeaders, getTokenFromStorage, fetch, answer, request_outcome.
  unfold_monad. fold (sent endpoint options w).
  destruct (network w (requests w) (sent endpoint options w)) as [e|r]; [reflexivity|].
  destruct (ok r); cbn [negb].
  - destruct (json r); reflexivity.
  - destruct (get _ _) as [message|]; [|reflexivity].
    destruct (truthy message); [|reflexivity].
    destruct (String_of message); reflexivity.
Qed.

Lemma sent_console endpoint options f w :
  sent endpoint options (set_console f w) = sent endpoint options w.
Proof. reflexivity. Qed.

Lemma answer_console endpoint options f w :
  answer endpoint options (set_console f w) = answer endpoint options w.
Proof. reflexivity. Qed.

Example http_error_404 : http_error 404 = "HTTP error! status: 404".
Proof. reflexivity. Qed.

Lemma getMe_eq w :
  getMe w = (request_outcome (answer "/auth/me" no_options w),
             set_requests (fun rs => (rs ++ [sent "/auth/me" no_options w])%list) w).
Proof. apply request_eq. Qed.

Lemma logout_eq w :
  logout w
  = (match request_outcome (answer "/auth/logout" (mkInit (Some "POST") None) w) with
     | Normal _ => Normal tt
     | Throw e => Throw e
     end,
     set_localStorage (delete "access_token")
       (set_requests (fun rs => (rs ++ [sent "/auth/logout" (mkInit (Some "POST") None) w])%list) w)).
Proof.
  unfold logout, removeTokenFromStorage. unfold_monad. rewrite request_eq.
  destruct (request_outcome _); reflexivity.
Qed.

Lemma login_eq username password w :
  login username password w
  = match request_outcome (answer "/auth/login" (login_options username password) w) with
    | Throw e =>
        (Throw e,
         set_requests (fun rs => (rs ++ [sent "/auth/login" (login_options username password) w])%list) w)
    | Normal response =>
        let w1 := set_requests (fun rs => (rs ++ [sent "/auth/login" (login_options username password) w])%list) w in
        match get (val response) "accessToken" with
        | Throw e => (Throw e, w1)
        | Normal accessToken =>
            if truthy accessToken then
              match String_of accessToken with
              | Normal token =>
                  (Normal response,
                   set_console (fun c => (c ++ ["Token stored in localStorage"])%list)
                     (set_localStorage (insert "access_token" token) w1))
              | Throw e => (Throw e, w1)
              end
            else (Normal response, w1)
        end
    end.
Proof.
  unfold login, setTokenInStorage, console_log. unfold_monad.
  fold (login_options username password). rewrite request_eq.
  destruct (request_outcome _) as [response|e]; [|reflexivity].
  cbn zeta. destruct (get (val response) "accessToken") as [tok|e]; [|reflexivity].
  destruct (truthy tok); [|reflexivity].
  destruct (String_of tok); reflexivity.
Qed.

End ApiClientFacts.

Module EncodingFacts.

Lemma all_chars_app p s1 s2 :
  Spec.all_chars p (s1 +:+ s2) = Spec.all_chars p s1 && Spec.all_chars p s2.
Proof.
  induction s1 as [|a s1 IH]; [reflexivity|].
  simpl. rewrite IH. by rewrite andb_assoc.
Qed.

Lemma percent_encode_safe a : Spec.all_chars Spec.url_safe (percent_encode a) = true.
Proof. destruct a as [[] [] [] [] [] [] [] []]; vm_compute; reflexivity. Qed.

(** The encoded token is made of unreserved characters and [%XX]
    escapes: it cannot end the query parameter it is placed in. *)
Lemma encodeURIComponent_safe s :
  Spec.all_chars Spec.url_safe (encodeURIComponent s) = true.
Proof.
  induction s as [|a s IH]; [reflexivity|].
  cbn [encodeURIComponent]. rewrite all_chars_app, IH, andb_true_r.
  destruct (is_unreserved a) eqn:Ha; [|apply percent_encode_safe].
  cbn [Spec.all_chars]. unfold Spec.url_safe. by rewrite Ha.
Qed.

End EncodingFacts.

Module AuthContextFacts.
Import AuthContext Spec ApiClientFacts.

Lemma checkAuthStatus_eq a :
  checkAuthStatus a
  = let w1 := set_console (fun c => (c ++ ["Token from localStorage:"])%list) (world a) in
    if truthy_str (localStorage (world a) !! "access_token") then
      let w2 := set_requests (fun rs => (rs ++ [sent "/auth/me" ApiClient.no_options (world a)])%list) w1 in
      match request_outcome (answer "/auth/me" ApiClient.no_options (world a)) with
      | Normal userData =>
          (Normal tt,
           mkAuth (set_console (fun c => (c ++ ["User data fetched:"])%list) w2)
                  (val userData) false)
      | Throw _ =>
          (Normal tt,
           mkAuth (set_localStorage (delete "access_token")
                     (set_console (fun c => (c ++ ["Auth check failed:"])%list) w2))
                  null false)
      end
    else (Normal tt, mkAuth w1 null false).
Proof.
  unfold checkAuthStatus. unfold_auth. unfold_monad. cbn [world user loading].
  destruct (truthy_str _); [|reflexivity].
  rewrite getMe_eq. cbn [world user loading]. rewrite answer_console, sent_console.
  destruct (request_outcome _); reflexivity.
Qed.

(** C1.  The restoration attempt at boot always completes normally and
    leaves [loading] false.  With no entry under [access_token] the
    session ends empty and no request is sent.  With a stored token [t]:
    if [t] is the empty string the guard [if (token)] treats it as
    absent, so again no request is sent and the session ends empty;
    otherwise exactly the who-am-i request is sent and, whenever that
    call throws (for any error [e]), the token is removed from storage
    and the session ends empty. *)
Theorem checkAuthStatus_restores (a : AuthProvider) :
  let a' := snd (checkAuthStatus a) in
  fst (checkAuthStatus a) = Normal tt ∧
  loading a' = false ∧
  (localStorage (world a) !! "access_token" = None →
     user a' = null ∧ requests (world a') = requests (world a)) ∧
  (∀ t, localStorage (world a) !! "access_token" = Some t →
     (t = "" → user a' = null ∧ requests (world a') = requests (world a)) ∧
     (t ≠ "" →
        requests (world a')
        = (requests (world a) ++ [sent "/auth/me" ApiClient.no_options (world a)])%list ∧
        ∀ e, fst (ApiClient.getMe (world a)) = Throw e →
             localStorage (world a') !! "access_token" = None ∧ user a' = null)).
Proof.
  cbv zeta. rewrite checkAuthStatus_eq. cbv zeta.
  split; [|split; [|split]].
  - destruct (truthy_str _); [destruct (request_outcome _)|]; reflexivity.
  - destruct (truthy_str _); [destruct (request_outcome _)|]; reflexivity.
  - intros ->. cbn [truthy_str]. split; reflexivity.
  - intros t Ht. rewrite Ht. split.
    + intros ->. split; reflexivity.
    + intros Hne. cbn [truthy_str].
      destruct (String.eqb_spec t "") as [->|_]; [done|]. cbn [negb].
      split.
      * destruct (request_outcome _); reflexivity.
      * intros e He. rewrite getMe_eq in He. cbn [fst] in He. rewrite He.
        cbn [snd world user localStorage set_localStorage].
        split; [apply lookup_delete_eq | reflexivity].
Qed.

(** When the who-am-i call returns, the session holds what it
    returned and the token is kept. *)
Lemma checkAuthStatus_populates a t userData :
  localStorage (world a) !! "access_token" = Some t → t ≠ "" →
  fst (ApiClient.getMe (world a)) = Normal userData →
  user (snd (checkAuthStatus a)) = val userData ∧
  loading (snd (checkAuthStatus a)) = false ∧
  localStorage (world (snd (checkAuthStatus a))) = localStorage (world a).
Proof.
  intros Ht Hne Hme. rewrite checkAuthStatus_eq. cbv zeta.
  rewrite Ht. cbn [truthy_str].
  destruct (String.eqb_spec t "") as [->|_]; [done|]. cbn [negb].
  rewrite getMe_eq in Hme. cbn [fst] in Hme. rewrite Hme. repeat split.
Qed.

Lemma logout_eq' a :
  logout a
  = (Normal tt,
     mkAuth
       (let w1 := set_console (fun c => (c ++ ["Logging out..."])%list) (world a) in
        let w2 := set_localStorage (delete "access_token")
                    (set_requests (fun rs => (rs ++ [sent "/auth/logout" (ApiClient.mkInit (Some "POST") None) (world a)])%list) w1) in
        match request_outcome (answer "/auth/logout" (ApiClient.mkInit (Some "POST") None) (world a)) with
        | Normal _ => set_toasts (fun ts => (ts ++ [success_toast "Logged out successfully"])%list) w2
        | Throw _ =>
            set_localStorage (delete "access_token")
              (set_console (fun c => (c ++ ["Logout error:"])%list) w2)
        end)
       null (loading a)).
Proof.
  unfold logout. unfold_auth. unfold_monad. cbn [world user loading].
  rewrite logout_eq. cbn [world user loading]. rewrite answer_console, sent_console.
  destruct (request_outcome _); reflexivity.
Qed.


Lemma checkAuthStatus_restores_witness :
  localStorage (world Scenario.restoring_offline) !! "access_token" = Some "stale-token" ∧
  fst (ApiClient.getMe (world Scenario.restoring_offline))
  = Throw (TypeError "Failed to fetch") ∧
  localStorage (world (snd (checkAuthStatus Scenario.restoring_offline)))
    !! "access_token" = None ∧
  user (snd (checkAuthStatus Scenario.restoring_offline)) = null ∧
  loading (snd (checkAuthStatus Scenario.restoring_offline)) = false.
Proof.
  destruct (checkAuthStatus_restores Scenario.restoring_offline)
    as (_ & Hloading & _ & Htoken).
  destruct (Htoken "stale-token" eq_refl) as [_ Hcall].
  destruct (Hcall ltac:(discriminate)) as [_ Hfail].
  destruct (Hfail (TypeError "Failed to fetch") eq_refl) as [Hgone Huser].
  split; [reflexivity|]. split; [reflexivity|].
  split; [exact Hgone|]. split; [exact Huser|exact Hloading].
Defined.

Lemma logout_clears a :
  fst (logout a) = Normal tt ∧
  localStorage (world (snd (logout a))) !! "access_token" = None ∧
  user (snd (logout a)) = null.
Proof.
  rewrite logout_eq'. cbn [fst snd world user]. split; [reflexivity|].
  split; [|reflexivity].
  destruct (request_outcome _); cbn [set_toasts set_localStorage localStorage];
    apply lookup_delete_eq.
Qed.

(** C2.  Every [logout] completes normally, leaves no token in storage
    and a [null] user; so does a second [logout] run after it.  When the
    server-side call throws, the error is swallowed: the caller sees a
    normal completion, no toast is shown, and the local state is cleared
    all the same. *)
Theorem logout_always_clears (a : AuthProvider) :
  let a1 := snd (logout a) in
  let a2 := snd (logout a1) in
  (fst (logout a) = Normal tt ∧
   localStorage (world a1) !! "access_token" = None ∧ user a1 = null) ∧
  (fst (logout a1) = Normal tt ∧
   localStorage (world a2) !! "access_token" = None ∧ user a2 = null) ∧
  (∀ e, fst (ApiClient.logout (world a)) = Throw e →
     fst (logout a) = Normal tt ∧
     localStorage (world a1) !! "access_token" = None ∧ user a1 = null ∧
     toasts (world a1) = toasts (world a)).
Proof.
  cbv zeta. split; [apply logout_clears|]. split; [apply logout_clears|].
  intros e He. destruct (logout_clears a) as (H1 & H2 & H3).
  split; [exact H1|]. split; [exact H2|]. split; [exact H3|].
  rewrite logout_eq in He. cbn [fst] in He.
  rewrite logout_eq'. cbn [snd world].
  destruct (request_outcome _); [discriminate|reflexivity].
Qed.

Lemma logout_always_clears_witness :
  fst (ApiClient.logout (world Scenario.signed_in_offline))
  = Throw (TypeError "Failed to fetch") ∧
  fst (logout Scenario.signed_in_offline) = Normal tt ∧
  localStorage (world (snd (logout Scenario.signed_in_offline))) !! "access_token" = None ∧
  user (snd (logout Scenario.signed_in_offline)) = null ∧
  toasts (world (snd (logout Scenario.signed_in_offline))) = [].
Proof.
  split; [reflexivity|].
  destruct (logout_always_clears Scenario.signed_in_offline) as (_ & _ & Hfail).
  exact (Hfail (TypeError "Failed to fetch") eq_refl).
Defined.

End AuthContextFacts.

Module LoginFacts.
Import AuthContext Spec ApiClientFacts AuthContextFacts.

Lemma get_opt_get v k x k' : get v k = Normal x → get v k' = Normal (opt_get v k').
Proof. destruct v as [|[]]; cbn; intros; simplify_eq; reflexivity. Qed.

Lemma login_throws username password a e :
  fst (ApiClient.login username password (world a)) = Throw e →
  login username password a
  = (Throw e,
     mkAuth (set_toasts (fun ts => (ts ++ [error_toast (err_message e)])%list)
               (set_console (fun c => (c ++ ["Login error:"])%list)
                  (snd (ApiClient.login username password (world a)))))
            (user a) (loading a)).
Proof.
  intros He. unfold login. unfold_auth. unfold_monad.
  destruct (ApiClient.login username password (world a)) as [[response|e'] w1];
    cbn [fst snd] in *; [discriminate|].
  simplify_eq. reflexivity.
Qed.

(** What the API call leaves in storage when it returns. *)
Lemma login_stores username password w response :
  fst (ApiClient.login username password w) = Normal response →
  get (val response) "accessToken" = Normal (opt_get (val response) "accessToken") ∧
  if truthy (opt_get (val response) "accessToken")
  then ∃ token,
         String_of (opt_get (val response) "accessToken") = Normal token ∧
         localStorage (snd (ApiClient.login username password w))
         = <["access_token" := token]> (localStorage w)
  else localStorage (snd (ApiClient.login username password w)) = localStorage w.
Proof.
  rewrite login_eq.
  destruct (request_outcome _) as [response'|]; [|discriminate].
  cbv zeta. destruct (get (val response') "accessToken") as [tok|] eqn:Hget; [|discriminate].
  pose proof (get_opt_get _ _ _ "accessToken" Hget) as Hopt.
  assert (tok = opt_get (val response') "accessToken") as -> by congruence.
  clear Hopt.
  destruct (truthy (opt_get (val response') "accessToken")) eqn:Htruthy.
  - destruct (String_of (opt_get (val response') "accessToken")) as [token|] eqn:Htoken;
      [|discriminate].
    cbn [fst snd]. intros [= <-]. rewrite Htruthy. split; [exact Hget|].
    exists token. split; [exact Htoken|reflexivity].
  - cbn [fst snd]. intros [= <-]. rewrite Htruthy. split; [exact Hget|reflexivity].
Qed.

(** A failed API call writes nothing to storage. *)
Lemma login_fails_stores_nothing username password w e :
  fst (ApiClient.login username password w) = Throw e →
  localStorage (snd (ApiClient.login username password w)) = localStorage w ∧
  toasts (snd (ApiClient.login username password w)) = toasts w.
Proof.
  rewrite login_eq.
  destruct (request_outcome _) as [response|]; [|by split].
  cbv zeta. destruct (get (val response) "accessToken") as [tok|]; [|by split].
  destruct (truthy tok); [|discriminate].
  destruct (String_of tok); [discriminate|by split].
Qed.

Lemma login_returns username password a response :
  fst (ApiClient.login username password (world a)) = Normal response →
  login username password a
  = (Normal tt,
     mkAuth (set_toasts (fun ts => (ts ++ [success_toast "Logged in successfully"])%list)
               (set_console (fun c => (c ++ ["Login successful, user:"; "Access token received:";
                                             "Token in localStorage after login:"])%list)
                  (snd (ApiClient.login username password (world a)))))
            (opt_get (val response) "user") (loading a)).
Proof.
  intros Hr.
  destruct (login_stores _ _ _ _ Hr) as [Hx _].
  unfold login. unfold_auth. unfold_monad.
  destruct (ApiClient.login username password (world a)) as [[response'|e'] w1];
    cbn [fst snd] in *; [|discriminate].
  simplify_eq. cbn [world user loading].
  rewrite (get_opt_get _ _ _ "user" Hx), Hx. cbn [world user loading].
  unfold set_toasts, set_console. cbn [localStorage network requests eventSources toasts console].
  rewrite <- !app_assoc. reflexivity.
Qed.

(** C3, amended.  When [login] throws [e], [e] is the very error thrown
    by the API call, the session ([user], [loading]) and the token
    storage are unchanged, and an error toast shows the message of [e].
    The error is determined by the answer to the login request.  If
    [fetch] was rejected, [e] is the transport error.  If the server
    answered with a non-success status: a body that is JSON [null]
    gives the [TypeError] of reading [message] from [null]; otherwise a
    truthy [message] field gives [Error] with its string form (the
    field itself when it is a non-empty string), or the [TypeError] of
    the conversion when it has none; and a missing or falsy [message],
    or an unreadable body, gives [Error] with
    [HTTP error! status: <code>].  If the status was a success, the
    failure came from reading the body: the error of [response.json()],
    the [TypeError] of reading [accessToken] from [null], or that of
    storing a token that has no string form. *)
Theorem login_failure (a : AuthProvider) (username password : string) (e : JsError) :
  fst (login username password a) = Throw e →
  let a' := snd (login username password a) in
  fst (ApiClient.login username password (world a)) = Throw e ∧
  user a' = user a ∧
  loading a' = loading a ∧
  localStorage (world a') = localStorage (world a) ∧
  toasts (world a') = (toasts (world a) ++ [error_toast (err_message e)])%list ∧
  match answer "/auth/login" (login_options username password) (world a) with
  | Rejected e' => e = e'
  | Resolved r =>
      if ok r then
        match json r with
        | Throw e' => e = e'
        | Normal JNull => e = cannot_read "null" "accessToken"
        | Normal body =>
            truthy (opt_get (val body) "accessToken") = true ∧
            String_of (opt_get (val body) "accessToken") = Throw e ∧
            e = cannot_convert
        end
      else
        match json r with
        | Normal JNull => e = cannot_read "null" "message"
        | Normal body =>
            if truthy (opt_get (val body) "message")
            then match String_of (opt_get (val body) "message") with
                 | Normal text => e = Error text
                 | Throw e' => e = e' ∧ e = cannot_convert
                 end
            else e = Error ("HTTP error! status: " +:+ pretty (status r))
        | Throw _ => e = Error ("HTTP error! status: " +:+ pretty (status r))
        end
  end ∧
  (∀ r m,
     answer "/auth/login" (login_options username password) (world a) = Resolved r →
     ok r = false → server_message (Resolved r) = Some m → m ≠ "" →
     e = Error m) ∧
  (∀ r props members hidden,
     answer "/auth/login" (login_options username password) (world a) = Resolved r →
     ok r = false → json r = Normal (JObj props) →
     own_property "message" props = val (JObj members) →
     own_property "toString" members = val hidden →
     e = TypeError "Cannot convert object to primitive value").
Proof.
  intros He. cbv zeta.
  destruct (fst (ApiClient.login username password (world a))) as [response|e'] eqn:Hapi.
  { rewrite (login_returns _ _ _ _ Hapi) in He. discriminate. }
  destruct (login_fails_stores_nothing _ _ _ _ Hapi) as [Hstore Htoasts].
  rewrite (login_throws _ _ _ _ Hapi) in He |- *. cbn [fst snd] in He |- *.
  simplify_eq. split; [reflexivity|]. split; [reflexivity|]. split; [reflexivity|].
  cbn [world user loading set_toasts set_console localStorage toasts].
  split; [exact Hstore|]. split; [by rewrite Htoasts|].
  clear Hstore Htoasts. rewrite login_eq in Hapi. unfold request_outcome in Hapi.
  assert (Hcases :
    match answer "/auth/login" (login_options username password) (world a) with
    | Rejected e' => e = e'
    | Resolved r =>
        if ok r then
          match json r with
          | Throw e' => e = e'
          | Normal JNull => e = cannot_read "null" "accessToken"
          | Normal body =>
              truthy (opt_get (val body) "accessToken") = true ∧
              String_of (opt_get (val body) "accessToken") = Throw e ∧
              e = cannot_convert
          end
        else
          match json r with
          | Normal JNull => e = cannot_read "null" "message"
          | Normal body =>
              if truthy (opt_get (val body) "message")
              then match String_of (opt_get (val body) "message") with
                   | Normal text => e = Error text
                   | Throw e' => e = e' ∧ e = cannot_convert
                   end
              else e = Error ("HTTP error! status: " +:+ pretty (status r))
          | Throw _ => e = Error ("HTTP error! status: " +:+ pretty (status r))
          end
    end).
  { destruct (answer "/auth/login" (login_options username password) (world a)) as [e'|r].
    { cbn [fst] in Hapi. congruence. }
    change ("HTTP error! status: " +:+ pretty (status r))
      with (ApiClient.http_error (status r)).
    destruct (ok r).
    - destruct (json r) as [body|e']; [|cbn [fst] in Hapi; congruence].
      cbv zeta in Hapi.
      assert (Hthrow : ∀ v, String_of v = Throw e → e = cannot_convert)
        by (intros v Hv; by apply String_of_throws in Hv).
      destruct body; cbn [get opt_get truthy] in Hapi |- *;
        try (cbn [fst] in Hapi; congruence);
        try (destruct (truthy _) eqn:Ht; [|discriminate];
             destruct (String_of _) eqn:Hs; [discriminate|];
             cbn [fst] in Hapi; injection Hapi as ->; eauto).
    - destruct (json r) as [body|e'].
      + destruct body; cbn [get opt_get truthy] in Hapi |- *;
          try (cbn [fst] in Hapi; congruence).
        destruct (truthy _); [|cbn [fst] in Hapi; congruence].
        destruct (String_of _) eqn:Hs; cbn [fst] in Hapi; [congruence|].
        injection Hapi as ->. split; [reflexivity|]. by apply String_of_throws in Hs.
      + cbn [get own_property truthy fst] in Hapi. congruence. }
  split; [exact Hcases|]. split.
  - intros r m Hr Hok Hm Hne. rewrite Hr, Hok in Hcases.
    cbn [server_message] in Hm.
    destruct (json r) as [[| | | | |props]|]; try discriminate.
    cbn [opt_get] in Hcases.
    destruct (own_property "message" props) as [|[| | |m'| |]]; try discriminate.
    injection Hm as ->. cbn [truthy String_of ToString] in Hcases.
    destruct (String.eqb_spec m "") as [Heq|_]; [by destruct Hne|]. exact Hcases.
  - intros r props members hidden Hr Hok Hbody Hmessage Hhidden.
    rewrite Hr, Hok, Hbody in Hcases. cbn [opt_get] in Hcases.
    rewrite Hmessage in Hcases. cbn [truthy String_of ToString] in Hcases.
    rewrite Hhidden in Hcases. by destruct Hcases as [-> _].
Qed.

(** C4.  When [login] completes normally, the API call returned a
    response, the session user is the [user] field of that response, one
    success toast is shown, and the token storage is exactly what the
    API call left.  A returned token that is a non-empty string is in
    storage afterwards, written by the API call itself.  In general a
    truthy [accessToken] is stored in its string form, and a response
    without a token, or with the empty string as token, leaves the
    storage as it was. *)
Theorem login_success (a : AuthProvider) (username password : string) :
  fst (login username password a) = Normal tt →
  let a' := snd (login username password a) in
  ∃ response,
    fst (ApiClient.login username password (world a)) = Normal response ∧
    user a' = opt_get (val response) "user" ∧
    toasts (world a')
    = (toasts (snd (ApiClient.login username password (world a)))
       ++ [success_toast "Logged in successfully"])%list ∧
    localStorage (world a')
    = localStorage (snd (ApiClient.login username password (world a))) ∧
    (∀ token, opt_get (val response) "accessToken" = val (JStr token) → token ≠ "" →
       localStorage (snd (ApiClient.login username password (world a))) !! "access_token"
       = Some token ∧
       localStorage (world a') !! "access_token" = Some token) ∧
    (if truthy (opt_get (val response) "accessToken")
     then ∃ token,
            String_of (opt_get (val response) "accessToken") = Normal token ∧
            localStorage (world a') = <["access_token" := token]> (localStorage (world a))
     else localStorage (world a') = localStorage (world a)).
Proof.
  intros Hok. cbv zeta.
  destruct (fst (ApiClient.login username password (world a))) as [response|e'] eqn:Hapi.
  2:{ rewrite (login_throws _ _ _ _ Hapi) in Hok. discriminate. }
  exists response. split; [reflexivity|].
  destruct (login_stores _ _ _ _ Hapi) as [_ Hst].
  rewrite (login_returns _ _ _ _ Hapi). cbn [fst snd world user loading].
  cbn [set_toasts set_console localStorage toasts].
  split; [reflexivity|]. split; [reflexivity|]. split; [reflexivity|]. split.
  - intros token Htok Hne. rewrite Htok in Hst. cbn [truthy String_of ToString] in Hst.
    destruct (String.eqb_spec token "") as [Heq|_]; [by destruct Hne|]. cbn [negb] in Hst.
    destruct Hst as (token' & [= <-] & ->). split; apply lookup_insert_eq.
  - exact Hst.
Qed.

Lemma login_failure_witness :
  fst (login "alice" "wrong" Scenario.signed_out_rejecting)
  = Throw (Error "Invalid credentials") ∧
  user (snd (login "alice" "wrong" Scenario.signed_out_rejecting)) = null ∧
  localStorage (world (snd (login "alice" "wrong" Scenario.signed_out_rejecting))) = ∅ ∧
  toasts (world (snd (login "alice" "wrong" Scenario.signed_out_rejecting)))
  = [error_toast "Invalid credentials"].
Proof.
  split; [reflexivity|].
  destruct (login_failure Scenario.signed_out_rejecting "alice" "wrong"
              (Error "Invalid credentials") eq_refl)
    as (_ & Huser & _ & Hstore & Htoast & _).
  split; [exact Huser|]. split; [exact Hstore|]. exact Htoast.
Defined.

(** Offline, the login fails with the error of [fetch]: no server
    message exists and the message names no HTTP status. *)
Lemma login_failure_counterexample :
  fst (login "alice" "secret" Scenario.signed_out_offline)
  = Throw (TypeError "Failed to fetch") ∧
  server_message (answer "/auth/login" (login_options "alice" "secret")
                         (world Scenario.signed_out_offline)) = None ∧
  ¬ login_failure_as_stated Scenario.signed_out_offline "alice" "secret".
Proof.
  split; [reflexivity|]. split; [reflexivity|].
  intros H. destruct (H (TypeError "Failed to fetch") eq_refl) as [_ Hmsg].
  destruct Hmsg as [code [Hcode|Hcode]]; discriminate Hcode.
Qed.

Lemma login_success_witness :
  fst (login "alice" "secret" (Scenario.signed_out_accepting "jwt")) = Normal tt ∧
  user (snd (login "alice" "secret" (Scenario.signed_out_accepting "jwt")))
  = val (Types.User_json Scenario.alice) ∧
  localStorage (world (snd (login "alice" "secret" (Scenario.signed_out_accepting "jwt"))))
    !! "access_token" = Some "jwt" ∧
  toasts (world (snd (login "alice" "secret" (Scenario.signed_out_accepting "jwt"))))
  = [success_toast "Logged in successfully"].
Proof.
  split; [reflexivity|].
  destruct (login_success (Scenario.signed_out_accepting "jwt") "alice" "secret" eq_refl)
    as (response & Hresp & Huser & Htoast & _ & Htok & _).
  vm_compute in Hresp. injection Hresp as <-.
  split; [exact Huser|]. split; [|exact Htoast].
  apply Htok; [reflexivity|discriminate].
Defined.

End LoginFacts.

Module ProtectedRouteFacts.
Import Types ProtectedRoute.

Lemma decision_Authorized_iff isInitializing currentUser allowedRoles :
  decision isInitializing currentUser allowedRoles = Authorized ↔
  isInitializing = false ∧
  ∃ u, currentUser = Some u ∧ (allowedRoles = [] ∨ role u ∈ allowedRoles).
Proof.
  unfold decision. destruct isInitializing.
  { split; [discriminate|]. intros [? _]. discriminate. }
  destruct currentUser as [u|].
  2:{ split; [discriminate|]. intros [_ (u & Hu & _)]. discriminate. }
  destruct allowedRoles as [|r rs].
  { split; [|reflexivity]. intros _. split; [reflexivity|]. exists u. by split; [|left]. }
  case_bool_decide as Hin.
  - split; [|reflexivity]. intros _. split; [reflexivity|]. exists u. by split; [|right].
  - split; [discriminate|]. intros [_ (u' & Hu & [Hnil|Hin'])]; [discriminate|].
    injection Hu as <-. contradiction.
Qed.

(** C5.  The guard, per navigation: with an empty allowed-roles set any
    authenticated user is [Authorized] and sees the requested view; with
    allowed roles [ADMIN] a [STUDENT] is [Forbidden] and redirected to
    [/unauthorized]; without a current user the decision is
    [Unauthenticated] and the redirect goes to [/login], whatever the
    allowed roles; while the session is initializing the decision is
    [Pending] and the loading indicator is rendered. *)
Theorem guard_decisions :
  (∀ u, decision false (Some u) [] = Authorized ∧
        ProtectedRoute false (Some u) [] = RequestedView) ∧
  (∀ u, role u = STUDENT →
        decision false (Some u) [ADMIN] = Forbidden ∧
        ProtectedRoute false (Some u) [ADMIN] = Redirect "/unauthorized") ∧
  (∀ allowedRoles,
        decision false None allowedRoles = Unauthenticated ∧
        ProtectedRoute false None allowedRoles = Redirect "/login") ∧
  (∀ currentUser allowedRoles,
        decision true currentUser allowedRoles = Pending ∧
        ProtectedRoute true currentUser allowedRoles = LoadingIndicator).
Proof.
  split; [|split; [|split]].
  - intros u. split; reflexivity.
  - intros u Hrole. unfold ProtectedRoute, decision. rewrite Hrole.
    split; reflexivity.
  - intros roles. split; reflexivity.
  - intros u roles. split; reflexivity.
Qed.

Lemma guard_decisions_witness :
  role Scenario.alice = STUDENT ∧
  decision false (Some Scenario.alice) [ADMIN] = Forbidden ∧
  ProtectedRoute false (Some Scenario.alice) [ADMIN] = Redirect "/unauthorized".
Proof.
  split; [reflexivity|].
  destruct guard_decisions as (_ & Hforbidden & _).
  exact (Hforbidden Scenario.alice eq_refl).
Defined.

(** On the routes of [App.tsx]: a signed-in student reaches the two
    unrestricted routes and the student routes, and no other. *)
Lemma student_routes u :
  role u = STUDENT →
  (filter (fun route => decision false (Some u) route.2 = Authorized) routes).*1
  = ["/"; "/settings"; "/student"; "/student/courses/:courseId"].
Proof.
  intros Hrole. unfold routes, decision.
  repeat (rewrite ?filter_cons, ?filter_nil; cbn [snd]; rewrite ?Hrole).
  reflexivity.
Qed.

End ProtectedRouteFacts.

Module EventStreamFacts.
Import ApiClient Spec.

Lemma createEventStream_eq (w : World) :
  (localStorage w !! "access_token" = None →
     createEventStream w = (Throw (Error "No authentication token found"), w)) ∧
  (localStorage w !! "access_token" = Some "" →
     createEventStream w = (Throw (Error "No authentication token found"), w)) ∧
  (∀ token, localStorage w !! "access_token" = Some token → token ≠ "" →
     createEventStream w
     = (Normal (length (eventSources w)),
        set_eventSources (fun l => (l ++ [stream token])%list) w)).
Proof.
  unfold createEventStream, getTokenFromStorage.
  unfold try_catch, lift_completion, gets, modify, throw, mbind, M_bind, mret, M_ret.
  split; [|split].
  - intros ->. reflexivity.
  - intros ->. reflexivity.
  - intros token -> Hne. cbn [truthy_str].
    destruct (String.eqb_spec token "") as [->|_]; [done|]. reflexivity.
Qed.

(** C10.  [createEventStream] throws [Error("No authentication token
    found")] and leaves the browser untouched, so that no channel is
    created, when storage has no entry under [access_token], and
    likewise when the entry is the empty string, which [!token] treats
    as absent.  With a non-empty token it adds exactly one channel to
    the channels of the browser and returns its handle: the channel is
    open, sends credentials, and its URL is
    [http://localhost:3000/event/stream?token=] followed by the
    URI-component encoding of the token; nothing else in the browser
    changes. *)
Theorem createEventStream_spec (w : World) :
  let w' := snd (createEventStream w) in
  (localStorage w !! "access_token" = None ∨ localStorage w !! "access_token" = Some "" →
     fst (createEventStream w) = Throw (Error "No authentication token found") ∧
     eventSources w' = eventSources w ∧
     w' = w) ∧
  (∀ token, localStorage w !! "access_token" = Some token → token ≠ "" →
     ∃ handle channel,
       fst (createEventStream w) = Normal handle ∧
       eventSources w' = (eventSources w ++ [channel])%list ∧
       eventSources w' !! handle = Some channel ∧
       es_url channel
       = "http://localhost:3000/event/stream?token=" +:+ encodeURIComponent token ∧
       es_withCredentials channel = true ∧
       es_closed channel = false ∧
       localStorage w' = localStorage w ∧ requests w' = requests w ∧
       toasts w' = toasts w ∧ console w' = console w).
Proof.
  cbv zeta. destruct (createEventStream_eq w) as (H1 & H2 & H3). split.
  - intros [Hnone|Hempty]; [rewrite (H1 Hnone)|rewrite (H2 Hempty)]; by repeat split.
  - intros token Htok Hne. rewrite (H3 token Htok Hne).
    exists (length (eventSources w)), (stream token).
    cbn [fst snd set_eventSources eventSources localStorage requests toasts console].
    split; [reflexivity|]. split; [reflexivity|]. split.
    { rewrite lookup_app_r by lia. by rewrite Nat.sub_diag. }
    repeat split.
Qed.

Lemma createEventStream_spec_witness :
  localStorage (Scenario.browser (Scenario.with_token "a b+c") Scenario.offline)
    !! "access_token" = Some "a b+c" ∧
  fst (createEventStream (Scenario.browser (Scenario.with_token "a b+c") Scenario.offline))
  = Normal 0%nat ∧
  eventSources
    (snd (createEventStream (Scenario.browser (Scenario.with_token "a b+c") Scenario.offline)))
  = [mkEventSource "http://localhost:3000/event/stream?token=a%20b%2Bc" true false] ∧
  fst (createEventStream (Scenario.browser ∅ Scenario.offline))
  = Throw (Error "No authentication token found") ∧
  eventSources (snd (createEventStream (Scenario.browser ∅ Scenario.offline))) = [].
Proof.
  destruct (createEventStream_spec
              (Scenario.browser (Scenario.with_token "a b+c") Scenario.offline))
    as (_ & Hopen).
  destruct (createEventStream_spec (Scenario.browser ∅ Scenario.offline)) as (Hnone & _).
  assert (Hne : "a b+c" ≠ "") by discriminate.
  destruct (Hopen "a b+c" eq_refl Hne)
    as (handle & [url credentials closed] & Hhandle & Hlist & _ & Hurl & Hcred & Hclosed & _).
  cbn [es_url es_withCredentials es_closed] in Hurl, Hcred, Hclosed. subst.
  destruct (Hnone (or_introl eq_refl)) as (Hthrow & Hsame & _).
  split; [reflexivity|]. split; [reflexivity|]. split; [exact Hlist|].
  split; [exact Hthrow|exact Hsame].
Defined.

End EventStreamFacts.

Module AdminDashboardFacts.
Import AdminDashboard Spec ApiClientFacts.

Section LiveEventFacts.

Variable JSON_parse : string → Completion JSON.

Lemma onmessage_malformed st data e :
  JSON_parse data = Throw e →
  onmessage JSON_parse data st
  = (Normal tt,
     mkState (set_console (fun c => (c ++ ["Failed to parse event data:"])%list) (world st))
             (analytics st) (recentEvents st) (users st) (loading st)).
Proof.
  intros He. unfold onmessage. unfold_admin. unfold_monad. rewrite He. reflexivity.
Qed.

Lemma onmessage_parsed st data j :
  JSON_parse data = Normal j →
  fst (onmessage JSON_parse data st) = Normal tt ∧
  recentEvents (snd (onmessage JSON_parse data st)) = j :: take 9 (recentEvents st) ∧
  eventSources (world (snd (onmessage JSON_parse data st))) = eventSources (world st).
Proof.
  intros Hj. unfold onmessage. unfold_admin. unfold_monad. rewrite Hj.
  cbn [world analytics recentEvents users loading].
  destruct (get (val j) "type") as [type|e].
  - destruct (ToPropertyKey type) as [key|]; [destruct (eventTypeMap_get key)|];
      repeat split.
  - repeat split.
Qed.

Lemma dispatch_Message_eq handle st data :
  dispatch JSON_parse handle (Message data) st
  = (Normal tt,
     match JSON_parse data with
     | Normal j => snd (onmessage JSON_parse data st)
     | Throw _ =>
         mkState (set_console (fun c => (c ++ ["Failed to parse event data:"])%list)
                    (world st))
                 (analytics st) (recentEvents st) (users st) (loading st)
     end).
Proof.
  cbn [dispatch]. destruct (JSON_parse data) as [j|e] eqn:Hd.
  - destruct (onmessage_parsed st data j Hd) as (Hfst & _).
    rewrite <- Hfst. by destruct (onmessage JSON_parse data st).
  - by rewrite (onmessage_malformed st data e Hd).
Qed.

Lemma feed_cons handle data datas st :
  feed JSON_parse handle (data :: datas) st
  = feed JSON_parse handle datas
      (match JSON_parse data with
       | Normal j => snd (onmessage JSON_parse data st)
       | Throw _ =>
           mkState (set_console (fun c => (c ++ ["Failed to parse event data:"])%list)
                      (world st))
                   (analytics st) (recentEvents st) (users st) (loading st)
       end).
Proof.
  unfold feed. rewrite fmap_cons. cbn [dispatch_all]. unfold mbind, M_bind.
  rewrite dispatch_Message_eq. reflexivity.
Qed.

Lemma feed_spec handle datas st :
  fst (feed JSON_parse handle datas st) = Normal tt ∧
  recentEvents (snd (feed JSON_parse handle datas st))
  = foldl (fun buffer j => j :: take 9 buffer) (recentEvents st) (parsed JSON_parse datas) ∧
  eventSources (world (snd (feed JSON_parse handle datas st))) = eventSources (world st).
Proof.
  revert st. induction datas as [|data datas IH]; intros st.
  { repeat split. }
  rewrite feed_cons.
  cbn [parsed omap list_omap]. fold (parsed JSON_parse datas).
  destruct (JSON_parse data) as [j|e] eqn:Hd.
  - destruct (onmessage_parsed st data j Hd) as (_ & Hbuf & Hes).
    destruct (IH (snd (onmessage JSON_parse data st))) as (H1 & H2 & H3).
    rewrite H1, H2, H3, Hbuf, Hes. repeat split.
  - match goal with |- context [feed _ _ _ ?s] =>
      destruct (IH s) as (H1 & H2 & H3) end.
    rewrite H1, H2, H3. repeat split.
Qed.

End LiveEventFacts.

Lemma bounded_buffer (events buffer : list JSON) :
  (length buffer ≤ 10)%nat →
  foldl (fun buffer j => j :: take 9 buffer) buffer events
  = take 10 (reverse events ++ buffer).
Proof.
  revert buffer. induction events as [|j events IH]; intros buffer Hlen.
  { cbn. by rewrite take_ge. }
  cbn [foldl]. rewrite IH.
  2:{ cbn [length]. rewrite length_take. lia. }
  rewrite reverse_cons, <- app_assoc. cbn [app].
  rewrite !take_app. f_equal.
  destruct (10 - length (reverse events))%nat as [|n] eqn:Hn; [reflexivity|].
  cbn [take]. f_equal. rewrite take_take. f_equal. lia.
Qed.

Section LiveEventBuffer.

Variable JSON_parse : string → Completion JSON.

Lemma parsed_malformed (bad : list string) :
  Forall (fun d => ∃ e, JSON_parse d = Throw e) bad → parsed JSON_parse bad = [].
Proof.
  induction 1 as [|d bad [e He] _ IH]; [reflexivity|].
  cbn [parsed omap list_omap]. rewrite He. exact IH.
Qed.

Lemma parsed_well_formed (datas : list string) (events : list JSON) :
  Forall2 (fun d j => JSON_parse d = Normal j) datas events →
  parsed JSON_parse datas = events.
Proof.
  induction 1 as [|d j datas events Hd _ IH]; [reflexivity|].
  cbn [parsed omap list_omap]. rewrite Hd. f_equal. exact IH.
Qed.

Lemma parsed_app (xs ys : list string) :
  parsed JSON_parse (xs ++ ys) = (parsed JSON_parse xs ++ parsed JSON_parse ys)%list.
Proof. apply omap_app. Qed.

(** C6.  For any [JSON.parse]: a message that fails to parse completes
    the handler normally, leaves the buffer, the channels and the toasts
    as they were and only adds a console entry; a message that parses is
    put in front of the first nine entries of the buffer and leaves the
    channels as they were.  Hence, from an empty buffer, any number of
    malformed payloads followed by one well-formed payload leaves
    exactly that event, and eleven well-formed events leave the ten
    most recent, most recent first.  In general the buffer holds the
    first ten of the parsed events in reverse order of arrival, and
    never more than ten. *)
Theorem live_event_buffer (handle : nat) (st : State) :
  (∀ data e, JSON_parse data = Throw e →
     let st' := snd (onmessage JSON_parse data st) in
     fst (onmessage JSON_parse data st) = Normal tt ∧
     recentEvents st' = recentEvents st ∧
     eventSources (world st') = eventSources (world st) ∧
     toasts (world st') = toasts (world st) ∧
     console (world st') = (console (world st) ++ ["Failed to parse event data:"])%list) ∧
  (∀ data j, JSON_parse data = Normal j →
     let st' := snd (onmessage JSON_parse data st) in
     fst (onmessage JSON_parse data st) = Normal tt ∧
     recentEvents st' = j :: take 9 (recentEvents st) ∧
     eventSources (world st') = eventSources (world st)) ∧
  (∀ bad good j,
     recentEvents st = [] →
     Forall (fun d => ∃ e, JSON_parse d = Throw e) bad →
     JSON_parse good = Normal j →
     recentEvents (snd (feed JSON_parse handle (bad ++ [good]) st)) = [j]) ∧
  (∀ datas events,
     recentEvents st = [] →
     Forall2 (fun d j => JSON_parse d = Normal j) datas events →
     length events = 11%nat →
     recentEvents (snd (feed JSON_parse handle datas st)) = take 10 (reverse events)) ∧
  (∀ datas,
     (length (recentEvents st) ≤ 10)%nat →
     fst (feed JSON_parse handle datas st) = Normal tt ∧
     recentEvents (snd (feed JSON_parse handle datas st))
     = take 10 (reverse (parsed JSON_parse datas) ++ recentEvents st) ∧
     (length (recentEvents (snd (feed JSON_parse handle datas st))) ≤ 10)%nat ∧
     eventSources (world (snd (feed JSON_parse handle datas st)))
     = eventSources (world st)).
Proof.
  split; [|split; [|split; [|split]]].
  - intros data e He. cbv zeta. rewrite (onmessage_malformed _ _ _ _ He).
    repeat split.
  - intros data j Hj. exact (onmessage_parsed _ _ _ _ Hj).
  - intros bad good j Hempty Hbad Hgood.
    destruct (feed_spec JSON_parse handle (bad ++ [good]) st) as (_ & -> & _).
    rewrite parsed_app, (parsed_malformed _ Hbad), Hempty.
    cbn [parsed omap list_omap app]. rewrite Hgood. reflexivity.
  - intros datas events Hempty Hall _.
    destruct (feed_spec JSON_parse handle datas st) as (_ & -> & _).
    rewrite (parsed_well_formed _ _ Hall), Hempty.
    rewrite bounded_buffer by (cbn; lia). by rewrite app_nil_r.
  - intros datas Hlen.
    destruct (feed_spec JSON_parse handle datas st) as (H1 & H2 & H3).
    rewrite H2, (bounded_buffer _ _ Hlen).
    split; [exact H1|]. split; [reflexivity|]. split; [|exact H3].
    rewrite length_take. lia.
Qed.

End LiveEventBuffer.

Lemma live_event_buffer_witness :
  recentEvents
    (snd (feed Scenario.digit_parse 0 ["oops"; "{type:"; "7"]
               (mount (Scenario.browser ∅ Scenario.offline))))
  = [JNum 7] ∧
  recentEvents
    (snd (feed Scenario.digit_parse 0
               ["0"; "1"; "2"; "3"; "4"; "5"; "6"; "7"; "8"; "9"; "null"]
               (mount (Scenario.browser ∅ Scenario.offline))))
  = [JNull; JNum 9; JNum 8; JNum 7; JNum 6; JNum 5; JNum 4; JNum 3; JNum 2; JNum 1].
Proof.
  destruct (live_event_buffer Scenario.digit_parse 0
              (mount (Scenario.browser ∅ Scenario.offline)))
    as (_ & _ & Hone & Heleven & _).
  split.
  - apply (Hone ["oops"; "{type:"] "7" (JNum 7)); [reflexivity| |reflexivity].
    repeat constructor; eexists; reflexivity.
  - apply (Heleven ["0"; "1"; "2"; "3"; "4"; "5"; "6"; "7"; "8"; "9"; "null"]
             [JNum 0; JNum 1; JNum 2; JNum 3; JNum 4; JNum 5; JNum 6; JNum 7;
              JNum 8; JNum 9; JNull]);
      [reflexivity| |reflexivity].
    repeat constructor.
Defined.

(** A transport error closes the channel ([onerror]). *)
Lemma onerror_closes JSON_parse st es :
  eventSources (world st) = [es] →
  eventSources (world (snd (dispatch JSON_parse 0 Failure st))) = [close_EventSource es].
Proof.
  intros Hes. cbn [dispatch]. unfold onerror. unfold_admin. unfold_monad.
  cbn [fst snd world set_console set_eventSources eventSources]. by rewrite Hes.
Qed.

Lemma loadDashboardData_begin_frame st :
  ∃ pending,
    fst (loadDashboardData_begin st) = Normal pending ∧
    localStorage (world (snd (loadDashboardData_begin st))) = localStorage (world st) ∧
    eventSources (world (snd (loadDashboardData_begin st))) = eventSources (world st) ∧
    recentEvents (snd (loadDashboardData_begin st)) = recentEvents st.
Proof.
  unfold loadDashboardData_begin, ApiClient.getUsers, ApiClient.getCourses.
  unfold_admin. unfold_monad. cbn [world analytics recentEvents users loading].
  rewrite !request_eq. cbn [world analytics recentEvents users loading fst snd].
  eexists. repeat split.
Qed.

Lemma loadDashboardData_resume_frame pending st :
  fst (loadDashboardData_resume pending st) = Normal tt ∧
  localStorage (world (snd (loadDashboardData_resume pending st))) = localStorage (world st) ∧
  eventSources (world (snd (loadDashboardData_resume pending st))) = eventSources (world st) ∧
  recentEvents (snd (loadDashboardData_resume pending st)) = recentEvents st.
Proof.
  unfold loadDashboardData_resume. unfold_admin. unfold_monad.
  destruct pending as [[usersResponse|] [coursesResponse|]]; cbn [fst snd];
    try (repeat split; fail).
  destruct (get (val usersResponse) "total"); [|repeat split].
  destruct (get (val usersResponse) "data") as [data|]; [|repeat split].
  destruct (data_filter_role data "INSTRUCTOR"); [|repeat split].
  destruct (data_filter_role data "STUDENT"); [|repeat split].
  destruct (get (val coursesResponse) "total"); repeat split.
Qed.

Lemma setupEventStream_with_token st token :
  localStorage (world st) !! "access_token" = Some token → token ≠ "" →
  setupEventStream st
  = (Normal (Some (Close (length (eventSources (world st))))),
     mkState (set_eventSources (fun l => (l ++ [stream token])%list) (world st))
             (analytics st) (recentEvents st) (users st) (loading st)).
Proof.
  intros Htok Hne. unfold setupEventStream. unfold_admin. unfold_monad.
  destruct (EventStreamFacts.createEventStream_eq (world st)) as (_ & _ & Hopen).
  rewrite (Hopen token Htok Hne). reflexivity.
Qed.

(** The clean-up that [setupEventStream] returns does close the stream
    it opened. *)
Lemma setupEventStream_cleanup_closes st token :
  localStorage (world st) !! "access_token" = Some token → token ≠ "" →
  ∃ cleanup,
    fst (setupEventStream st) = Normal (Some cleanup) ∧
    eventSources (world (snd (unmount (Some cleanup) (snd (setupEventStream st)))))
    = (eventSources (world st) ++ [close_EventSource (stream token)])%list.
Proof.
  intros Htok Hne. rewrite (setupEventStream_with_token _ _ Htok Hne).
  eexists. split; [reflexivity|].
  unfold unmount, run_cleanup. unfold_admin. unfold_monad.
  cbn [fst snd world set_eventSources eventSources].
  rewrite alter_app_r_alt by lia. by rewrite Nat.sub_diag.
Qed.

(** C9, the code at the failing input.  With a non-empty token in
    storage the mount effect opens the event stream but returns no
    clean-up to React, so after the unmount (run before or after the
    pending loader resumes) the stream opened at mount is still in the
    list of channels, not closed. *)
Theorem unmount_leaves_stream_open (w : World) (token : string) :
  localStorage w !! "access_token" = Some token → token ≠ "" →
  ∃ pending,
    fst (effect (mount w)) = Normal (None, pending) ∧
    let mounted := snd (effect (mount w)) in
    eventSources (world mounted) = (eventSources w ++ [stream token])%list ∧
    eventSources (world (snd (unmount None mounted)))
    = (eventSources w ++ [stream token])%list ∧
    eventSources (world (snd (unmount None (snd (loadDashboardData_resume pending mounted)))))
    = (eventSources w ++ [stream token])%list ∧
    es_closed (stream token) = false.
Proof.
  intros Htok Hne. unfold effect.
  destruct (loadDashboardData_begin_frame (mount w)) as (pending & Hp & Hls & Hes & _).
  exists pending. unfold mbind, M_bind.
  destruct (loadDashboardData_begin (mount w)) as [r st1]. cbn [fst snd] in *.
  subst r. cbn [world mount] in Hls, Hes. rewrite <- Hls in Htok.
  rewrite (setupEventStream_with_token _ _ Htok Hne).
  cbn [mret M_ret fst snd unmount world set_eventSources eventSources].
  rewrite Hes. split; [reflexivity|]. split; [reflexivity|]. split; [reflexivity|].
  split; [|reflexivity].
  match goal with |- context [loadDashboardData_resume pending ?s] =>
    destruct (loadDashboardData_resume_frame pending s) as (_ & _ & -> & _) end.
  cbn [world set_eventSources eventSources]. by rewrite Hes.
Qed.

Lemma unmount_leaves_stream_open_witness :
  localStorage (Scenario.browser (Scenario.with_token "jwt") Scenario.offline)
    !! "access_token" = Some "jwt" ∧
  eventSources
    (world (snd (unmount None
      (snd (effect (mount (Scenario.browser (Scenario.with_token "jwt") Scenario.offline)))))))
  = [mkEventSource "http://localhost:3000/event/stream?token=jwt" true false].
Proof.
  split; [reflexivity|].
  destruct (unmount_leaves_stream_open
              (Scenario.browser (Scenario.with_token "jwt") Scenario.offline) "jwt"
              eq_refl ltac:(discriminate))
    as (pending & _ & _ & Hopen & _).
  exact Hopen.
Defined.

End AdminDashboardFacts.

Module CourseChatFacts.
Import CourseChat Spec ApiClientFacts.

Lemma join_requests_add event arg s :
  event ≠ "joinCourse" → join_requests (add_emitted event arg s) = join_requests s.
Proof.
  intros Hne. unfold join_requests, add_emitted. cbn [emitted].
  rewrite List.filter_app. cbn [List.filter fst].
  destruct (String.eqb_spec event "joinCourse") as [->|_]; [done|].
  by rewrite app_nil_r.
Qed.

Lemma listener_sockets props h ev st :
  fst (listener props h ev st) = Normal tt ∧
  user (snd (listener props h ev st)) = user st ∧
  (sockets (snd (listener props h ev st)) = sockets st ∨
   sockets (snd (listener props h ev st))
   = alter (add_emitted "join-course" (CourseId (courseId props))) h (sockets st)).
Proof.
  destruct ev; cbn [listener]; unfold_chat; unfold_monad;
    cbn [fst snd sockets user set_sockets world]; auto.
Qed.

Lemma listen_all_joins props h evs : ∀ st s,
  sockets st !! h = Some s →
  fst (listen_all props h evs st) = Normal tt ∧
  ∃ s', sockets (snd (listen_all props h evs st)) !! h = Some s' ∧
        join_requests s' = join_requests s ∧
        ∀ i, i ≠ h → sockets (snd (listen_all props h evs st)) !! i = sockets st !! i.
Proof.
  induction evs as [|ev evs IH]; intros st s Hs.
  { split; [reflexivity|]. exists s. repeat split; done. }
  cbn [listen_all]. unfold mbind, M_bind.
  destruct (listener_sockets props h ev st) as (Hfst & _ & Hsock).
  destruct (listener props h ev st) as [r st1]. cbn [fst snd] in *. subst r.
  destruct Hsock as [Hsame|Hemit].
  - rewrite <- Hsame in Hs. destruct (IH st1 s Hs) as (H1 & s' & H2 & H3 & H4).
    split; [exact H1|]. exists s'. rewrite <- Hsame. by repeat split.
  - assert (Hs1 : sockets st1 !! h
                  = Some (add_emitted "join-course" (CourseId (courseId props)) s)).
    { rewrite Hemit, list_lookup_alter_eq, Hs. reflexivity. }
    destruct (IH st1 _ Hs1) as (H1 & s' & H2 & H3 & H4).
    split; [exact H1|]. exists s'. split; [exact H2|]. split.
    + rewrite H3. by apply join_requests_add.
    + intros i Hi. rewrite (H4 i Hi), Hemit. by apply list_lookup_alter_ne.
Qed.

(** The second emission: each [joinCourseSuccess] makes the first
    listener emit [join-course]. *)
Lemma joinCourseSuccess_emits props h data st :
  sockets (snd (listener props h (joinCourseSuccess data) st))
  = alter (add_emitted "join-course" (CourseId (courseId props))) h (sockets st) ∧
  loading (snd (listener props h (joinCourseSuccess data) st)) = false.
Proof. split; reflexivity. Qed.

(** Messages are appended in the order of receipt. *)
Lemma courseMessage_appends props h message st :
  messages (snd (listener props h (courseMessage message) st))
  = (messages st ++ [message])%list.
Proof. reflexivity. Qed.

Lemma effect_no_access props st :
  canAccessChat props st = false →
  effect props st
  = (Normal None,
     mkState (world st) (sockets st) (user st) (socket st) (messages st)
             (newMessage st) false).
Proof.
  intros Hno. unfold effect. unfold_chat. unfold_monad. by rewrite Hno.
Qed.

Lemma effect_no_token props st :
  canAccessChat props st = true →
  truthy_str (localStorage (world st) !! "access_token") = false →
  effect props st
  = (Normal None,
     mkState (set_console (fun c => (c ++ ["No token found for chat connection"])%list)
                (world st))
             (sockets st) (user st) (socket st) (messages st) (newMessage st)
             (loading st)).
Proof.
  intros Hcan Hno. unfold effect. unfold_chat. unfold_monad. rewrite Hcan.
  cbn [negb]. destruct (localStorage (world st) !! "access_token") as [t|];
    [rewrite Hno|]; reflexivity.
Qed.

Lemma effect_with_token props st token :
  canAccessChat props st = true →
  localStorage (world st) !! "access_token" = Some token → token ≠ "" →
  effect props st
  = (Normal (Some (Disconnect (length (sockets st)))),
     mkState (world st)
             (alter (add_emitted "joinCourse" (CourseId (courseId props)))
                    (length (sockets st))
                    (sockets st ++ [mkSocket "http://localhost:3000" token
                                             ["websocket"; "polling"] [] false])%list)
             (user st) (Some (length (sockets st))) (messages st) (newMessage st)
             (loading st)).
Proof.
  intros Hcan Htok Hne. unfold effect. unfold_chat. unfold_monad. rewrite Hcan.
  cbn [negb]. rewrite Htok. cbn [truthy_str].
  destruct (String.eqb_spec token "") as [->|_]; [done|]. reflexivity.
Qed.

(** The clean-up the chat effect returns disconnects the socket it
    opened. *)
Lemma effect_cleanup_disconnects props st token :
  canAccessChat props st = true →
  localStorage (world st) !! "access_token" = Some token → token ≠ "" →
  ∃ cleanup,
    fst (effect props st) = Normal (Some cleanup) ∧
    sockets (snd (run_cleanup cleanup (snd (effect props st))))
    = (sockets st ++ [set_disconnected (joined_socket token props)])%list.
Proof.
  intros Hcan Htok Hne. rewrite (effect_with_token _ _ _ Hcan Htok Hne).
  eexists. split; [reflexivity|].
  cbn [fst snd run_cleanup]. unfold_chat. unfold_monad.
  cbn [snd sockets set_sockets]. rewrite list_alter_alter_eq.
  rewrite alter_app_r_alt by lia. by rewrite Nat.sub_diag.
Qed.

Lemma join_requests_emitted_snoc st l s :
  sockets st = (l ++ [s])%list →
  join_requests_emitted st = (sum_list (join_requests <$> l) + join_requests s)%nat.
Proof.
  intros Hs. unfold join_requests_emitted. rewrite Hs, fmap_app, sum_list_with_app.
  f_equal. cbn. apply Nat.add_0_r.
Qed.

Lemma not_active_no_access props st :
  strict_eq_str (opt_get (user st) "role") "INSTRUCTOR" = false →
  userEnrollmentStatus props ≠ val (JStr "ACTIVE") →
  canAccessChat props st = false.
Proof.
  intros Hrole Hstatus. unfold canAccessChat. rewrite Hrole. cbn [orb].
  destruct (userEnrollmentStatus props) as [|[]]; try reflexivity.
  cbn [strict_eq_str]. destruct (String.eqb_spec s "ACTIVE") as [->|_]; done.
Qed.

Lemma active_or_instructor_access props st :
  userEnrollmentStatus props = val (JStr "ACTIVE") ∨
  strict_eq_str (opt_get (user st) "role") "INSTRUCTOR" = true →
  canAccessChat props st = true.
Proof.
  unfold canAccessChat. intros [-> | ->]; [apply orb_true_r|reflexivity].
Qed.

(** Whatever arrives on the socket [h] that the effect opened as the
    last of the sockets, the earlier sockets are untouched and the
    socket still counts one [joinCourse] request. *)
Lemma listen_all_after_join props evs st s :
  sockets st !! (length (sockets st) - 1)%nat = Some s →
  fst (listen_all props (length (sockets st) - 1) evs st) = Normal tt ∧
  ∃ s', sockets (snd (listen_all props (length (sockets st) - 1) evs st))
        = (take (length (sockets st) - 1) (sockets st) ++ [s'])%list ∧
        join_requests s' = join_requests s.
Proof.
  intros Hs.
  destruct (listen_all_joins props (length (sockets st) - 1) evs st s Hs)
    as (H1 & s' & H2 & H3 & H4).
  split; [exact H1|]. exists s'. split; [|exact H3].
  apply lookup_lt_Some in Hs as Hlen.
  apply list_eq. intros i.
  destruct (decide (i < length (sockets st) - 1)%nat) as [Hi|Hi].
  - rewrite lookup_app_l by (rewrite length_take; lia).
    rewrite lookup_take_lt by lia. apply H4. lia.
  - rewrite lookup_app_r by (rewrite length_take; lia). rewrite length_take.
    rewrite Nat.min_l by lia.
    destruct (decide (i = length (sockets st) - 1)%nat) as [->|Hne].
    + by rewrite Nat.sub_diag, H2.
    + rewrite H4 by lia. rewrite (lookup_ge_None_2 (sockets st)) by lia.
      destruct (i - (length (sockets st) - 1))%nat as [|k] eqn:Hk; [lia|reflexivity].
Qed.

(** C7, amended.  A user who is not an instructor and whose enrollment
    status is anything other than [ACTIVE] (such as [PENDING]) fails
    the access check: the effect opens no socket and emits no join
    request, and the view is the disabled one, for a student with the
    explanation that an active enrollment is needed.  A user whose
    status is [ACTIVE], and an instructor whatever the status, passes
    the check.  Then, when no non-empty token is stored, no socket is
    opened and no join request is emitted either; and when a non-empty
    token is stored, one socket is opened with that token and exactly
    one [joinCourse] request is emitted on it, so that the mount adds
    one to the join requests emitted, and no event received afterwards
    adds another one or touches the sockets opened before. *)
Theorem chat_access (props : Props) (st : State) :
  let st' := snd (effect props st) in
  (strict_eq_str (opt_get (user st) "role") "INSTRUCTOR" = false →
   userEnrollmentStatus props ≠ val (JStr "ACTIVE") →
     fst (effect props st) = Normal None ∧
     sockets st' = sockets st ∧ socket st' = socket st ∧
     join_requests_emitted st' = join_requests_emitted st ∧
     (∀ trim, ∃ explanation, render trim props st' = ChatUnavailable explanation) ∧
     (strict_eq_str (opt_get (user st) "role") "STUDENT" = true →
      ∀ trim, render trim props st'
              = ChatUnavailable "You need an active enrollment to access the course chat.")) ∧
  (∀ status : Types.EnrollmentStatus,
     strict_eq_str (opt_get (user st) "role") "INSTRUCTOR" = false →
     userEnrollmentStatus props = val (JStr (Types.EnrollmentStatus_name status)) →
     status ≠ Types.ACTIVE →
     fst (effect props st) = Normal None ∧
     sockets st' = sockets st ∧
     join_requests_emitted st' = join_requests_emitted st) ∧
  (userEnrollmentStatus props = val (JStr "ACTIVE") ∨
   strict_eq_str (opt_get (user st) "role") "INSTRUCTOR" = true →
   truthy_str (localStorage (world st) !! "access_token") = false →
     fst (effect props st) = Normal None ∧
     sockets st' = sockets st ∧ socket st' = socket st ∧
     join_requests_emitted st' = join_requests_emitted st) ∧
  (userEnrollmentStatus props = val (JStr "ACTIVE") ∨
   strict_eq_str (opt_get (user st) "role") "INSTRUCTOR" = true →
   ∀ token, localStorage (world st) !! "access_token" = Some token → token ≠ "" →
     fst (effect props st) = Normal (Some (Disconnect (length (sockets st)))) ∧
     sockets st' = (sockets st ++ [joined_socket token props])%list ∧
     socket st' = Some (length (sockets st)) ∧
     socket_auth_token (joined_socket token props) = token ∧
     emitted (joined_socket token props) = [("joinCourse", CourseId (courseId props))] ∧
     join_requests (joined_socket token props) = 1%nat ∧
     join_requests_emitted st' = S (join_requests_emitted st) ∧
     ∀ evs,
       let st'' := snd (listen_all props (length (sockets st)) evs st') in
       fst (listen_all props (length (sockets st)) evs st') = Normal tt ∧
       join_requests_emitted st'' = S (join_requests_emitted st) ∧
       ∃ s, sockets st'' = (sockets st ++ [s])%list ∧ join_requests s = 1%nat).
Proof.
  cbv zeta.
  assert (Hclosed : canAccessChat props st = false →
    fst (effect props st) = Normal None ∧
    sockets (snd (effect props st)) = sockets st ∧
    socket (snd (effect props st)) = socket st ∧
    join_requests_emitted (snd (effect props st)) = join_requests_emitted st ∧
    (∀ trim, ∃ explanation,
       render trim props (snd (effect props st)) = ChatUnavailable explanation) ∧
    (strict_eq_str (opt_get (user st) "role") "STUDENT" = true →
     ∀ trim, render trim props (snd (effect props st))
             = ChatUnavailable "You need an active enrollment to access the course chat.")).
  { intros Hno. rewrite (effect_no_access _ _ Hno). cbn [fst snd sockets socket].
    split; [reflexivity|]. split; [reflexivity|]. split; [reflexivity|].
    split; [reflexivity|]. split.
    - intros trim. unfold render.
      replace (canAccessChat props _) with false; cbn [negb]; eauto.
    - intros Hstudent trim. unfold render.
      replace (canAccessChat props _) with false. cbn [negb user]. by rewrite Hstudent. }
  split; [|split; [|split]].
  - intros Hrole Hstatus. apply Hclosed. by apply not_active_no_access.
  - intros status Hrole Hstatus Hne.
    destruct Hclosed as (H1 & H2 & _ & H3 & _); [|by repeat split].
    apply not_active_no_access; [exact Hrole|]. rewrite Hstatus. by destruct status.
  - intros Hcase Hno.
    rewrite (effect_no_token _ _ (active_or_instructor_access _ _ Hcase) Hno).
    repeat split.
  - intros Hcase token Htok Hne.
    rewrite (effect_with_token _ _ _ (active_or_instructor_access _ _ Hcase) Htok Hne).
    cbn [fst snd sockets socket].
    assert (Hs : alter (add_emitted "joinCourse" (CourseId (courseId props)))
                   (length (sockets st))
                   (sockets st ++ [mkSocket "http://localhost:3000" token
                                            ["websocket"; "polling"] [] false])%list
                 = (sockets st ++ [joined_socket token props])%list).
    { rewrite alter_app_r_alt by lia. by rewrite Nat.sub_diag. }
    rewrite Hs. split; [reflexivity|]. split; [reflexivity|]. split; [reflexivity|].
    split; [reflexivity|]. split; [reflexivity|]. split; [reflexivity|]. split.
    { erewrite join_requests_emitted_snoc by reflexivity.
      unfold join_requests_emitted. cbn. lia. }
    intros evs.
    match goal with |- context [listen_all props _ evs ?s] => set (opened := s) end.
    assert (Hlen : length (sockets st) = (length (sockets opened) - 1)%nat).
    { subst opened. cbn [sockets]. rewrite length_app. cbn [length]. lia. }
    assert (Hlast : sockets opened !! (length (sockets opened) - 1)%nat
                    = Some (joined_socket token props)).
    { rewrite <- Hlen. subst opened. cbn [sockets].
      rewrite lookup_app_r by lia. by rewrite Nat.sub_diag. }
    rewrite Hlen.
    destruct (listen_all_after_join props evs opened _ Hlast) as (H1 & s' & H2 & H3).
    assert (Htake : take (length (sockets opened) - 1) (sockets opened) = sockets st).
    { rewrite <- Hlen. subst opened. cbn [sockets]. by rewrite take_app_length. }
    rewrite Htake in H2.
    split; [exact H1|]. split; [|exists s'; by split].
    rewrite (join_requests_emitted_snoc _ _ _ H2), H3.
    unfold join_requests_emitted. cbn. lia.
Qed.

Lemma chat_access_witness :
  sockets (snd (effect Scenario.pending_enrollment Scenario.chat_with_token)) = [] ∧
  (∀ trim, render trim Scenario.pending_enrollment
             (snd (effect Scenario.pending_enrollment Scenario.chat_with_token))
           = ChatUnavailable "You need an active enrollment to access the course chat.") ∧
  localStorage (world Scenario.chat_with_token) !! "access_token" = Some "jwt" ∧
  sockets (snd (effect Scenario.active_enrollment Scenario.chat_with_token))
  = [joined_socket "jwt" Scenario.active_enrollment] ∧
  join_requests_emitted (snd (effect Scenario.active_enrollment Scenario.chat_with_token))
  = 1%nat ∧
  sockets (snd (effect (mkProps 42 undefined)
                  (mount (Scenario.browser (Scenario.with_token "jwt") Scenario.offline)
                         (val (Types.User_json Scenario.grace)))))
  = [joined_socket "jwt" (mkProps 42 undefined)].
Proof.
  destruct (chat_access Scenario.pending_enrollment Scenario.chat_with_token)
    as (Hpending & _).
  destruct (chat_access Scenario.active_enrollment Scenario.chat_with_token)
    as (_ & _ & _ & Hactive).
  destruct (chat_access (mkProps 42 undefined)
              (mount (Scenario.browser (Scenario.with_token "jwt") Scenario.offline)
                     (val (Types.User_json Scenario.grace))))
    as (_ & _ & _ & Hinstructor).
  assert (Hnot : userEnrollmentStatus Scenario.pending_enrollment ≠ val (JStr "ACTIVE"))
    by discriminate.
  assert (Hne : "jwt" ≠ "") by discriminate.
  destruct (Hpending eq_refl Hnot) as (_ & Hnone & _ & _ & _ & Hview).
  destruct (Hactive (or_introl eq_refl) "jwt" eq_refl Hne)
    as (_ & Hone & _ & _ & _ & _ & Hcount & _).
  destruct (Hinstructor (or_intror eq_refl) "jwt" eq_refl Hne) as (_ & Hgrace & _).
  split; [exact Hnone|]. split; [exact (Hview eq_refl)|]. split; [reflexivity|].
  split; [exact Hone|]. split; [exact Hcount|exact Hgrace].
Defined.

(** Alice, a student with an [ACTIVE] enrollment, mounts the chat in a
    browser without a stored token: no socket is opened and no join
    request is emitted. *)
Lemma active_student_joins_counterexample :
  canAccessChat Scenario.active_enrollment Scenario.chat_without_token = true ∧
  sockets (snd (effect Scenario.active_enrollment Scenario.chat_without_token)) = [] ∧
  join_requests_emitted (snd (effect Scenario.active_enrollment Scenario.chat_without_token))
  = 0%nat ∧
  ¬ active_student_joins_as_stated Scenario.active_enrollment Scenario.chat_without_token.
Proof.
  split; [reflexivity|]. split; [reflexivity|]. split; [reflexivity|].
  intros H. specialize (H eq_refl eq_refl). vm_compute in H. discriminate H.
Qed.

Lemma listen_all_socket props h evs : ∀ st,
  socket (snd (listen_all props h evs st)) = socket st ∧
  user (snd (listen_all props h evs st)) = user st.
Proof.
  induction evs as [|ev evs IH]; intros st; [by split|].
  cbn [listen_all]. unfold mbind, M_bind.
  destruct (listener_sockets props h ev st) as (Hfst & Huser & _).
  assert (Hsocket : socket (snd (listener props h ev st)) = socket st)
    by (destruct ev; reflexivity).
  destruct (listener props h ev st) as [r st1]. cbn [fst snd] in *. subst r.
  destruct (IH st1) as [-> ->]. by split.
Qed.

Section SendFacts.

Variable trim : string → string.

(** C8, amended.  For any [trim]: a send attempt completes normally and
    never changes the displayed messages (no local echo).  When the
    trimmed input is non-empty, a socket is held and the user is
    present, the record [{courseId, userId, username, text}] with the
    trimmed text is emitted as [sendCourseMessage] on that socket, as
    the last of its emissions, and the input is cleared at once;
    nothing else changes.  When the trimmed input is empty, or no
    socket is held, or there is no user, nothing is emitted and the
    state is unchanged.  The socket is held from the moment the
    connection effect made it, and no event from the server changes
    that: the handler does not wait for the join to be acknowledged,
    and sends after a rejected join as well. *)
Theorem send_message (props : Props) (st : State) :
  let st' := snd (handleSendMessage trim props st) in
  fst (handleSendMessage trim props st) = Normal tt ∧
  messages st' = messages st ∧
  (∀ sock, trim (newMessage st) ≠ "" → socket st = Some sock →
           truthy (user st) = true →
     sockets st'
     = alter (add_emitted "sendCourseMessage"
                (Payload (mkPayload (courseId props)
                                    (opt_get (user st) "id")
                                    (opt_get (user st) "username")
                                    (trim (newMessage st)))))
             sock (sockets st) ∧
     (∀ s, sockets st !! sock = Some s →
        ∃ s', sockets st' !! sock = Some s' ∧
              emitted s'
              = (emitted s
                 ++ [("sendCourseMessage",
                      Payload (mkPayload (courseId props)
                                         (opt_get (user st) "id")
                                         (opt_get (user st) "username")
                                         (trim (newMessage st))))])%list ∧
              sent_messages s'
              = (sent_messages s
                 ++ [mkPayload (courseId props) (opt_get (user st) "id")
                               (opt_get (user st) "username")
                               (trim (newMessage st))])%list) ∧
     (∀ i, i ≠ sock → sockets st' !! i = sockets st !! i) ∧
     newMessage st' = "" ∧
     world st' = world st ∧ socket st' = socket st ∧ loading st' = loading st) ∧
  (trim (newMessage st) = "" ∨ socket st = None ∨ truthy (user st) = false →
     st' = st) ∧
  (∀ h, fst (effect props st) = Normal (Some (Disconnect h)) →
        socket (snd (effect props st)) = Some h) ∧
  (∀ h evs, socket (snd (listen_all props h evs st)) = socket st ∧
            user (snd (listen_all props h evs st)) = user st).
Proof.
  cbv zeta. split; [|split; [|split; [|split; [|split]]]].
  6: { intros h evs. apply listen_all_socket. }
  5: { intros h. unfold effect. unfold_chat. unfold_monad.
       destruct (canAccessChat props st); cbn [negb]; [|discriminate].
       destruct (localStorage (world st) !! "access_token") as [t|]; [|discriminate].
       destruct (truthy_str (Some t)); [|discriminate].
       cbn [fst snd socket]. by intros [= <-]. }
  all: unfold handleSendMessage; unfold_chat; unfold_monad;
    cbn [truthy]; destruct (String.eqb_spec (trim (newMessage st)) "") as [He|Hne];
    cbn [negb orb]; try (repeat split; done).
  all: destruct (socket st) as [sock|] eqn:Hsock; cbn [is_null orb];
    try (repeat split; done).
  all: destruct (truthy (user st)) eqn:Huser; cbn [negb]; try (repeat split; done).
  - intros sock' _ Heq _. injection Heq as <-.
    cbn [fst snd sockets set_sockets newMessage world socket loading].
    split; [reflexivity|]. split; [|split; [|repeat split; done]].
    + intros s Hs. eexists. split; [by rewrite list_lookup_alter_eq, Hs|].
      unfold sent_messages, add_emitted. cbn [emitted]. split; [reflexivity|].
      rewrite omap_app. reflexivity.
    + intros i Hi. by apply list_lookup_alter_ne.
  - intros [?|[?|?]]; done.
Qed.

End SendFacts.

Lemma send_message_witness :
  ascii_trim (newMessage (Scenario.chat_typing "  hello there ")) = "hello there" ∧
  socket (Scenario.chat_typing "  hello there ") = Some 0%nat ∧
  truthy (user (Scenario.chat_typing "  hello there ")) = true ∧
  sockets (snd (handleSendMessage ascii_trim Scenario.active_enrollment
                  (Scenario.chat_typing "  hello there ")))
  = [mkSocket "http://localhost:3000" "jwt" ["websocket"; "polling"]
       [("joinCourse", CourseId 42);
        ("sendCourseMessage",
         Payload (mkPayload 42 (val (JNum 7)) (val (JStr "alice")) "hello there"))]
       false] ∧
  newMessage (snd (handleSendMessage ascii_trim Scenario.active_enrollment
                     (Scenario.chat_typing "  hello there "))) = "" ∧
  snd (handleSendMessage ascii_trim Scenario.active_enrollment (Scenario.chat_typing "   "))
  = Scenario.chat_typing "   ".
Proof.
  destruct (send_message ascii_trim Scenario.active_enrollment
              (Scenario.chat_typing "  hello there ")) as (_ & _ & Hsend & _).
  destruct (send_message ascii_trim Scenario.active_enrollment
              (Scenario.chat_typing "   ")) as (_ & _ & _ & Hskip & _).
  destruct (Hsend 0%nat ltac:(discriminate) eq_refl eq_refl) as (Hemit & _ & _ & Hclear & _).
  split; [reflexivity|]. split; [reflexivity|]. split; [reflexivity|].
  split; [exact Hemit|]. split; [exact Hclear|].
  apply Hskip. left. reflexivity.
Defined.

(** Alice mounts the chat with a token stored; the server rejects the
    join; she types [hi] and submits.  The form is shown with the send
    button enabled and the message is emitted on the socket, although
    the channel never reached the joined state. *)
Lemma send_after_rejected_join_counterexample :
  fst (effect Scenario.active_enrollment Scenario.chat_with_token)
  = Normal (Some (Disconnect 0)) ∧
  connectionState [joinCourseError JNull] = JoinFailed ∧
  render ascii_trim Scenario.active_enrollment
    (snd (setNewMessage "hi"
            (snd (listen_all Scenario.active_enrollment 0 [joinCourseError JNull]
                    (snd (effect Scenario.active_enrollment Scenario.chat_with_token))))))
  = Chat [] "hi" false ∧
  sent_messages <$>
    sockets (submitted ascii_trim Scenario.active_enrollment 0 [joinCourseError JNull] "hi"
               (snd (effect Scenario.active_enrollment Scenario.chat_with_token)))
  = [[mkPayload 42 (val (JNum 7)) (val (JStr "alice")) "hi"]] ∧
  ¬ send_needs_join_as_stated ascii_trim Scenario.active_enrollment
      Scenario.chat_with_token [joinCourseError JNull] "hi".
Proof.
  split; [reflexivity|]. split; [reflexivity|]. split; [reflexivity|].
  split; [reflexivity|].
  intros H.
  assert (Hsocket :
    sockets (submitted ascii_trim Scenario.active_enrollment 0 [joinCourseError JNull] "hi"
               (snd (effect Scenario.active_enrollment Scenario.chat_with_token)))
      !! 0%nat
    = Some (mkSocket "http://localhost:3000" "jwt" ["websocket"; "polling"]
              [("joinCourse", CourseId 42);
               ("sendCourseMessage",
                Payload (mkPayload 42 (val (JNum 7)) (val (JStr "alice")) "hi"))]
              false)) by reflexivity.
  assert (Hsent :
    sent_messages
      (mkSocket "http://localhost:3000" "jwt" ["websocket"; "polling"]
         [("joinCourse", CourseId 42);
          ("sendCourseMessage",
           Payload (mkPayload 42 (val (JNum 7)) (val (JStr "alice")) "hi"))]
         false) ≠ []) by (vm_compute; discriminate).
  pose proof (H 0%nat _ eq_refl Hsocket Hsent) as Hjoined.
  vm_compute in Hjoined. discriminate Hjoined.
Qed.

End CourseChatFacts.

Module GatewayFacts.
Import ApiClient Spec SpecMore ApiClientFacts.

Lemma getAuthHeaders_eq w :
  getAuthHeaders w = (Normal (req_headers (sent "" no_options w)), w).
Proof. reflexivity. Qed.

(** X1.  [request] sends exactly one request: to the base URL followed
    by the endpoint, with the method and body of the caller, with
    credentials included and with the headers of [getAuthHeaders] (the
    bearer token exactly when a non-empty one is stored).  Whatever the
    answer, it writes nothing else: storage, channels, toasts and
    console are as before. *)
Theorem request_sends_one (endpoint : string) (options : RequestInit) (w : World) :
  let w' := snd (request endpoint options w) in
  ∃ config,
    requests w' = (requests w ++ [config])%list ∧
    req_url config = API_BASE_URL +:+ endpoint ∧
    req_method config = method options ∧
    req_body config = body options ∧
    req_credentials config = "include" ∧
    fst (getAuthHeaders w) = Normal (req_headers config) ∧
    req_headers config
    = (("Content-Type", "application/json") ::
       match localStorage w !! "access_token" with
       | Some "" | None => []
       | Some token => [("Authorization", "Bearer " +:+ token)]
       end) ∧
    only_requests_differ w w'.
Proof.
  cbv zeta. rewrite request_eq. cbn [snd]. exists (sent endpoint options w).
  repeat split.
  cbn [sent req_headers]. f_equal.
  destruct (localStorage w !! "access_token") as [t|]; [|reflexivity].
  cbn [truthy_str]. destruct t as [|a t]; reflexivity.
Qed.

(** X2.  [request] returns exactly when the server answered with a
    status from 200 to 299 and a body that parses, and then it returns
    that body.  An answer with any other status is always turned into a
    thrown error.  That error is an [Error] made by the gateway, with
    the string form of a truthy [message] of the body or else with the
    status fallback (also when the body does not parse), in all cases
    but two, which give a [TypeError]: a body that is JSON [null], and
    a [message] that has no string form. *)
Theorem request_returns_iff (endpoint : string) (options : RequestInit) (w : World) :
  (∀ j, fst (request endpoint options w) = Normal j ↔
        ∃ r, answer endpoint options w = Resolved r ∧
             200 ≤ status r ≤ 299 ∧ json r = Normal j) ∧
  (∀ r, answer endpoint options w = Resolved r → ¬ (200 ≤ status r ≤ 299) →
        ∃ e, fst (request endpoint options w) = Throw e ∧
             (err_name e = "Error" ∨ err_name e = "TypeError") ∧
             (json r = Normal JNull → e = cannot_read "null" "message") ∧
             (∀ e', json r = Throw e' →
                e = Error ("HTTP error! status: " +:+ pretty (status r))) ∧
             (∀ body, json r = Normal body → body ≠ JNull →
                if truthy (opt_get (val body) "message")
                then match String_of (opt_get (val body) "message") with
                     | Normal text => e = Error text
                     | Throw _ => e = cannot_convert
                     end
                else e = Error ("HTTP error! status: " +:+ pretty (status r))) ∧
             (∀ props m, json r = Normal (JObj props) →
                own_property "message" props = val (JStr m) → m ≠ "" →
                e = Error m) ∧
             (∀ props members hidden, json r = Normal (JObj props) →
                own_property "message" props = val (JObj members) →
                own_property "toString" members = val hidden →
                e = TypeError "Cannot convert object to primitive value")).
Proof.
  rewrite request_eq. cbn [fst]. unfold request_outcome. split.
  - intros j. split.
    + destruct (answer endpoint options w) as [e|r]; [discriminate|].
      destruct (ok r) eqn:Hok.
      * intros Hj. exists r. split; [reflexivity|]. split; [|exact Hj].
        unfold ok in Hok. lia.
      * destruct (get _ _) as [message|]; [|discriminate].
        destruct (truthy message); [destruct (String_of message)|]; discriminate.
    + intros (r & -> & Hst & Hj).
      replace (ok r) with true by (unfold ok; lia). exact Hj.
  - intros r -> Hst.
    replace (ok r) with false by (unfold ok; lia).
    assert (Hmain : ∃ e,
      match get (val match json r with
                      | Normal j => j
                      | Throw _ => JObj []
                      end) "message" with
      | Normal message =>
          if truthy message
          then match String_of message with
               | Normal text => Throw (Error text)
               | Throw e => Throw e
               end
          else Throw (Error ("HTTP error! status: " +:+ pretty (status r)))
      | Throw e => Throw e
      end = @Throw JSON e ∧
      (err_name e = "Error" ∨ err_name e = "TypeError") ∧
      (json r = Normal JNull → e = cannot_read "null" "message") ∧
      (∀ e', json r = Throw e' → e = Error ("HTTP error! status: " +:+ pretty (status r))) ∧
      (∀ body, json r = Normal body → body ≠ JNull →
         if truthy (opt_get (val body) "message")
         then match String_of (opt_get (val body) "message") with
              | Normal text => e = Error text
              | Throw _ => e = cannot_convert
              end
         else e = Error ("HTTP error! status: " +:+ pretty (status r)))).
    { destruct (json r) as [body|e'] eqn:Hjson.
      2:{ cbn [get own_property truthy]. eexists. split; [reflexivity|].
          split; [by left|]. split; [discriminate|]. split; [reflexivity|discriminate]. }
      assert (Hnull : body = JNull ∨ body ≠ JNull)
        by (destruct body; [by left|by right..]).
      destruct Hnull as [->|Hbody].
      { cbn [get]. eexists. split; [reflexivity|]. split; [by right|].
        split; [reflexivity|]. split; [discriminate|]. intros body [= <-]. done. }
      assert (Hget : get (val body) "message" = Normal (opt_get (val body) "message"))
        by (by destruct body).
      rewrite Hget.
      destruct (truthy (opt_get (val body) "message")) eqn:Htruthy.
      + destruct (String_of (opt_get (val body) "message")) as [text|e'] eqn:Htext.
        * eexists. split; [reflexivity|]. split; [by left|]. split; [congruence|].
          split; [discriminate|]. intros body' [= <-] _. by rewrite Htruthy, Htext.
        * apply String_of_throws in Htext as Hconv. subst e'.
          eexists. split; [reflexivity|]. split; [by right|]. split; [congruence|].
          split; [discriminate|]. intros body' [= <-] _. by rewrite Htruthy, Htext.
      + eexists. split; [reflexivity|]. split; [by left|]. split; [congruence|].
        split; [discriminate|]. intros body' [= <-] _. by rewrite Htruthy. }
    destruct Hmain as (e & He & Hname & Hnull & Hthrow & Hbody).
    exists e. split; [exact He|]. split; [exact Hname|]. split; [exact Hnull|].
    split; [exact Hthrow|]. split; [exact Hbody|]. split.
    + intros props m Hj Hm Hne.
      assert (Hobject : JObj props ≠ JNull) by discriminate.
      specialize (Hbody _ Hj Hobject). cbn [opt_get] in Hbody. rewrite Hm in Hbody.
      cbn [truthy String_of ToString] in Hbody.
      destruct (String.eqb_spec m "") as [Heq|_]; [by destruct Hne|exact Hbody].
    + intros props members hidden Hj Hm Hhidden.
      assert (Hobject : JObj props ≠ JNull) by discriminate.
      specialize (Hbody _ Hj Hobject). cbn [opt_get] in Hbody. rewrite Hm in Hbody.
      cbn [truthy String_of ToString] in Hbody. by rewrite Hhidden in Hbody.
Qed.

Lemma request_returns_iff_witness :
  fst (request "/auth/me" no_options
         (Scenario.browser ∅ (Scenario.always 401 Scenario.invalid_credentials)))
  = Throw (Error "Invalid credentials") ∧
  fst (request "/auth/me" no_options
         (Scenario.browser ∅ (Scenario.always 500 Scenario.unprintable_message)))
  = Throw (TypeError "Cannot convert object to primitive value") ∧
  fst (request "/auth/me" no_options
         (Scenario.browser ∅ (Scenario.always 200 (Normal (JObj [])))))
  = Normal (JObj []).
Proof.
  split; [|split].
  - destruct (request_returns_iff "/auth/me" no_options
                (Scenario.browser ∅ (Scenario.always 401 Scenario.invalid_credentials)))
      as [_ Hfail].
    assert (Hstatus : ¬ (200 ≤ status (mkResponse 401 Scenario.invalid_credentials) ≤ 299))
      by (cbn [status]; lia).
    destruct (Hfail (mkResponse 401 Scenario.invalid_credentials) eq_refl Hstatus)
      as (e & He & _ & _ & _ & _ & Hmessage & _).
    assert (Hne : "Invalid credentials" ≠ "") by discriminate.
    rewrite He. f_equal. exact (Hmessage _ "Invalid credentials" eq_refl eq_refl Hne).
  - destruct (request_returns_iff "/auth/me" no_options
                (Scenario.browser ∅ (Scenario.always 500 Scenario.unprintable_message)))
      as [_ Hfail].
    assert (Hstatus : ¬ (200 ≤ status (mkResponse 500 Scenario.unprintable_message) ≤ 299))
      by (cbn [status]; lia).
    destruct (Hfail (mkResponse 500 Scenario.unprintable_message) eq_refl Hstatus)
      as (e & He & _ & _ & _ & _ & _ & Hhidden).
    rewrite He. f_equal. exact (Hhidden _ _ (JNum 1) eq_refl eq_refl eq_refl).
  - destruct (request_returns_iff "/auth/me" no_options
                (Scenario.browser ∅ (Scenario.always 200 (Normal (JObj [])))))
      as [Hok _].
    apply Hok. exists (mkResponse 200 (Normal (JObj []))).
    split; [reflexivity|]. split; [cbn [status]; lia|reflexivity].
Defined.

Lemma request_sends_one_only endpoint options : one_request_only (request endpoint options).
Proof.
  intros w. rewrite request_eq. cbn [snd]. split; [repeat split|].
  by exists (sent endpoint options w).
Qed.

Lemma request_last_url endpoint options w :
  last_url (snd (request endpoint options w)) = Some (API_BASE_URL +:+ endpoint).
Proof.
  rewrite request_eq. cbn [snd]. unfold last_url, set_requests. cbn [requests].
  by rewrite last_snoc.
Qed.

End GatewayFacts.

Module MethodFacts.
Import ApiClient ApiClientMethods Spec SpecMore ApiClientFacts GatewayFacts.

Lemma login_token_round_trip_stored (username password : string) (w : World)
    (response : JSON) (token : string) :
  fst (login username password w) = Normal response →
  opt_get (val response) "accessToken" = val (JStr token) →
  token ≠ "" →
  localStorage (snd (login username password w)) !! "access_token" = Some token.
Proof.
  intros Hlogin Htoken Hne.
  destruct (LoginFacts.login_stores _ _ _ _ Hlogin) as [_ Hst].
  rewrite Htoken in Hst. cbn [truthy String_of ToString] in Hst.
  destruct (String.eqb_spec token "") as [Heq|_]; [by destruct Hne|]. cbn [negb] in Hst.
  destruct Hst as (token' & [= <-] & ->). apply lookup_insert_eq.
Qed.

(** X3.  After a [login] that returns a response with a non-empty
    string [accessToken], [getAuthHeaders] yields the bearer header made
    of exactly that token, so every later request carries it. *)
Theorem login_token_round_trip (username password : string) (w : World)
    (response : JSON) (token : string) :
  fst (login username password w) = Normal response →
  opt_get (val response) "accessToken" = val (JStr token) →
  token ≠ "" →
  fst (getAuthHeaders (snd (login username password w)))
  = Normal [("Content-Type", "application/json"); ("Authorization", "Bearer " +:+ token)] ∧
  ∀ endpoint options,
    ∃ config,
      last (requests (snd (request endpoint options (snd (login username password w)))))
      = Some config ∧
      req_headers config
      = [("Content-Type", "application/json"); ("Authorization", "Bearer " +:+ token)].
Proof.
  intros Hlogin Htoken Hne.
  pose proof (login_token_round_trip_stored _ _ _ _ _ Hlogin Htoken Hne) as Hstored.
  assert (Hheaders : ∀ endpoint options,
            req_headers (sent endpoint options (snd (login username password w)))
            = [("Content-Type", "application/json");
               ("Authorization", "Bearer " +:+ token)]).
  { intros. cbn [sent req_headers]. rewrite Hstored. cbn [truthy_str].
    by destruct (String.eqb_spec token "") as [->|_]. }
  split.
  - rewrite getAuthHeaders_eq. cbn [fst]. by rewrite Hheaders.
  - intros endpoint options.
    exists (sent endpoint options (snd (login username password w))).
    split; [|apply Hheaders].
    rewrite request_eq. cbn [snd set_requests requests]. apply last_snoc.
Qed.

Lemma login_token_round_trip_witness :
  fst (getAuthHeaders
         (snd (login "alice" "secret"
                 (Scenario.browser ∅
                    (Scenario.always 201 (Scenario.login_response "jwt" Scenario.alice))))))
  = Normal [("Content-Type", "application/json"); ("Authorization", "Bearer jwt")].
Proof.
  assert (Hlogin :
    fst (login "alice" "secret"
           (Scenario.browser ∅
              (Scenario.always 201 (Scenario.login_response "jwt" Scenario.alice))))
    = Normal (JObj [("user", Types.User_json Scenario.alice); ("accessToken", JStr "jwt")]))
    by reflexivity.
  assert (Hne : "jwt" ≠ "") by discriminate.
  exact (proj1 (login_token_round_trip "alice" "secret" _ _ "jwt" Hlogin eq_refl Hne)).
Defined.

Lemma deleteMyAccount_eq w :
  deleteMyAccount w
  = (match request_outcome (answer "users/delete" (mkInit (Some "DELETE") None) w) with
     | Normal _ => Normal tt
     | Throw e => Throw e
     end,
     set_localStorage (delete "access_token")
       (set_requests
          (fun rs => (rs ++ [sent "users/delete" (mkInit (Some "DELETE") None) w])%list) w)).
Proof.
  unfold deleteMyAccount, removeTokenFromStorage. unfold_monad. rewrite request_eq.
  destruct (request_outcome _); reflexivity.
Qed.

(** X4.  [logout] and [deleteMyAccount] of the gateway delete the token
    on both exits and still let the caller see the failure: each
    completes normally exactly when its request does, and rethrows the
    error of the request otherwise.  After either, [getAuthHeaders] has
    no [Authorization] header. *)
Theorem gateway_cleanup_rethrows (w : World) :
  (localStorage (snd (logout w)) = delete "access_token" (localStorage w) ∧
   (∀ e, fst (logout w) = Throw e ↔
         fst (request "/auth/logout" (mkInit (Some "POST") None) w) = Throw e) ∧
   fst (getAuthHeaders (snd (logout w))) = Normal [("Content-Type", "application/json")]) ∧
  (localStorage (snd (deleteMyAccount w)) = delete "access_token" (localStorage w) ∧
   (∀ e, fst (deleteMyAccount w) = Throw e ↔
         fst (request "users/delete" (mkInit (Some "DELETE") None) w) = Throw e) ∧
   fst (getAuthHeaders (snd (deleteMyAccount w)))
   = Normal [("Content-Type", "application/json")]).
Proof.
  rewrite logout_eq, deleteMyAccount_eq, !request_eq. cbn [fst snd].
  split; (split; [reflexivity|]); split.
  1,3: intros e; destruct (request_outcome _); split; congruence.
  all: rewrite getAuthHeaders_eq; cbn [fst sent req_headers set_localStorage localStorage];
    by rewrite lookup_delete_eq.
Qed.

Lemma gateway_cleanup_rethrows_witness :
  fst (logout (Scenario.browser (Scenario.with_token "jwt") Scenario.offline))
  = Throw (TypeError "Failed to fetch") ∧
  localStorage (snd (deleteMyAccount
                       (Scenario.browser (Scenario.with_token "jwt") Scenario.offline)))
    !! "access_token" = None.
Proof.
  destruct (gateway_cleanup_rethrows
              (Scenario.browser (Scenario.with_token "jwt") Scenario.offline))
    as [(_ & Hthrow & _) (Hdeleted & _)].
  split.
  - apply Hthrow. reflexivity.
  - rewrite Hdeleted. reflexivity.
Defined.

(** X5.  Every data operation of the gateway is one request and nothing
    more: none of them reads or writes the token storage beyond
    attaching the header, opens a channel, shows a toast or logs. *)
Theorem data_operations_send_one_request :
  (∀ userData, one_request_only (register userData)) ∧
  one_request_only getMe ∧
  (∀ page limit, one_request_only (getCourses page limit)) ∧
  (∀ courseData, one_request_only (createCourse courseData)) ∧
  (∀ id courseData, one_request_only (updateCourse id courseData)) ∧
  (∀ id, one_request_only (deleteCourse id)) ∧
  (∀ courseId page limit, one_request_only (getCourseStudents courseId page limit)) ∧
  (∀ courseId page limit, one_request_only (getCourseMaterials courseId page limit)) ∧
  (∀ courseId materialId, one_request_only (deleteMaterial courseId materialId)) ∧
  (∀ courseId studentId, one_request_only (inviteStudent courseId studentId)) ∧
  (∀ courseId studentId, one_request_only (kickStudent courseId studentId)) ∧
  (∀ courseId, one_request_only (completeCourse courseId)) ∧
  (∀ courseId, one_request_only (dropFromCourse courseId)) ∧
  (∀ courseId, one_request_only (acceptEnrollment courseId)) ∧
  (∀ courseId, one_request_only (rejectEnrollment courseId)) ∧
  (∀ page limit role, one_request_only (getUsers page limit role)) ∧
  (∀ userData, one_request_only (createInstructor userData)) ∧
  (∀ userData, one_request_only (updateProfile userData)) ∧
  (∀ userId, one_request_only (deleteUser userId)).
Proof. repeat split; intros; apply request_sends_one_only. Qed.

(** X6.  Four operations name their endpoint without a leading slash, so
    the URL they request is the origin immediately followed by the
    path: nothing separates [http://localhost:3000] from it. *)
Theorem endpoints_without_separator (w : World) :
  (∀ courseId studentId,
     ∃ url, last_url (snd (inviteStudent courseId studentId w)) = Some url ∧
            url = "http://localhost:3000instructor/courses/" +:+ pretty courseId
                    +:+ "/students/" +:+ pretty studentId +:+ "/invite" ∧
            starts_with "http://localhost:3000/" url = false) ∧
  (∀ courseId studentId,
     ∃ url, last_url (snd (kickStudent courseId studentId w)) = Some url ∧
            url = "http://localhost:3000instructor/courses/" +:+ pretty courseId
                    +:+ "/students/" +:+ pretty studentId +:+ "/kick" ∧
            starts_with "http://localhost:3000/" url = false) ∧
  (∀ userData,
     last_url (snd (updateProfile userData w)) = Some "http://localhost:3000users/profile") ∧
  last_url (snd (deleteMyAccount w)) = Some "http://localhost:3000users/delete".
Proof.
  split; [|split; [|split]].
  - intros. eexists. split; [apply request_last_url|]. split; reflexivity.
  - intros. eexists. split; [apply request_last_url|]. split; reflexivity.
  - intros. apply request_last_url.
  - rewrite deleteMyAccount_eq. cbn [snd]. unfold last_url, set_localStorage, set_requests.
    cbn [requests]. by rewrite last_snoc.
Qed.

Section DownloadFacts.

Context {Blob : Type}.
Variable blob : Response → Completion Blob.

(** X7.  [downloadCourseMaterial] sends one GET-by-default request for
    the material, without a body and without a [Content-Type] header;
    a rejected request is rethrown, a success status gives the outcome
    of [response.blob()], and any other status throws
    [HTTP error! status: <code>] whatever the body says: the server
    message is never read. *)
Theorem download_reports_status_only (courseId materialId : Z) (w : World) :
  let result := downloadCourseMaterial blob courseId materialId w in
  ∃ config,
    requests (snd result) = (requests w ++ [config])%list ∧
    req_url config
    = "http://localhost:3000/courses/" +:+ pretty courseId +:+ "/materials/"
        +:+ pretty materialId +:+ "/download" ∧
    req_method config = None ∧ req_body config = None ∧
    (∀ value, ("Content-Type", value) ∉ req_headers config) ∧
    only_requests_differ w (snd result) ∧
    match network w (requests w) config with
    | Rejected e => fst result = Throw e
    | Resolved r =>
        if ok r then fst result = blob r
        else fst result = Throw (Error (http_error (status r)))
    end.
Proof.
  cbv zeta. unfold downloadCourseMaterial, getTokenFromStorage, fetch. unfold_monad.
  eexists. split.
  { destruct (network w (requests w) _); [reflexivity|].
    destruct (ok _); reflexivity. }
  split; [reflexivity|]. split; [reflexivity|]. split; [reflexivity|].
  split.
  { intros value. cbn [req_headers].
    destruct (localStorage w !! "access_token") as [t|]; [|apply not_elem_of_nil].
    destruct (truthy_str _); [|apply not_elem_of_nil].
    rewrite list_elem_of_singleton. intros [=]. }
  split.
  { destruct (network w (requests w) _); [repeat split|].
    destruct (ok _); repeat split. }
  destruct (network w (requests w) _) as [e|r]; [reflexivity|].
  destruct (ok r); reflexivity.
Qed.

End DownloadFacts.

Lemma download_reports_status_only_witness :
  fst (downloadCourseMaterial (fun _ => Normal "bytes") 42 3
         (Scenario.browser (Scenario.with_token "jwt")
            (Scenario.always 404 Scenario.invalid_credentials)))
  = Throw (Error "HTTP error! status: 404").
Proof.
  destruct (download_reports_status_only (fun _ => Normal "bytes") 42 3
              (Scenario.browser (Scenario.with_token "jwt")
                 (Scenario.always 404 Scenario.invalid_credentials)))
    as (config & _ & _ & _ & _ & _ & _ & Houtcome).
  exact Houtcome.
Defined.

End MethodFacts.

Module StreamUrlFacts.
Import ApiClient Spec SpecMore.

Lemma percent_not_unreserved : is_unreserved "%" = false.
Proof. reflexivity. Qed.

Lemma hex_digits_read_back a :
  hex_value (hex_digit (N_of_ascii a / 16)) = Some (N_of_ascii a / 16)%N ∧
  hex_value (hex_digit (N_of_ascii a mod 16)) = Some (N_of_ascii a mod 16)%N ∧
  ascii_of_N (16 * (N_of_ascii a / 16) + N_of_ascii a mod 16) = a.
Proof. destruct a as [[] [] [] [] [] [] [] []]; vm_compute; repeat split. Qed.

Lemma percent_decode_escape a rest :
  percent_decode (percent_encode a +:+ rest)
  = match percent_decode rest with
    | Some decoded => Some (String a decoded)
    | None => None
    end.
Proof.
  destruct (hex_digits_read_back a) as (Hh & Hl & Ha).
  change (percent_decode (percent_encode a +:+ rest))
    with (match hex_value (hex_digit (N_of_ascii a / 16)),
                hex_value (hex_digit (N_of_ascii a mod 16)),
                percent_decode rest with
          | Some x, Some y, Some decoded => Some (String (ascii_of_N (16 * x + y)) decoded)
          | _, _, _ => None
          end).
  rewrite Hh, Hl, Ha. reflexivity.
Qed.

Lemma percent_decode_encode s : percent_decode (encodeURIComponent s) = Some s.
Proof.
  induction s as [|a s IH]; [reflexivity|].
  cbn [encodeURIComponent]. destruct (is_unreserved a) eqn:Ha.
  - change (String a "" +:+ encodeURIComponent s) with (String a (encodeURIComponent s)).
    cbn [percent_decode].
    destruct (Ascii.eqb_spec a "%") as [->|_]; [by rewrite percent_not_unreserved in Ha|].
    by rewrite IH.
  - by rewrite percent_decode_escape, IH.
Qed.

(** X8.  With a non-empty token stored, the URL of the stream that
    [createEventStream] opens is the fixed prefix followed by a query
    value made only of unreserved characters and [%XX] escapes, so no
    character of the token can end the parameter or start another one,
    and decoding the escapes gives the stored token back. *)
Theorem stream_url_carries_token (w : World) (token : string) :
  localStorage w !! "access_token" = Some token → token ≠ "" →
  ∃ query,
    eventSources (snd (createEventStream w))
    = (eventSources w
       ++ [mkEventSource ("http://localhost:3000/event/stream?token=" +:+ query)
                         true false])%list ∧
    all_chars url_safe query = true ∧
    percent_decode query = Some token.
Proof.
  intros Htok Hne. exists (encodeURIComponent token).
  destruct (EventStreamFacts.createEventStream_eq w) as (_ & _ & Hopen).
  rewrite (Hopen token Htok Hne). cbn [snd set_eventSources eventSources].
  split; [reflexivity|]. split.
  - apply EncodingFacts.encodeURIComponent_safe.
  - apply percent_decode_encode.
Qed.

Lemma stream_url_carries_token_witness :
  localStorage (Scenario.browser (Scenario.with_token "a&b=c #1") Scenario.offline)
    !! "access_token" = Some "a&b=c #1" ∧
  ∃ query,
    eventSources
      (snd (createEventStream
              (Scenario.browser (Scenario.with_token "a&b=c #1") Scenario.offline)))
    = [mkEventSource ("http://localhost:3000/event/stream?token=" +:+ query) true false] ∧
    all_chars url_safe query = true ∧
    percent_decode query = Some "a&b=c #1".
Proof.
  split; [reflexivity|].
  exact (stream_url_carries_token
           (Scenario.browser (Scenario.with_token "a&b=c #1") Scenario.offline)
           "a&b=c #1" eq_refl ltac:(discriminate)).
Defined.

End StreamUrlFacts.

Module SessionFacts.
Import AuthContext Spec SpecMore ApiClientFacts AuthContextFacts LoginFacts.

Lemma checkAuthStatus_silent a :
  toasts (world (snd (checkAuthStatus a))) = toasts (world a).
Proof.
  rewrite checkAuthStatus_eq. cbv zeta.
  destruct (truthy_str _); [destruct (request_outcome _)|]; reflexivity.
Qed.

Lemma restore_with_token (a : AuthProvider) (token : string) :
  localStorage (world a) !! "access_token" = Some token → token ≠ "" →
  let a' := snd (checkAuthStatus a) in
  (∃ config,
     requests (world a') = (requests (world a) ++ [config])%list ∧
     req_url config = "http://localhost:3000/auth/me" ∧
     req_method config = None ∧ req_body config = None ∧
     req_headers config
     = [("Content-Type", "application/json"); ("Authorization", "Bearer " +:+ token)]) ∧
  (∀ userData, fst (ApiClient.getMe (world a)) = Normal userData →
     user a' = val userData ∧ loading a' = false ∧
     localStorage (world a') = localStorage (world a)) ∧
  toasts (world a') = toasts (world a).
Proof.
  intros Htok Hne. cbv zeta. split; [|split].
  - exists (sent "/auth/me" ApiClient.no_options (world a)). split.
    + rewrite checkAuthStatus_eq. cbv zeta. rewrite Htok. cbn [truthy_str].
      destruct (String.eqb_spec token "") as [->|_]; [done|]. cbn [negb].
      destruct (request_outcome _); reflexivity.
    + repeat split. cbn [sent req_headers]. rewrite Htok. cbn [truthy_str].
      by destruct (String.eqb_spec token "") as [->|_].
  - intros userData Hme. exact (checkAuthStatus_populates a token userData Htok Hne Hme).
  - apply checkAuthStatus_silent.
Qed.

(** X9.  Restoration with a non-empty stored token sends one who-am-i
    request, [GET /auth/me] with that token as bearer; when the call
    returns, the session holds the returned user, initialization is
    complete and the token is kept.  Whatever the outcome, restoration
    shows no toast. *)
Theorem checkAuthStatus_restores_session (a : AuthProvider) (token : string) :
  localStorage (world a) !! "access_token" = Some token → token ≠ "" →
  let a' := snd (checkAuthStatus a) in
  (∃ config,
     requests (world a') = (requests (world a) ++ [config])%list ∧
     req_url config = "http://localhost:3000/auth/me" ∧
     req_method config = None ∧ req_body config = None ∧
     req_headers config
     = [("Content-Type", "application/json"); ("Authorization", "Bearer " +:+ token)]) ∧
  (∀ userData, fst (ApiClient.getMe (world a)) = Normal userData →
     user a' = val userData ∧ loading a' = false ∧
     localStorage (world a') = localStorage (world a)) ∧
  toasts (world a') = toasts (world a).
Proof. exact (restore_with_token a token). Qed.


Lemma checkAuthStatus_restores_session_witness :
  localStorage (world (mount (Scenario.browser (Scenario.with_token "jwt")
                               (Scenario.always 200 (Normal (Types.User_json Scenario.alice))))))
    !! "access_token" = Some "jwt" ∧
  user (snd (checkAuthStatus
               (mount (Scenario.browser (Scenario.with_token "jwt")
                         (Scenario.always 200 (Normal (Types.User_json Scenario.alice)))))))
  = val (Types.User_json Scenario.alice) ∧
  loading (snd (checkAuthStatus
                  (mount (Scenario.browser (Scenario.with_token "jwt")
                            (Scenario.always 200 (Normal (Types.User_json Scenario.alice)))))))
  = false.
Proof.
  split; [reflexivity|].
  destruct (checkAuthStatus_restores_session
              (mount (Scenario.browser (Scenario.with_token "jwt")
                        (Scenario.always 200 (Normal (Types.User_json Scenario.alice)))))
              "jwt" eq_refl ltac:(discriminate)) as (_ & Hreturns & _).
  destruct (Hreturns (Types.User_json Scenario.alice) eq_refl) as (Huser & Hloading & _).
  split; [exact Huser|exact Hloading].
Defined.

(** X10.  A page reload after a login that stored a non-empty token
    asks who-am-i with that token, and takes the user it returns; a
    page reload after a logout sends nothing and starts signed out. *)
Theorem reload_follows_storage (a : AuthProvider) (username password : string) :
  (∀ response token,
     fst (ApiClient.login username password (world a)) = Normal response →
     opt_get (val response) "accessToken" = val (JStr token) → token ≠ "" →
     let reloaded := mount (world (snd (login username password a))) in
     (∃ config,
        last (requests (world (snd (checkAuthStatus reloaded)))) = Some config ∧
        req_url config = "http://localhost:3000/auth/me" ∧
        req_headers config
        = [("Content-Type", "application/json"); ("Authorization", "Bearer " +:+ token)]) ∧
     ∀ userData, fst (ApiClient.getMe (world reloaded)) = Normal userData →
                 user (snd (checkAuthStatus reloaded)) = val userData) ∧
  (let reloaded := mount (world (snd (logout a))) in
   user (snd (checkAuthStatus reloaded)) = null ∧
   loading (snd (checkAuthStatus reloaded)) = false ∧
   requests (world (snd (checkAuthStatus reloaded))) = requests (world reloaded)).
Proof.
  split.
  - intros response token Hapi Htoken Hne reloaded.
    assert (Hstored : localStorage (world reloaded) !! "access_token" = Some token).
    { subst reloaded. cbn [mount world]. rewrite (login_returns _ _ _ _ Hapi).
      cbn [snd world set_toasts set_console localStorage].
      exact (MethodFacts.login_token_round_trip_stored username password (world a)
               response token Hapi Htoken Hne). }
    destruct (restore_with_token reloaded token Hstored Hne)
      as ((config & Hreq & Hurl & _ & _ & Hheaders) & Hreturns & _).
    split.
    + exists config. rewrite Hreq, last_snoc. by repeat split.
    + intros userData Hme. by destruct (Hreturns userData Hme).
  - cbv zeta. destruct (logout_clears a) as (_ & Hgone & _).
    rewrite checkAuthStatus_eq. cbv zeta. cbn [mount world]. rewrite Hgone.
    repeat split.
Qed.


Lemma reload_follows_storage_witness :
  fst (ApiClient.login "alice" "secret" (world (Scenario.signed_out_accepting "jwt")))
  = Normal (JObj [("user", Types.User_json Scenario.alice); ("accessToken", JStr "jwt")]) ∧
  ∃ config,
    last (requests (world (snd (checkAuthStatus
            (mount (world (snd (login "alice" "secret"
                                  (Scenario.signed_out_accepting "jwt"))))))))) = Some config ∧
    req_url config = "http://localhost:3000/auth/me" ∧
    req_headers config
    = [("Content-Type", "application/json"); ("Authorization", "Bearer jwt")].
Proof.
  split; [reflexivity|].
  destruct (reload_follows_storage (Scenario.signed_out_accepting "jwt") "alice" "secret")
    as [Hlogin _].
  destruct (Hlogin _ "jwt" eq_refl eq_refl ltac:(discriminate)) as [Hreq _].
  exact Hreq.
Defined.

End SessionFacts.

Module AdminViewFacts.
Import AdminDashboard AdminDashboardView Spec SpecMore ApiClientFacts AdminDashboardFacts.

Lemma close_EventSource_idemp es : close_EventSource (close_EventSource es) = close_EventSource es.
Proof. reflexivity. Qed.

Lemma dispatch_eventSources JSON_parse handle ev st :
  fst (dispatch JSON_parse handle ev st) = Normal tt ∧
  eventSources (world (snd (dispatch JSON_parse handle ev st)))
  = match ev with
    | Failure => alter close_EventSource handle (eventSources (world st))
    | _ => eventSources (world st)
    end.
Proof.
  destruct ev as [|data|].
  - split; reflexivity.
  - rewrite dispatch_Message_eq. cbn [fst snd]. split; [reflexivity|].
    destruct (JSON_parse data) as [j|e] eqn:Hd; [|reflexivity].
    by destruct (onmessage_parsed JSON_parse st data j Hd) as (_ & _ & ->).
  - split; reflexivity.
Qed.

(** X11.  Whatever events arrive on the stream, the handlers complete
    normally and never open a channel: the list of channels keeps its
    length and its URLs.  It is unchanged when no transport error is
    among the events, and otherwise differs exactly by the channel of
    the handlers being closed, which no later event reopens. *)
Theorem stream_never_reconnects (JSON_parse : string → Completion JSON) (handle : nat)
    (evs : list StreamEvent) (st : State) :
  fst (dispatch_all JSON_parse handle evs st) = Normal tt ∧
  eventSources (world (snd (dispatch_all JSON_parse handle evs st)))
  = (if has_failure evs
     then alter close_EventSource handle (eventSources (world st))
     else eventSources (world st)) ∧
  length (eventSources (world (snd (dispatch_all JSON_parse handle evs st))))
  = length (eventSources (world st)) ∧
  es_url <$> eventSources (world (snd (dispatch_all JSON_parse handle evs st)))
  = es_url <$> eventSources (world st).
Proof.
  assert (Hmain : ∀ evs st,
    fst (dispatch_all JSON_parse handle evs st) = Normal tt ∧
    eventSources (world (snd (dispatch_all JSON_parse handle evs st)))
    = (if has_failure evs
       then alter close_EventSource handle (eventSources (world st))
       else eventSources (world st))).
  { clear evs st. induction evs as [|ev evs IH]; intros st; [split; reflexivity|].
    cbn [dispatch_all]. unfold mbind, M_bind.
    destruct (dispatch_eventSources JSON_parse handle ev st) as [Hfst Hes].
    destruct (dispatch JSON_parse handle ev st) as [r st1]. cbn [fst snd] in *. subst r.
    destruct (IH st1) as [H1 H2]. split; [exact H1|]. rewrite H2, Hes.
    unfold has_failure. cbn [existsb]. fold (has_failure evs).
    destruct ev; cbn [orb]; try reflexivity.
    destruct (has_failure evs); [|reflexivity].
    rewrite list_alter_alter_eq. apply list_alter_ext; [|reflexivity].
    intros; apply close_EventSource_idemp. }
  destruct (Hmain evs st) as [H1 H2]. split; [exact H1|]. split; [exact H2|].
  rewrite H2. destruct (has_failure evs); [|split; reflexivity].
  split; [apply length_alter|].
  rewrite (list_fmap_alter es_url close_EventSource id).
  - by apply list_alter_id.
  - by apply Forall_forall.
Qed.


(** X12.  Without a non-empty token in storage, [setupEventStream]
    opens no channel and returns no clean-up; the failure is caught,
    logged and shown as one destructive toast, and the mount effect as a
    whole leaves the list of channels as it was. *)
Theorem setupEventStream_without_token (st : State) :
  truthy_str (localStorage (world st) !! "access_token") = false →
  setupEventStream st
  = (Normal None,
     mkState
       (set_toasts
          (fun ts => (ts ++ [error_toast "Failed to establish real-time connection"])%list)
          (set_console (fun c => (c ++ ["Failed to setup event stream:"])%list) (world st)))
       (analytics st) (recentEvents st) (users st) (loading st)) ∧
  eventSources (world (snd (effect st))) = eventSources (world st).
Proof.
  intros Hno.
  assert (Hcreate : ∀ w, localStorage w = localStorage (world st) →
            ApiClient.createEventStream w
            = (Throw (Error "No authentication token found"), w)).
  { intros w Hw. destruct (EventStreamFacts.createEventStream_eq w) as (Hnone & Hempty & _).
    rewrite Hw in Hnone, Hempty.
    destruct (localStorage (world st) !! "access_token") as [t|] eqn:Ht;
      [|by apply Hnone].
    cbn [truthy_str] in Hno. destruct (String.eqb_spec t "") as [Heq|_]; [|discriminate].
    apply Hempty. by rewrite Heq. }
  split.
  - unfold setupEventStream. unfold_admin. unfold_monad.
    by rewrite (Hcreate (world st)).
  - unfold effect. unfold mbind, M_bind.
    destruct (loadDashboardData_begin_frame st) as (pending & Hp & Hls & Hes & _).
    destruct (loadDashboardData_begin st) as [r st1]. cbn [fst snd] in *. subst r.
    unfold setupEventStream. unfold_admin. unfold_monad.
    rewrite (Hcreate (world st1) Hls). cbn [snd world set_toasts set_console eventSources].
    exact Hes.
Qed.

Lemma setupEventStream_without_token_witness :
  truthy_str (localStorage (world (mount (Scenario.browser ∅ Scenario.offline)))
                !! "access_token") = false ∧
  fst (setupEventStream (mount (Scenario.browser ∅ Scenario.offline))) = Normal None ∧
  toasts (world (snd (setupEventStream (mount (Scenario.browser ∅ Scenario.offline)))))
  = [error_toast "Failed to establish real-time connection"] ∧
  eventSources (world (snd (effect (mount (Scenario.browser ∅ Scenario.offline))))) = [].
Proof.
  assert (Hno : truthy_str (localStorage (world (mount (Scenario.browser ∅ Scenario.offline)))
                              !! "access_token") = false) by reflexivity.
  split; [exact Hno|].
  destruct (setupEventStream_without_token (mount (Scenario.browser ∅ Scenario.offline))
              Hno) as [Heq Hes].
  rewrite Heq. split; [reflexivity|]. split; [reflexivity|exact Hes].
Defined.

Lemma filter_role_counts items : ∀ instructors students,
  filter_role "INSTRUCTOR" items = Normal instructors →
  filter_role "STUDENT" items = Normal students →
  (length instructors + length students ≤ length items)%nat.
Proof.
  induction items as [|u items IH]; intros instructors students.
  { cbn. intros [= <-] [= <-]. reflexivity. }
  cbn [filter_role]. destruct (get (val u) "role") as [v|]; [|discriminate].
  destruct (filter_role "INSTRUCTOR" items) as [is'|]; [|discriminate].
  destruct (filter_role "STUDENT" items) as [ss'|]; [|discriminate].
  intros [= <-] [= <-]. specialize (IH _ _ eq_refl eq_refl).
  destruct v as [|[]]; cbn [strict_eq_str length]; try lia.
  destruct (String.eqb_spec s "INSTRUCTOR") as [->|_]; cbn [length]; [cbn; lia|].
  destruct (String.eqb s "STUDENT"); cbn [length]; lia.
Qed.

Lemma loadDashboardData_begin_eq st :
  ∃ pending users_request courses_request,
    loadDashboardData_begin st
    = (Normal pending,
       mkState (set_requests (fun rs => (rs ++ [users_request; courses_request])%list)
                  (world st))
               (analytics st) (recentEvents st) (users st) true) ∧
    req_url users_request = "http://localhost:3000/users?page=1&limit=100" ∧
    req_url courses_request = "http://localhost:3000/courses?page=1&limit=100".
Proof.
  unfold loadDashboardData_begin, ApiClient.getUsers, ApiClient.getCourses.
  unfold_admin. unfold_monad. cbn [world analytics recentEvents users loading].
  rewrite !request_eq. cbn [world analytics recentEvents users loading fst snd].
  eexists _, _, _. split; [|split].
  - unfold set_requests. cbn [localStorage network requests eventSources toasts console].
    rewrite <- app_assoc. reflexivity.
  - reflexivity.
  - reflexivity.
Qed.

Lemma loadDashboardData_outcome (st : State) :
  let st' := snd (loadDashboardData st) in
  fst (loadDashboardData st) = Normal tt ∧
  loading st' = false ∧
  recentEvents st' = recentEvents st ∧
  (∃ users_request courses_request,
     requests (world st') = (requests (world st) ++ [users_request; courses_request])%list ∧
     req_url users_request = "http://localhost:3000/users?page=1&limit=100" ∧
     req_url courses_request = "http://localhost:3000/courses?page=1&limit=100") ∧
  ((toasts (world st') = toasts (world st) ∧
    ∃ items, users st' = val (JArr items) ∧
             0 ≤ totalInstructors (analytics st') ∧
             0 ≤ totalStudents (analytics st') ∧
             totalInstructors (analytics st') + totalStudents (analytics st')
             ≤ Z.of_nat (length items))
   ∨
   (toasts (world st')
    = (toasts (world st) ++ [error_toast "Failed to load dashboard data"])%list ∧
    analytics st' = analytics st ∧ users st' = users st)).
Proof.
  cbv zeta.
  destruct (loadDashboardData_begin_eq st)
    as (pending & users_request & courses_request & Hbegin & Hu & Hc).
  assert (Heq : loadDashboardData st
                = loadDashboardData_resume pending
                    (mkState (set_requests
                                (fun rs => (rs ++ [users_request; courses_request])%list)
                                (world st))
                             (analytics st) (recentEvents st) (users st) true)).
  { unfold loadDashboardData, mbind, M_bind. by rewrite Hbegin. }
  rewrite Heq. clear Heq Hbegin.
  unfold loadDashboardData_resume. unfold_admin. unfold_monad.
  cbn [world analytics recentEvents users loading].
  assert (Hreq :
    ∃ u c, (requests (world st) ++ [users_request; courses_request])%list
           = (requests (world st) ++ [u; c])%list ∧
           req_url u = "http://localhost:3000/users?page=1&limit=100" ∧
           req_url c = "http://localhost:3000/courses?page=1&limit=100") by eauto.
  destruct pending as [[usersResponse|] [coursesResponse|]]; cbn [fst snd];
    try (repeat split; [exact Hreq | right; repeat split]; fail).
  destruct (get (val usersResponse) "total");
    [|repeat split; [exact Hreq | right; repeat split]].
  destruct (get (val usersResponse) "data") as [data|];
    [|repeat split; [exact Hreq | right; repeat split]].
  destruct (data_filter_role data "INSTRUCTOR") as [instructors|] eqn:Hi;
    [|repeat split; [exact Hreq | right; repeat split]].
  destruct (data_filter_role data "STUDENT") as [students|] eqn:Hs;
    [|repeat split; [exact Hreq | right; repeat split]].
  destruct (get (val coursesResponse) "total");
    [|repeat split; [exact Hreq | right; repeat split]].
  repeat split; [exact Hreq|]. left. split; [reflexivity|].
  cbn [fst snd world analytics users totalInstructors totalStudents].
  destruct data as [|[]]; try discriminate. exists items.
  pose proof (filter_role_counts items _ _ Hi Hs). repeat split; lia.
Qed.

Lemma loadDashboardData_begin_answers st :
  loadDashboardData_begin st
  = (Normal (fst (ApiClient.getUsers 1 100 None (world st)),
             fst (ApiClient.getCourses 1 100
                    (snd (ApiClient.getUsers 1 100 None (world st))))),
     mkState (snd (ApiClient.getCourses 1 100
                     (snd (ApiClient.getUsers 1 100 None (world st)))))
             (analytics st) (recentEvents st) (users st) true).
Proof.
  unfold loadDashboardData_begin. unfold_admin. unfold_monad.
  cbn [world analytics recentEvents users loading].
  destruct (ApiClient.getUsers 1 100 None (world st)) as [r1 w1].
  cbn [world analytics recentEvents users loading fst snd].
  destruct (ApiClient.getCourses 1 100 w1) as [r2 w2]. reflexivity.
Qed.

Lemma filter_role_with_role r items kept :
  filter_role r items = Normal kept → kept = with_role r items.
Proof.
  revert kept. induction items as [|u items IH]; intros kept.
  { by intros [= <-]. }
  cbn [filter_role with_role List.filter].
  destruct (get (val u) "role") as [v|] eqn:Hget; [|discriminate].
  assert (v = opt_get (val u) "role") as ->.
  { destruct u; cbn in Hget |- *; congruence. }
  destruct (filter_role r items) as [kept'|]; [|discriminate].
  intros [= <-]. rewrite (IH kept' eq_refl).
  by destruct (strict_eq_str _ r).
Qed.

Lemma filter_role_returns r items :
  Forall (fun u => u ≠ JNull) items → ∃ kept, filter_role r items = Normal kept.
Proof.
  induction 1 as [|u items Hu _ [kept IH]]; [by exists []|].
  cbn [filter_role]. rewrite IH.
  destruct u; try done; cbn [get]; eauto.
Qed.

(** X13.  [loadDashboardData] always completes normally with the
    spinner off, after sending the users request and then the courses
    request (the second also when the first fails), and it does not
    touch the event buffer.  Its update is all or nothing.  Either no
    toast is shown, and then both requests returned, the [data] of the
    users answer is an array, the users become exactly that array, and
    the analytics are the [total] of the users answer, the numbers of
    its items with role [INSTRUCTOR] and with role [STUDENT], and the
    [total] of the courses answer; or one destructive toast is shown
    and the analytics and the users are left as they were.  The first
    is the case whenever both requests return, the courses answer is
    not [null] and the users [data] is an array without [null] items;
    the second whenever one of the requests fails. *)
Theorem loadDashboardData_all_or_nothing (st : State) :
  let st' := snd (loadDashboardData st) in
  let users_answer := fst (ApiClient.getUsers 1 100 None (world st)) in
  let courses_answer :=
    fst (ApiClient.getCourses 1 100 (snd (ApiClient.getUsers 1 100 None (world st)))) in
  fst (loadDashboardData st) = Normal tt ∧
  loading st' = false ∧
  recentEvents st' = recentEvents st ∧
  (∃ users_request courses_request,
     requests (world st') = (requests (world st) ++ [users_request; courses_request])%list ∧
     req_url users_request = "http://localhost:3000/users?page=1&limit=100" ∧
     req_url courses_request = "http://localhost:3000/courses?page=1&limit=100") ∧
  ((toasts (world st') = toasts (world st) ∧
    ∃ usersResponse coursesResponse items,
      users_answer = Normal usersResponse ∧
      courses_answer = Normal coursesResponse ∧
      opt_get (val usersResponse) "data" = val (JArr items) ∧
      users st' = val (JArr items) ∧
      totalUsers (analytics st') = opt_get (val usersResponse) "total" ∧
      totalInstructors (analytics st')
      = Z.of_nat (length (with_role "INSTRUCTOR" items)) ∧
      totalStudents (analytics st') = Z.of_nat (length (with_role "STUDENT" items)) ∧
      totalCourses (analytics st') = opt_get (val coursesResponse) "total" ∧
      0 ≤ totalInstructors (analytics st') ∧
      0 ≤ totalStudents (analytics st') ∧
      totalInstructors (analytics st') + totalStudents (analytics st')
      ≤ Z.of_nat (length items))
   ∨
   (toasts (world st')
    = (toasts (world st) ++ [error_toast "Failed to load dashboard data"])%list ∧
    analytics st' = analytics st ∧ users st' = users st)) ∧
  (∀ usersResponse coursesResponse items,
     users_answer = Normal usersResponse →
     courses_answer = Normal coursesResponse →
     opt_get (val usersResponse) "data" = val (JArr items) →
     Forall (fun u => u ≠ JNull) items →
     coursesResponse ≠ JNull →
     toasts (world st') = toasts (world st) ∧ users st' = val (JArr items)) ∧
  (∀ e, users_answer = Throw e ∨ courses_answer = Throw e →
     toasts (world st')
     = (toasts (world st) ++ [error_toast "Failed to load dashboard data"])%list ∧
     analytics st' = analytics st ∧ users st' = users st).
Proof.
  cbv zeta.
  destruct (loadDashboardData_outcome st) as (Hfst & Hload & Hbuf & Hreq & _).
  split; [exact Hfst|]. split; [exact Hload|]. split; [exact Hbuf|].
  split; [exact Hreq|]. clear Hfst Hload Hbuf Hreq.
  assert (Heq : loadDashboardData st
    = loadDashboardData_resume
        (fst (ApiClient.getUsers 1 100 None (world st)),
         fst (ApiClient.getCourses 1 100 (snd (ApiClient.getUsers 1 100 None (world st)))))
        (mkState (snd (ApiClient.getCourses 1 100
                         (snd (ApiClient.getUsers 1 100 None (world st)))))
                 (analytics st) (recentEvents st) (users st) true)).
  { unfold loadDashboardData, mbind, M_bind. by rewrite loadDashboardData_begin_answers. }
  rewrite Heq. clear Heq.
  assert (Htoasts : toasts (snd (ApiClient.getCourses 1 100
                                   (snd (ApiClient.getUsers 1 100 None (world st)))))
                    = toasts (world st)).
  { unfold ApiClient.getCourses, ApiClient.getUsers.
    rewrite !ApiClientFacts.request_eq. reflexivity. }
  destruct (fst (ApiClient.getUsers 1 100 None (world st))) as [usersResponse|eu].
  2:{ unfold loadDashboardData_resume. unfold_admin. unfold_monad.
      cbn [fst snd world analytics users toasts set_toasts]. rewrite Htoasts.
      split; [right; by repeat split|]. split; [intros ? ? ? [=]|].
      intros e _. by repeat split. }
  destruct (fst (ApiClient.getCourses 1 100 _)) as [coursesResponse|ec].
  2:{ unfold loadDashboardData_resume. unfold_admin. unfold_monad.
      cbn [fst snd world analytics users toasts set_toasts]. rewrite Htoasts.
      split; [right; by repeat split|]. split; [intros ? ? ? _ [=]|].
      intros e _. by repeat split. }
  unfold loadDashboardData_resume. unfold_admin. unfold_monad.
  cbn [fst snd world analytics recentEvents users loading].
  assert (Hfail : ∀ w u l,
    toasts w = toasts (world st) →
    let st' := mkState (set_toasts
                          (fun ts => (ts ++ [error_toast "Failed to load dashboard data"])%list)
                          w) (analytics st) (recentEvents st) u l in
    toasts (world st')
    = (toasts (world st) ++ [error_toast "Failed to load dashboard data"])%list ∧
    analytics st' = analytics st).
  { intros w u l Hw. cbn [world analytics toasts set_toasts]. by rewrite Hw. }
  destruct (get (val usersResponse) "total") as [total|] eqn:Htotal.
  2:{ cbn [fst snd world analytics users toasts set_toasts]. rewrite Htoasts.
      split; [right; by repeat split|]. split; [|intros ? [[=]|[=]]].
      intros ur cr items [= <-] _ Hdata.
      destruct usersResponse; cbn in Htotal, Hdata; discriminate. }
  pose proof (LoginFacts.get_opt_get _ _ _ "total" Htotal) as Htotal'.
  rewrite Htotal in Htotal'. injection Htotal' as Htotal'.
  pose proof (LoginFacts.get_opt_get _ _ _ "data" Htotal) as Hdata. rewrite Hdata.
  destruct (data_filter_role (opt_get (val usersResponse) "data") "INSTRUCTOR")
    as [instructors|] eqn:Hi.
  2:{ cbn [fst snd world analytics users toasts set_toasts]. rewrite Htoasts.
      split; [right; by repeat split|]. split; [|intros ? [[=]|[=]]].
      intros ur cr items [= <-] _ Hitems Hall _. rewrite Hitems in Hi.
      cbn [data_filter_role] in Hi.
      destruct (filter_role_returns "INSTRUCTOR" items Hall) as [kept Hkept].
      congruence. }
  destruct (data_filter_role (opt_get (val usersResponse) "data") "STUDENT")
    as [students|] eqn:Hs.
  2:{ cbn [fst snd world analytics users toasts set_toasts]. rewrite Htoasts.
      split; [right; by repeat split|]. split; [|intros ? [[=]|[=]]].
      intros ur cr items [= <-] _ Hitems Hall _. rewrite Hitems in Hs.
      cbn [data_filter_role] in Hs.
      destruct (filter_role_returns "STUDENT" items Hall) as [kept Hkept].
      congruence. }
  destruct (get (val coursesResponse) "total") as [ctotal|] eqn:Hctotal.
  2:{ cbn [fst snd world analytics users toasts set_toasts]. rewrite Htoasts.
      split; [right; by repeat split|]. split; [|intros ? [[=]|[=]]].
      intros ur cr items _ [= <-] _ _ Hnull.
      destruct coursesResponse; cbn in Hctotal; done. }
  pose proof (LoginFacts.get_opt_get _ _ _ "total" Hctotal) as Hctotal'.
  rewrite Hctotal in Hctotal'. injection Hctotal' as Hctotal'.
  cbn [fst snd world analytics users toasts totalUsers totalInstructors totalStudents
       totalCourses].
  destruct (opt_get (val usersResponse) "data") as [|[| | | |items|]] eqn:Hitems;
    try discriminate.
  cbn [data_filter_role] in Hi, Hs.
  pose proof (filter_role_counts items _ _ Hi Hs) as Hcount.
  apply filter_role_with_role in Hi, Hs. subst instructors students.
  split; [left|split].
  - split; [exact Htoasts|]. exists usersResponse, coursesResponse, items.
    repeat split; try done; lia.
  - intros ur cr items' [= <-] [= <-] [= <-] _ _. by split.
  - intros e [[=]|[=]].
Qed.

Lemma loadDashboardData_all_or_nothing_witness :
  toasts (world (snd (loadDashboardData dashboard_with_users))) = [] ∧
  users (snd (loadDashboardData dashboard_with_users))
  = val (JArr [Types.User_json Scenario.grace; Types.User_json Scenario.alice]).
Proof.
  destruct (loadDashboardData_all_or_nothing dashboard_with_users)
    as (_ & _ & _ & _ & _ & Hsuccess & _).
  assert (Hitems : Forall (fun u => u ≠ JNull)
                     [Types.User_json Scenario.grace; Types.User_json Scenario.alice])
    by (repeat constructor; discriminate).
  assert (Hpage : users_page ≠ JNull) by discriminate.
  exact (Hsuccess users_page users_page _ eq_refl eq_refl eq_refl Hitems Hpage).
Defined.

Lemma getEventTypeLabel_throws_TypeError type e :
  getEventTypeLabel type = Throw e → err_name e = "TypeError".
Proof.
  unfold getEventTypeLabel.
  destruct (ToPropertyKey type) as [key|e'] eqn:Hkey.
  2:{ intros [= <-]. destruct type; [discriminate|].
      by rewrite (ApiClientFacts.ToString_throws _ _ Hkey). }
  destruct (List.find _ labels) as [[? [? ?]]|]; [discriminate|].
  destruct (bool_decide _); [discriminate|].
  destruct type as [|[]]; intros [= <-]; reflexivity.
Qed.

Lemma get_throws_TypeError v k e : get v k = Throw e → err_name e = "TypeError".
Proof. destruct v as [|[]]; cbn; intros [= <-]; reflexivity. Qed.

Lemma renderRecentEvents_throws_TypeError events e :
  renderRecentEvents events = Throw e → err_name e = "TypeError".
Proof.
  induction events as [|event events IH]; [discriminate|].
  cbn [renderRecentEvents].
  destruct (get (val event) "type") as [type|e'] eqn:Hget.
  2:{ intros [= <-]. by eapply get_throws_TypeError. }
  destruct (getEventTypeLabel type) as [l|e'] eqn:Hl.
  2:{ intros [= <-]. by eapply getEventTypeLabel_throws_TypeError. }
  destruct (renderRecentEvents events); [discriminate|].
  intros [= <-]. by apply IH.
Qed.

Lemma renderRecentEvents_unlabelled events event :
  event ∈ events → unlabelled event → ∃ e, renderRecentEvents events = Throw e.
Proof.
  intros Hin Hbad. induction events as [|other events IH]; [by apply elem_of_nil in Hin|].
  cbn [renderRecentEvents]. apply elem_of_cons in Hin as [<-|Hin].
  - unfold unlabelled in Hbad.
    destruct (get (val event) "type") as [type|e]; [|by exists e].
    destruct (getEventTypeLabel type) as [|e]; [done|by exists e].
  - destruct (get (val other) "type") as [type|e]; [|by exists e].
    destruct (getEventTypeLabel type) as [|e]; [|by exists e].
    destruct (IH Hin) as [e ->]. by exists e.
Qed.

Lemma untyped_unlabelled j : opt_get (val j) "type" = undefined → unlabelled j.
Proof.
  intros Hno. unfold unlabelled.
  destruct j; cbn [get]; try done; cbn [opt_get] in Hno; try rewrite Hno; done.
Qed.

(** X14.  The message handler buffers every payload that parses, but
    the list under "Real-time Events" can only be rendered while each
    buffered event yields a label.  A parsed payload without a [type]
    property (JSON [null], a number, an object without that key) goes
    to the head of the buffer, and from then on rendering the list
    throws a [TypeError] for as long as the event is in the buffer. *)
Theorem untyped_event_breaks_event_list (JSON_parse : string → Completion JSON)
    (data : string) (j : JSON) (st : State) :
  JSON_parse data = Normal j →
  opt_get (val j) "type" = undefined →
  head (recentEvents (snd (onmessage JSON_parse data st))) = Some j ∧
  (∃ e, renderRecentEvents (recentEvents (snd (onmessage JSON_parse data st))) = Throw e ∧
        err_name e = "TypeError") ∧
  ∀ events, j ∈ events →
    ∃ e, renderRecentEvents events = Throw e ∧ err_name e = "TypeError".
Proof.
  intros Hparse Hno.
  destruct (onmessage_parsed JSON_parse st data j Hparse) as (_ & Hbuf & _).
  assert (Hall : ∀ events, j ∈ events →
            ∃ e, renderRecentEvents events = Throw e ∧ err_name e = "TypeError").
  { intros events Hin.
    destruct (renderRecentEvents_unlabelled events j Hin (untyped_unlabelled j Hno))
      as [e He].
    exists e. split; [exact He|]. by eapply renderRecentEvents_throws_TypeError. }
  rewrite Hbuf. split; [reflexivity|]. split; [|exact Hall].
  apply Hall. apply elem_of_cons. by left.
Qed.

Lemma untyped_event_breaks_event_list_witness :
  Scenario.digit_parse "{}" = Normal (JObj []) ∧
  opt_get (val (JObj [])) "type" = undefined ∧
  head (recentEvents (snd (onmessage Scenario.digit_parse "{}"
                             (mount (Scenario.browser ∅ Scenario.offline)))))
  = Some (JObj []) ∧
  ∃ e, renderRecentEvents
         (recentEvents (snd (onmessage Scenario.digit_parse "{}"
                               (mount (Scenario.browser ∅ Scenario.offline)))))
       = Throw e ∧ err_name e = "TypeError".
Proof.
  destruct (untyped_event_breaks_event_list Scenario.digit_parse "{}" (JObj [])
              (mount (Scenario.browser ∅ Scenario.offline)) eq_refl eq_refl)
    as (Hhead & Hthrows & _).
  split; [reflexivity|]. split; [reflexivity|]. split; [exact Hhead|exact Hthrows].
Defined.

Lemma replace_underscores_length s :
  String.length (replace_underscores s) = String.length s.
Proof. induction s as [|a s IH]; [reflexivity|]. cbn. by rewrite IH. Qed.

Lemma replace_underscores_clean s :
  all_chars (fun c => negb (Ascii.eqb c "_")) (replace_underscores s) = true.
Proof.
  induction s as [|a s IH]; [reflexivity|].
  cbn [replace_underscores all_chars]. rewrite IH, andb_true_r.
  destruct (Ascii.eqb_spec a "_") as [->|Hne]; [reflexivity|].
  by destruct (Ascii.eqb_spec a "_").
Qed.

(** X15.  [getEventTypeLabel] never throws on a string.  For a string
    that is neither one of the five keys of the table nor a member of
    [Object.prototype] it returns the [outline] label whose text is the
    type with every underscore turned into a space: the same length,
    and no underscore left. *)
Theorem getEventTypeLabel_on_strings (type : string) :
  (∃ eventLabel, getEventTypeLabel (val (JStr type)) = Normal eventLabel) ∧
  (type ∉ labels.*1 → type ∉ Object_prototype →
   ∃ text, getEventTypeLabel (val (JStr type)) = Normal (LabelOf text "outline") ∧
           text = replace_underscores type ∧
           String.length text = String.length type ∧
           all_chars (fun c => negb (Ascii.eqb c "_")) text = true).
Proof.
  split.
  - unfold getEventTypeLabel. cbn [ToPropertyKey ToString].
    destruct (List.find _ labels) as [[? [? ?]]|]; [eauto|].
    destruct (bool_decide _); eauto.
  - intros Hkey Hproto. exists (replace_underscores type).
    split; [|split; [reflexivity|split;
      [apply replace_underscores_length|apply replace_underscores_clean]]].
    unfold getEventTypeLabel. cbn [ToPropertyKey ToString].
    destruct (List.find _ labels) as [[k [? ?]]|] eqn:Hfind.
    { apply List.find_some in Hfind as [Hin Heq]. cbn [fst] in Heq.
      apply String.eqb_eq in Heq. subst k. exfalso. apply Hkey.
      apply list_elem_of_fmap. eexists. split; [|apply list_elem_of_In; exact Hin].
      reflexivity. }
    by rewrite bool_decide_eq_false_2.
Qed.

Lemma getEventTypeLabel_on_strings_witness :
  getEventTypeLabel (val (JStr "COURSE_ARCHIVED_BY_ADMIN"))
  = Normal (LabelOf "COURSE ARCHIVED BY ADMIN" "outline").
Proof.
  destruct (getEventTypeLabel_on_strings "COURSE_ARCHIVED_BY_ADMIN") as [_ Hfallback].
  destruct Hfallback as (text & Heq & -> & _).
  - cbn. rewrite !elem_of_cons, elem_of_nil. intros H; repeat destruct H as [H|H]; done.
  - unfold Object_prototype. rewrite !elem_of_cons, elem_of_nil.
    intros H; repeat destruct H as [H|H]; done.
  - exact Heq.
Defined.


(** X16.  [handleDeleteUser] does nothing at all when the confirmation
    is declined.  When it is confirmed the handler always completes
    normally: if the deletion request fails, exactly that one request
    was sent, one destructive toast is shown and nothing is reloaded;
    if it succeeds, the success toast is shown first and the dashboard
    data are then reloaded with two further requests. *)
Theorem handleDeleteUser_outcomes (userId : Z) (st : State) :
  handleDeleteUser false userId st = (Normal tt, st) ∧
  fst (handleDeleteUser true userId st) = Normal tt ∧
  (∀ e, fst (ApiClientMethods.deleteUser userId (world st)) = Throw e →
     let st' := snd (handleDeleteUser true userId st) in
     toasts (world st') = (toasts (world st) ++ [error_toast "Failed to delete user"])%list ∧
     length (requests (world st')) = S (length (requests (world st))) ∧
     analytics st' = analytics st ∧ users st' = users st ∧ loading st' = loading st) ∧
  (∀ j, fst (ApiClientMethods.deleteUser userId (world st)) = Normal j →
     let st' := snd (handleDeleteUser true userId st) in
     (∃ later, toasts (world st')
               = (toasts (world st) ++ success_toast "User deleted successfully" :: later)%list) ∧
     length (requests (world st')) = S (S (S (length (requests (world st))))) ∧
     loading st' = false).
Proof.
  split; [reflexivity|].
  unfold handleDeleteUser, ApiClientMethods.deleteUser. cbn [negb].
  unfold_admin. unfold_monad. rewrite request_eq. cbn [fst snd].
  destruct (request_outcome _) as [j|e].
  - cbn [world analytics recentEvents users loading].
    match goal with |- context [loadDashboardData ?s] =>
      destruct (loadDashboardData_outcome s) as (Hfst & Hload & _ & Hreq & Hupd);
      destruct (loadDashboardData s) as [r st2] end.
    cbn [fst snd] in *. subst r.
    split; [reflexivity|]. split; [intros ? [=]|]. intros j' _. cbv zeta. cbn [snd].
    destruct Hreq as (u & c & Hreq & _). cbn [world] in Hreq, Hupd.
    split; [|split; [|exact Hload]].
    + cbn [set_toasts set_requests toasts] in Hupd.
      destruct Hupd as [[-> _]|[-> _]]; eexists; rewrite <- ?app_assoc; reflexivity.
    + rewrite Hreq. cbn [set_toasts set_requests requests].
      rewrite !length_app. cbn [length]. lia.
  - split; [reflexivity|]. split; [|intros ? [=]]. intros e' _. cbv zeta.
    cbn [snd world analytics users loading set_toasts set_requests toasts requests].
    repeat split. rewrite length_app. cbn [length]. lia.
Qed.

Lemma handleDeleteUser_outcomes_witness :
  fst (ApiClientMethods.deleteUser 7 (world (mount (Scenario.browser ∅ Scenario.offline))))
  = Throw (TypeError "Failed to fetch") ∧
  toasts (world (snd (handleDeleteUser true 7 (mount (Scenario.browser ∅ Scenario.offline)))))
  = [error_toast "Failed to delete user"] ∧
  length (requests (world (snd (handleDeleteUser true 7
                                  (mount (Scenario.browser ∅ Scenario.offline)))))) = 1%nat.
Proof.
  split; [reflexivity|].
  destruct (handleDeleteUser_outcomes 7 (mount (Scenario.browser ∅ Scenario.offline)))
    as (_ & _ & Hfail & _).
  destruct (Hfail (TypeError "Failed to fetch") eq_refl) as (Htoast & Hreq & _).
  split; [exact Htoast|exact Hreq].
Defined.

End AdminViewFacts.

Module ChatLifecycleFacts.
Import CourseChat Spec SpecMore CourseChatFacts.

Lemma listener_frame props h ev st :
  let st' := snd (listener props h ev st) in
  messages st'
  = (messages st ++ match ev with courseMessage message => [message] | _ => [] end)%list ∧
  loading st'
  = match ev with
    | joinCourseSuccess _ | joinCourseError _ => false
    | _ => loading st
    end ∧
  newMessage st' = newMessage st ∧ socket st' = socket st ∧ user st' = user st ∧
  localStorage (world st') = localStorage (world st).
Proof.
  destruct ev; cbn [listener]; unfold_chat; unfold_monad;
    cbn [snd messages loading newMessage socket user world set_sockets set_console
         set_toasts localStorage];
    rewrite ?app_nil_r; repeat split.
Qed.

Lemma listen_all_frame props h evs : ∀ st,
  let st' := snd (listen_all props h evs st) in
  messages st' = (messages st ++ received_messages evs)%list ∧
  loading st' = loading st && negb (join_answered evs) ∧
  newMessage st' = newMessage st ∧ socket st' = socket st ∧ user st' = user st ∧
  localStorage (world st') = localStorage (world st).
Proof.
  induction evs as [|ev evs IH]; intros st; cbv zeta.
  { cbn. rewrite app_nil_r, andb_true_r. repeat split. }
  cbn [listen_all]. unfold mbind, M_bind.
  destruct (listener_sockets props h ev st) as (Hfst & _).
  destruct (listener_frame props h ev st) as (Hm & Hl & Hn & Hs & Hu & Hw).
  destruct (listener props h ev st) as [r st1]. cbn [fst snd] in *. subst r.
  destruct (IH st1) as (Hm' & Hl' & Hn' & Hs' & Hu' & Hw').
  rewrite Hm', Hl', Hn', Hs', Hu', Hw', Hm, Hl, Hn, Hs, Hu, Hw.
  unfold received_messages, join_answered. cbn [omap list_omap existsb].
  split; [|split; [|repeat split]].
  - rewrite <- app_assoc. by destruct ev.
  - destruct ev; cbn [orb negb andb]; try reflexivity; by rewrite ?andb_false_r.
Qed.

(** X17.  Whatever the server sends, the chat shows exactly the
    messages it already had followed by the [courseMessage] payloads in
    the order of arrival: none is dropped, repeated or reordered.  No
    event from the server changes the text being typed, the socket held,
    the user or the token storage. *)
Theorem messages_in_order_of_arrival (props : Props) (socketInstance : nat)
    (evs : list ServerEvent) (st : State) :
  let st' := snd (listen_all props socketInstance evs st) in
  messages st' = (messages st ++ received_messages evs)%list ∧
  newMessage st' = newMessage st ∧ socket st' = socket st ∧ user st' = user st ∧
  localStorage (world st') = localStorage (world st).
Proof.
  destruct (listen_all_frame props socketInstance evs st) as (H1 & _ & H2 & H3 & H4 & H5).
  cbv zeta. by repeat split.
Qed.

Section SpinnerFacts.

Variable trim : string → string.


End SpinnerFacts.


(** X19.  The connection effect hands React a clean-up exactly when it
    opened a socket, and that clean-up disconnects the socket it opened
    and no other; without access or without a token there is nothing to
    tear down and no clean-up is returned. *)
Theorem chat_teardown (props : Props) (st : State) :
  (canAccessChat props st = false ∨
   truthy_str (localStorage (world st) !! "access_token") = false →
     fst (effect props st) = Normal None ∧
     sockets (snd (effect props st)) = sockets st) ∧
  (canAccessChat props st = true →
   ∀ token, localStorage (world st) !! "access_token" = Some token → token ≠ "" →
     ∃ cleanup,
       fst (effect props st) = Normal (Some cleanup) ∧
       sockets (snd (run_cleanup cleanup (snd (effect props st))))
       = (sockets st ++ [set_disconnected (joined_socket token props)])%list ∧
       disconnected (set_disconnected (joined_socket token props)) = true).
Proof.
  split.
  - intros Hcase. destruct (canAccessChat props st) eqn:Hcan.
    + destruct Hcase as [?|Hno]; [discriminate|].
      by rewrite (effect_no_token _ _ Hcan Hno).
    + by rewrite (effect_no_access _ _ Hcan).
  - intros Hcan token Htok Hne.
    destruct (effect_cleanup_disconnects props st token Hcan Htok Hne)
      as (cleanup & H1 & H2).
    exists cleanup. by repeat split.
Qed.

Lemma chat_teardown_witness :
  canAccessChat Scenario.active_enrollment Scenario.chat_with_token = true ∧
  ∃ cleanup,
    fst (effect Scenario.active_enrollment Scenario.chat_with_token) = Normal (Some cleanup) ∧
    sockets (snd (run_cleanup cleanup
                    (snd (effect Scenario.active_enrollment Scenario.chat_with_token))))
    = [set_disconnected (joined_socket "jwt" Scenario.active_enrollment)].
Proof.
  split; [reflexivity|].
  destruct (chat_teardown Scenario.active_enrollment Scenario.chat_with_token) as [_ Hopen].
  destruct (Hopen eq_refl "jwt" eq_refl ltac:(discriminate)) as (cleanup & H1 & H2 & _).
  exists cleanup. split; [exact H1|exact H2].
Defined.

End ChatLifecycleFacts.

Module NavigationFacts.
Import Types Layout Index.

Lemma route_cases user :
  (strict_eq_str (opt_get user "role") "ADMIN" = true ∧ getDashboardRoute user = "/admin") ∨
  (strict_eq_str (opt_get user "role") "INSTRUCTOR" = true
   ∧ getDashboardRoute user = "/instructor") ∨
  (strict_eq_str (opt_get user "role") "STUDENT" = true
   ∧ getDashboardRoute user = "/student") ∨
  (strict_eq_str (opt_get user "role") "ADMIN" = false ∧
   strict_eq_str (opt_get user "role") "INSTRUCTOR" = false ∧
   strict_eq_str (opt_get user "role") "STUDENT" = false ∧
   getDashboardRoute user = "/").
Proof.
  unfold getDashboardRoute. cbv zeta.
  destruct (strict_eq_str _ "ADMIN"); [by left|].
  destruct (strict_eq_str _ "INSTRUCTOR"); [by right; left|].
  destruct (strict_eq_str _ "STUDENT"); [by right; right; left|].
  by right; right; right.
Qed.

Lemma User_json_role u : opt_get (val (User_json u)) "role" = val (JStr (Role_name (role u))).
Proof. destruct u as [? ? ? ? ? [?|] [?|] ? ? ? ?]; reflexivity. Qed.

(** X20.  The logo of the header always leads to a route that
    [App.tsx] declares, whatever the session holds.  For a user of the
    typed shape it is the dashboard whose allowed roles are exactly the
    role of that user; with no user, or a role that is none of the
    three, it is the unrestricted route [/]. *)
Theorem getDashboardRoute_is_declared (user : Value) :
  (∃ allowedRoles, (getDashboardRoute user, allowedRoles) ∈ ProtectedRoute.routes) ∧
  (∀ u : User, user = val (User_json u) →
     (getDashboardRoute user, [role u]) ∈ ProtectedRoute.routes) ∧
  ((∀ r : Role, opt_get user "role" ≠ val (JStr (Role_name r))) →
     getDashboardRoute user = "/" ∧ ("/", []) ∈ ProtectedRoute.routes).
Proof.
  unfold ProtectedRoute.routes. split; [|split].
  - destruct (route_cases user) as [[_ ->]|[[_ ->]|[[_ ->]|(_ & _ & _ & ->)]]];
      eexists; rewrite !elem_of_cons; eauto 10.
  - intros u ->. unfold getDashboardRoute. rewrite User_json_role.
    destruct (role u); cbn; rewrite !elem_of_cons; eauto 10.
  - intros Hnone. split; [|rewrite !elem_of_cons; eauto].
    unfold getDashboardRoute. cbv zeta.
    destruct (opt_get user "role") as [|[]]; try reflexivity.
    cbn [strict_eq_str].
    destruct (String.eqb_spec s "ADMIN") as [->|_]; [by destruct (Hnone ADMIN)|].
    destruct (String.eqb_spec s "INSTRUCTOR") as [->|_]; [by destruct (Hnone INSTRUCTOR)|].
    destruct (String.eqb_spec s "STUDENT") as [->|_]; [by destruct (Hnone STUDENT)|].
    reflexivity.
Qed.

Lemma getDashboardRoute_is_declared_witness :
  (getDashboardRoute (val (User_json Scenario.grace)), [INSTRUCTOR]) ∈ ProtectedRoute.routes ∧
  getDashboardRoute null = "/".
Proof.
  destruct (getDashboardRoute_is_declared (val (User_json Scenario.grace)))
    as (_ & Htyped & _).
  destruct (getDashboardRoute_is_declared null) as (_ & _ & Hnone).
  split; [exact (Htyped Scenario.grace eq_refl)|].
  apply Hnone. intros r. discriminate.
Defined.

(** X21.  The landing page renders no content of its own: it shows the
    spinner while the session initializes and a redirect afterwards.
    The redirect goes to the dashboard that [getDashboardRoute] names
    when the user has one of the three roles and to [/login] in every
    other case, so it never points back to [/], the route the page
    itself is mounted on. *)
Theorem Index_redirects (user : Value) :
  Index user true = LoadingSpinner ∧
  Index user false
  = Navigate (if String.eqb (getDashboardRoute user) "/" then "/login"
              else getDashboardRoute user) ∧
  Index user false ≠ Navigate "/".
Proof.
  split; [reflexivity|].
  assert (Heq : Index user false
    = Navigate (if String.eqb (getDashboardRoute user) "/" then "/login"
                else getDashboardRoute user)).
  { unfold Index, getDashboardRoute. cbv zeta.
    destruct user as [|[]]; cbn [truthy negb opt_get strict_eq_str]; try reflexivity.
    - by destruct b.
    - by destruct (n =? 0).
    - by destruct (String.eqb s "").
    - destruct (strict_eq_str _ "ADMIN"); [reflexivity|].
      destruct (strict_eq_str _ "INSTRUCTOR"); [reflexivity|].
      destruct (strict_eq_str _ "STUDENT"); reflexivity. }
  split; [exact Heq|]. rewrite Heq.
  destruct (route_cases user) as [[_ ->]|[[_ ->]|[[_ ->]|(_ & _ & _ & ->)]]]; discriminate.
Qed.

End NavigationFacts.

Module StudentDashboardFacts.
Import ApiClient StudentDashboard Spec SpecMore ApiClientFacts.

Lemma get_opt_get_readable (j : JSON) (k : string) :
  is_null j = false → get (val j) k = Normal (opt_get (val j) k).
Proof. by destruct j. Qed.

Lemma enrollments_some_spec user status enrollments :
  forallb (fun e => negb (is_null e)) enrollments = true →
  ∃ b, enrollments_some user status enrollments = Normal b ∧
       (b = true ↔
        ∃ e, e ∈ enrollments ∧
             strict_eq (opt_get (val e) "studentId") (opt_get user "id") = true ∧
             opt_get (val e) "status" = val (JStr status)).
Proof.
  induction enrollments as [|e rest IH]; cbn [forallb enrollments_some].
  { intros _. exists false. split; [reflexivity|]. split; [discriminate|].
    intros (e & He & _). by apply elem_of_nil in He. }
  intros [He Hrest]%andb_prop. apply negb_true_iff in He.
  destruct (IH Hrest) as (b & Hb & Hiff).
  rewrite !(get_opt_get_readable _ _ He).
  assert (Hstatus : strict_eq_str (opt_get (val e) "status") status = true
                    ↔ opt_get (val e) "status" = val (JStr status)).
  { destruct (opt_get (val e) "status") as [|[]]; cbn [strict_eq_str];
      try (split; [discriminate|intros [=]]).
    rewrite String.eqb_eq. split; [by intros ->|by intros [=]]. }
  destruct (strict_eq _ (opt_get user "id")) eqn:Hid.
  - destruct (strict_eq_str _ status) eqn:Hs.
    + exists true. split; [reflexivity|]. split; [|reflexivity]. intros _.
      exists e. split; [apply list_elem_of_here|]. split; [exact Hid|by apply Hstatus].
    + exists b. split; [exact Hb|]. rewrite Hiff. split.
      * intros (e' & He' & H'). exists e'. split; [by apply list_elem_of_further|exact H'].
      * intros (e' & [->|He']%elem_of_cons & Hid' & Hs'); [|by exists e'].
        apply Hstatus in Hs'. congruence.
  - exists b. split; [exact Hb|]. rewrite Hiff. split.
    + intros (e' & He' & H'). exists e'. split; [by apply list_elem_of_further|exact H'].
    + intros (e' & [->|He']%elem_of_cons & Hid' & Hs'); [congruence|by exists e'].
Qed.

Lemma enrolled_with_spec user status course :
  readable course = true →
  ∃ b, enrolled_with user status course = Normal b ∧
       (b = true ↔ enrolled_as user status course).
Proof.
  unfold readable, enrolled_with, enrolled_as.
  intros [Hnull Hread]%andb_prop. apply negb_true_iff in Hnull.
  rewrite (get_opt_get_readable _ _ Hnull).
  destruct (opt_get (val course) "enrollments") as [|[| | | |enrollments|]];
    try discriminate.
  1,2: exists false; (split; [reflexivity|]); split; [discriminate|];
       intros (? & ? & [=] & _).
  destruct (enrollments_some_spec user status enrollments Hread) as (b & Hb & Hiff).
  exists b. split; [exact Hb|]. rewrite Hiff. split.
  - intros (e & He). by exists enrollments, e.
  - intros (? & e & [= <-] & He). by exists e.
Qed.

Lemma filter_enrolled_spec user status items :
  forallb readable items = true →
  ∃ kept, filter_enrolled user status items = Normal kept ∧
          (kept `sublist_of` items) ∧
          ∀ course, course ∈ kept ↔ course ∈ items ∧ enrolled_as user status course.
Proof.
  induction items as [|course rest IH]; cbn [forallb filter_enrolled].
  { intros _. exists []. split; [reflexivity|]. split; [constructor|].
    intros c. split; [by intros ?%elem_of_nil|by intros [?%elem_of_nil _]]. }
  intros [Hc Hrest]%andb_prop.
  destruct (IH Hrest) as (kept & -> & Hsub & Hmem).
  destruct (enrolled_with_spec user status course Hc) as (b & -> & Hb).
  destruct b.
  - exists (course :: kept). split; [reflexivity|]. split; [by constructor|].
    intros c. rewrite !elem_of_cons, Hmem. split.
    + intros [->|[? ?]]; [split; [by left|by apply Hb]|split; [by right|done]].
    + intros [[->|?] ?]; [by left|by right].
  - exists kept. split; [reflexivity|]. split; [by constructor|].
    intros c. rewrite elem_of_cons, Hmem. split.
    + intros [? ?]. split; [by right|done].
    + intros [[->|?] Hen]; [|done]. apply Hb in Hen. discriminate.
Qed.

Lemma enrolled_once_one_status user course s1 s2 :
  enrolled_once user course →
  enrolled_as user s1 course → enrolled_as user s2 course → s1 = s2.
Proof.
  intros Honce (es1 & e1 & Hes1 & He1 & Hid1 & Hs1) (es2 & e2 & Hes2 & He2 & Hid2 & Hs2).
  rewrite Hes1 in Hes2. injection Hes2 as <-.
  rewrite (Honce es1 e1 e2 Hes1 He1 He2 Hid1 Hid2) in Hs1. congruence.
Qed.

(** X22.  When every course of the answer can be read, the student
    dashboard always gets its three lists, each a selection of the
    courses in the order of the answer.  A course is under "active",
    "pending" or "completed" exactly when it lists an enrollment of
    the signed-in user with that status, so a course with no enrollment
    of the user, or only dropped or kicked ones, is shown nowhere; and a
    course that lists no two enrollments of the user is in at most one
    of the three. *)
Theorem course_lists_by_enrollment (user : Value) (items : list JSON) :
  forallb readable items = true →
  ∃ lists,
    course_lists (val (JArr items)) user = Normal lists ∧
    ((activeCourses lists `sublist_of` items) ∧
     (pendingInvites lists `sublist_of` items) ∧
     (completedCourses lists `sublist_of` items)) ∧
    (∀ course,
       (course ∈ activeCourses lists ↔ course ∈ items ∧ enrolled_as user "ACTIVE" course) ∧
       (course ∈ pendingInvites lists ↔ course ∈ items ∧ enrolled_as user "PENDING" course) ∧
       (course ∈ completedCourses lists
        ↔ course ∈ items ∧ enrolled_as user "COMPLETED" course)) ∧
    (∀ course,
       (∀ status, enrolled_as user status course →
                  status = "DROPPED" ∨ status = "KICKED") →
       (course ∉ activeCourses lists) ∧ (course ∉ pendingInvites lists) ∧
       (course ∉ completedCourses lists)) ∧
    (∀ course,
       enrolled_once user course →
       ¬ (course ∈ activeCourses lists ∧ course ∈ pendingInvites lists) ∧
       ¬ (course ∈ activeCourses lists ∧ course ∈ completedCourses lists) ∧
       ¬ (course ∈ pendingInvites lists ∧ course ∈ completedCourses lists)).
Proof.
  intros Hread. unfold course_lists, courses_filter.
  destruct (filter_enrolled_spec user "ACTIVE" items Hread) as (a & -> & Ha & Hma).
  destruct (filter_enrolled_spec user "PENDING" items Hread) as (p & -> & Hp & Hmp).
  destruct (filter_enrolled_spec user "COMPLETED" items Hread) as (c & -> & Hc & Hmc).
  eexists. split; [reflexivity|]. cbn [activeCourses pendingInvites completedCourses].
  split; [split; [exact Ha|split; [exact Hp|exact Hc]]|].
  split; [intros course; split; [apply Hma|split; [apply Hmp|apply Hmc]]|].
  split.
  - intros course Honly. rewrite Hma, Hmp, Hmc.
    repeat split; intros [_ Hen]; destruct (Honly _ Hen); discriminate.
  - intros course Honce. rewrite Hma, Hmp, Hmc.
    repeat split; intros [[_ H1] [_ H2]];
      pose proof (enrolled_once_one_status _ _ _ _ Honce H1 H2); discriminate.
Qed.

Lemma course_lists_by_enrollment_witness :
  forallb readable
    [course_with 1 [(7, "ACTIVE")]; course_with 2 [];
     course_with 3 [(7, "DROPPED"); (9, "ACTIVE")]] = true ∧
  ∃ lists,
    course_lists
      (val (JArr [course_with 1 [(7, "ACTIVE")]; course_with 2 [];
                  course_with 3 [(7, "DROPPED"); (9, "ACTIVE")]]))
      (val (Types.User_json Scenario.alice)) = Normal lists ∧
    course_with 1 [(7, "ACTIVE")] ∈ activeCourses lists ∧
    course_with 3 [(7, "DROPPED"); (9, "ACTIVE")] ∉ activeCourses lists.
Proof.
  split; [reflexivity|].
  destruct (course_lists_by_enrollment (val (Types.User_json Scenario.alice))
              [course_with 1 [(7, "ACTIVE")]; course_with 2 [];
               course_with 3 [(7, "DROPPED"); (9, "ACTIVE")]] eq_refl)
    as (lists & Hlists & _ & Hmem & Hgone & _).
  exists lists. split; [exact Hlists|]. split.
  - apply Hmem. split; [apply list_elem_of_here|].
    exists [JObj [("studentId", JNum 7); ("status", JStr "ACTIVE")]],
           (JObj [("studentId", JNum 7); ("status", JStr "ACTIVE")]).
    split; [reflexivity|]. split; [apply list_elem_of_here|]. split; reflexivity.
  - apply Hgone. intros status (es & e & Hes & He & Hid & Hstatus).
    injection Hes as <-.
    apply elem_of_cons in He as [->|He].
    { left. by injection Hstatus as <-. }
    apply elem_of_cons in He as [->|He]; [discriminate Hid|].
    by apply elem_of_nil in He.
Defined.

Lemma loadCourses_eq st :
  loadCourses st
  = (Normal tt,
     match request_outcome (answer "/courses?page=1&limit=50" no_options (world st)) with
     | Normal response =>
         match get (val response) "data" with
         | Normal data =>
             mkState (set_requests
                        (fun rs => (rs ++ [sent "/courses?page=1&limit=50" no_options
                                             (world st)])%list) (world st))
                     data false
         | Throw _ =>
             mkState (set_toasts
                        (fun ts => (ts ++ [error_toast "Failed to load courses"])%list)
                        (set_requests
                           (fun rs => (rs ++ [sent "/courses?page=1&limit=50" no_options
                                                (world st)])%list) (world st)))
                     (courses st) false
         end
     | Throw _ =>
         mkState (set_toasts
                    (fun ts => (ts ++ [error_toast "Failed to load courses"])%list)
                    (set_requests
                       (fun rs => (rs ++ [sent "/courses?page=1&limit=50" no_options
                                            (world st)])%list) (world st)))
                 (courses st) false
     end).
Proof.
  unfold loadCourses, ApiClient.getCourses, liftW, setCourses, setLoading, toast.
  unfold_monad. cbn [world courses loading]. rewrite request_eq.
  change ("/courses?page=" +:+ pretty 1 +:+ "&limit=" +:+ pretty 50)
    with "/courses?page=1&limit=50".
  destruct (request_outcome _) as [response|]; [|reflexivity].
  destruct (get (val response) "data"); reflexivity.
Qed.

(** X23.  [loadCourses] always completes normally with the spinner
    off, after exactly one request for the first fifty courses.  A
    failed request, or a [null] answer, shows one destructive toast and
    keeps the courses shown before.  Any other answer replaces the
    courses by its [data] member without checking it: when that is not
    an array no toast is shown, and the next render of the dashboard
    throws a [TypeError] while computing its lists. *)
Theorem loadCourses_trusts_the_answer (st : State) :
  let st' := snd (loadCourses st) in
  fst (loadCourses st) = Normal tt ∧
  loading st' = false ∧
  localStorage (world st') = localStorage (world st) ∧
  (∃ config, requests (world st') = (requests (world st) ++ [config])%list ∧
             req_url config = "http://localhost:3000/courses?page=1&limit=50" ∧
             req_method config = None) ∧
  (∀ e, fst (ApiClient.getCourses 1 50 (world st)) = Throw e ∨
        fst (ApiClient.getCourses 1 50 (world st)) = Normal JNull →
     toasts (world st')
     = (toasts (world st) ++ [error_toast "Failed to load courses"])%list ∧
     courses st' = courses st) ∧
  (∀ response, fst (ApiClient.getCourses 1 50 (world st)) = Normal response →
     response ≠ JNull →
     toasts (world st') = toasts (world st) ∧
     courses st' = opt_get (val response) "data" ∧
     ((∀ items, courses st' ≠ val (JArr items)) →
      ∀ user, ∃ e, course_lists (courses st') user = Throw e ∧ err_name e = "TypeError")).
Proof.
  cbv zeta. rewrite loadCourses_eq. cbn [fst snd]. unfold ApiClient.getCourses.
  rewrite request_eq. cbn [fst].
  change ("/courses?page=" +:+ pretty 1 +:+ "&limit=" +:+ pretty 50)
    with "/courses?page=1&limit=50".
  split; [reflexivity|].
  split; [by destruct (request_outcome _) as [r|]; [destruct (get (val r) "data")|]|].
  split; [by destruct (request_outcome _) as [r|]; [destruct (get (val r) "data")|]|].
  split.
  { exists (sent "/courses?page=1&limit=50" no_options (world st)).
    split; [|split; reflexivity].
    by destruct (request_outcome _) as [r|]; [destruct (get (val r) "data")|]. }
  split.
  - intros e [->| ->]; split; reflexivity.
  - intros response -> Hnull.
    assert (Hget : get (val response) "data" = Normal (opt_get (val response) "data"))
      by (by destruct response).
    rewrite Hget. cbn [world courses toasts set_requests].
    split; [reflexivity|]. split; [reflexivity|].
    intros Hshape user. unfold course_lists, courses_filter.
    destruct (opt_get (val response) "data") as [|[| | | |items|]];
      try (eexists; split; reflexivity).
    by destruct (Hshape items).
Qed.

Lemma loadCourses_trusts_the_answer_witness :
  courses (snd (loadCourses answered_with_empty_object)) = undefined ∧
  ∃ e, course_lists (courses (snd (loadCourses answered_with_empty_object))) null = Throw e ∧
       err_name e = "TypeError".
Proof.
  destruct (loadCourses_trusts_the_answer answered_with_empty_object)
    as (_ & _ & _ & _ & _ & Hanswer).
  assert (Hobject : JObj [] ≠ JNull) by discriminate.
  destruct (Hanswer (JObj []) eq_refl Hobject) as (_ & Hcourses & Hbreaks).
  split; [exact Hcourses|]. apply Hbreaks. intros items. discriminate.
Defined.

Lemma action_outcomes (api : M World JSON) (done failed : string) :
  one_request_only api →
  enrollment_action
    (try_catch
       (liftW api;;
        liftW (toast (success_toast done));;
        reload ← spawn loadCourses;
        mret tt)
       (fun error => liftW (toast (error_toast failed))))
    api done failed.
Proof.
  intros Hone st. cbv zeta.
  destruct (Hone (world st)) as ((Hls & _ & Hts & _) & _).
  unfold liftW, toast. unfold_monad.
  destruct (api (world st)) as [[j|e] w1]; cbn [fst snd world courses loading] in *.
  - match goal with |- context [loadCourses ?s] =>
      rewrite (loadCourses_eq s) end.
    cbn [fst snd world courses loading].
    split; [reflexivity|]. split.
    { destruct (request_outcome _) as [r|]; [destruct (get (val r) "data")|];
        cbn [world set_toasts set_requests localStorage]; exact Hls. }
    split; [intros ? [=]|]. intros j' _.
    split; [|split].
    + exists (sent "/courses?page=1&limit=50" no_options
                (set_toasts (fun ts => (ts ++ [success_toast done])%list) w1)).
      split; [|reflexivity].
      destruct (request_outcome _) as [r|]; [destruct (get (val r) "data")|];
        reflexivity.
    + destruct (request_outcome _) as [r|]; [destruct (get (val r) "data")|];
        cbn [world courses set_toasts set_requests toasts]; rewrite Hts;
        [left; reflexivity|right|right]; (split; [|reflexivity]);
        rewrite <- app_assoc; reflexivity.
    + destruct (request_outcome _) as [r|]; [destruct (get (val r) "data")|]; reflexivity.
  - split; [reflexivity|]. split; [exact Hls|].
    split; [|intros ? [=]]. intros e' _.
    cbn [set_toasts requests toasts]. rewrite Hts. repeat split.
Qed.

(** X24.  Accepting an invitation, rejecting one and dropping a course
    follow one pattern.  The handler never rejects and never touches
    the token storage.  When its request fails it shows its own
    destructive toast and reloads nothing, so the lists stay as they
    were.  When the request succeeds it shows its success toast and
    then reloads the courses with one further request; a reload that
    fails adds the toast of the loader and keeps the old courses. *)
Theorem enrollment_handlers (courseId : Z) :
  enrollment_action (handleAcceptEnrollment courseId)
    (ApiClientMethods.acceptEnrollment courseId)
    "Enrollment accepted successfully" "Failed to accept enrollment" ∧
  enrollment_action (handleRejectEnrollment courseId)
    (ApiClientMethods.rejectEnrollment courseId)
    "Enrollment rejected" "Failed to reject enrollment" ∧
  enrollment_action (handleDropCourse courseId)
    (ApiClientMethods.dropFromCourse courseId)
    "Dropped from course successfully" "Failed to drop from course".
Proof.
  split; [|split]; apply action_outcomes; apply GatewayFacts.request_sends_one_only.
Qed.

Lemma enrollment_handlers_witness :
  toasts (world (snd (handleDropCourse 42 (mount (Scenario.browser ∅ Scenario.offline)))))
  = [error_toast "Failed to drop from course"] ∧
  courses (snd (handleDropCourse 42 (mount (Scenario.browser ∅ Scenario.offline))))
  = val (JArr []).
Proof.
  destruct (enrollment_handlers 42) as (_ & _ & Hdrop).
  destruct (Hdrop (mount (Scenario.browser ∅ Scenario.offline))) as (_ & _ & Hfail & _).
  destruct (Hfail (TypeError "Failed to fetch") eq_refl) as (_ & Htoasts & Hcourses & _).
  split; [exact Htoasts|exact Hcourses].
Defined.

End StudentDashboardFacts.
